(** * Relaxed 1-D isentropic profile (contrib/ipython/Create_1D_ASPECT_profile.ipynb)

    A shallow embedding of the numeric core of the notebook: the two
    isentrope solvers, the depth/gravity integrator, the relaxation grid
    of [relaxed_profile] and the table written by [update_plot].

    Conventions.
    - Python floats are idealised as exact rationals ([Q]); rounding,
      infinities, NaN and the sign of a zero are outside the model.
      Numeric equality is [Qeq] ([==]).  The one expression for which a
      claim asserts an exact equality of floats is also evaluated in
      binary64.
    - numpy arrays are lists; an in-place update [a[i] = v] is stdpp's
      list insert, fancy indexing [a[mask]] is a map over the index list.
    - The scipy routines ([brentq], [fsolve], [UnivariateSpline],
      [odeint]) are not part of the notebook: they are the fields of the
      class [Scipy], and what the proofs need of them is stated as
      explicit contracts.  The root finders are oracle algorithms: a
      finite strategy that queries the residual function and finally
      stops, which is what lets the model thread the evaluator through
      the callbacks.  The data a spline fit refuses (fewer than four
      points, abscissae that decrease, arrays of different lengths) are
      refused in the model too.
    - The burnman property evaluator ([rock]) is modelled from the
      interface the specification gives for it. *)

From Stdlib Require Import QArith Qabs Qminmax Qround Lqa ZArith Lia.
From Stdlib Require Import String Ascii PrimFloat.
From stdpp Require Import base list strings pretty.

Local Open Scope Q_scope.

(** ** Errors and results *)

(** The exceptions that can leave the numeric core.  [RootNotBracketed]
    is scipy's [ValueError] ("f(a) and f(b) must have different signs"),
    [NonConvergence] its [RuntimeError] ("Failed to converge"),
    [ImproperInput] the [TypeError] of [fsolve] on malformed arguments;
    [ValueError] and [IndexError] come from numpy, from list indexing
    and from the checks of a spline fit on its arrays; [FitpackError] is
    [dfitpack.error], raised by a spline fit on too few points;
    [StateNotSet] is a property read before any [set_state];
    [InvalidGrid] and [InvalidSmoothingWidth] are the failures the
    specification gives the smoothing routine. *)
Inductive error : Type :=
| RootNotBracketed
| NonConvergence
| ImproperInput
| ValueError
| IndexError
| FitpackError
| StateNotSet
| InvalidGrid
| InvalidSmoothingWidth.

Inductive result (A : Type) : Type :=
| Ok (a : A)
| Err (e : error).
Arguments Ok {A} a.
Arguments Err {A} e.


Definition result_bind {A B} (r : result A) (k : A -> result B) : result B :=
  match r with Ok a => k a | Err e => Err e end.

(** ** Comparisons on rationals *)

Definition Qlt_bool (x y : Q) : bool := negb (Qle_bool y x).

(** ** numpy on lists *)

(** [np.linspace(start, stop, num)]: [num] samples, the i-th being
    [start + i * (stop - start) / (num - 1)]; a single sample is [start]. *)
Definition np_linspace (start stop : Q) (num : nat) : list Q :=
  let step := (stop - start) / inject_Z (Z.of_nat (num - 1)) in
  map (fun i : nat => start + inject_Z (Z.of_nat i) * step) (seq 0 num).

Definition np_zeros_like (a : list Q) : list Q := replicate (length a) 0.

(** [np.empty_like]: the contents are unspecified; the loops below
    overwrite every slot before the array is returned. *)
Definition np_empty_like (a : list Q) : list Q := replicate (length a) 0.

Definition np_abs (a : list Q) : list Q := map Qabs a.

(** [np.max] and [np.min] of a one-dimensional array; both raise
    [ValueError] on an empty one. *)
Definition np_max (a : list Q) : result Q :=
  match a with
  | [] => Err ValueError
  | x :: xs => Ok (foldl Qmax x xs)
  end.

Definition np_min (a : list Q) : result Q :=
  match a with
  | [] => Err ValueError
  | x :: xs => Ok (foldl Qmin x xs)
  end.

(** [np.gradient] of a one-dimensional array with unit spacing: central
    differences inside, one-sided differences at the two ends; fewer than
    two samples raise [ValueError]. *)
Fixpoint gradient_interior (prev cur : Q) (rest : list Q) : list Q :=
  match rest with
  | [] => [cur - prev]
  | next :: rest' => ((next - prev) / 2) :: gradient_interior cur next rest'
  end.

Definition np_gradient (f : list Q) : result (list Q) :=
  match f with
  | f0 :: f1 :: rest => Ok ((f1 - f0) :: gradient_interior f0 f1 rest)
  | _ => Err ValueError
  end.

(** [np.all(np.diff(x) >= 0.0)]: no sample is below the one before it. *)
Fixpoint diff_nonnegative_from (x0 : Q) (x : list Q) : bool :=
  match x with
  | [] => true
  | x1 :: x' => Qle_bool x0 x1 && diff_nonnegative_from x1 x'
  end.

Definition np_all_diff_nonnegative (x : list Q) : bool :=
  match x with
  | [] => true
  | x0 :: x' => diff_nonnegative_from x0 x'
  end.

(** Fancy indexing [a[mask]] with a list of in-range indices. *)
Definition take_indices (a : list Q) (mask : list nat) : list Q :=
  omap (fun idx => a !! idx) mask.

(** Fancy assignment [a[mask] = values]. *)
Fixpoint put_indices (a : list Q) (mask : list nat) (values : list Q) : list Q :=
  match mask, values with
  | idx :: mask', v :: values' => put_indices (<[idx := v]> a) mask' values'
  | _, _ => a
  end.

(** [np.meshgrid(x, y)] followed by [np.ndarray.flatten] of both
    outputs: row-major, one row per element of [y]. *)
Definition meshgrid_flat_x (x y : list Q) : list Q :=
  flat_map (fun _ => x) y.
Definition meshgrid_flat_y (x y : list Q) : list Q :=
  flat_map (fun yj => map (fun _ => yj) x) y.

(** [a.reshape((rows, cols))] of a flat array of [rows * cols] items. *)
Fixpoint reshape (rows cols : nat) (a : list Q) : list (list Q) :=
  match rows with
  | O => []
  | S rows' => take cols a :: reshape rows' cols (drop cols a)
  end.

(** ** The property evaluator *)

(** Modelled from the spec: the property evaluator interface (the class
    [burnman.PerplexMaterial] is not in the notebook).  It exposes the
    valid (pressure, temperature) bounds as a pair of pairs, a molar
    mass, [set_state(pressure, temperature)] followed by an
    attribute-style read of the single-point properties, and
    [evaluate(property_names, pressures, temperatures)] returning one
    array per property.  The property table itself is an opaque function
    of the property name, the pressure and the temperature. *)
Record Rock : Type := mkRock {
  bounds : (Q * Q) * (Q * Q);
  molar_mass : Q;
  table : string -> Q -> Q -> Q;
  state : option (Q * Q)
}.

Definition set_state (rock : Rock) (P T : Q) : Rock :=
  mkRock (bounds rock) (molar_mass rock) (table rock) (Some (P, T)).

Definition attribute (rock : Rock) (name : string) : result Q :=
  match state rock with
  | Some (P, T) => Ok (table rock name P T)
  | None => Err StateNotSet
  end.

Definition evaluate (rock : Rock) (names : list string) (pressures temperatures : list Q)
  : list (list Q) :=
  map (fun name => zip_with (table rock name) pressures temperatures) names.

(** ** Computations that use the evaluator

    A computation receives the evaluator, may move its state, and either
    returns a value or raises; the evaluator survives an exception. *)
Definition M (A : Type) : Type := Rock -> result A * Rock.

Definition ret {A} (a : A) : M A := fun rock => (Ok a, rock).
Definition raise {A} (e : error) : M A := fun rock => (Err e, rock).
Definition bind {A B} (c : M A) (k : A -> M B) : M B :=
  fun rock =>
    match c rock with
    | (Ok a, rock') => k a rock'
    | (Err e, rock') => (Err e, rock')
    end.
Definition lift {A} (r : result A) : M A := fun rock => (r, rock).
(** A query that reads the evaluator and leaves it as it is. *)
Definition reads {A} (f : Rock -> result A) : M A := fun rock => (f rock, rock).
Definition set_state_M (P T : Q) : M unit := fun rock => (Ok tt, set_state rock P T).
Definition attribute_M (name : string) : M Q := reads (fun rock => attribute rock name).

Notation "'let*' x := c 'in' k" := (bind c (fun x => k))
  (at level 10, x name, c at level 100, k at level 200).

(** ** Root finders as oracle algorithms *)

(** What a root finder hands back: a root, flagged as converged or not
    (a non-converged root comes with a warning only), or an exception. *)
Inductive outcome : Type :=
| Root (x : Q) (converged : bool)
| Raise (e : error).

(** A root finder only ever learns about the function through calls:
    it asks for the value at [x] and continues with the answer. *)
Inductive oracle : Type :=
| Done (o : outcome)
| Query (x : Q) (k : Q -> oracle).

(** Running a strategy against a callback that uses the evaluator. *)
Fixpoint run_oracle (o : oracle) (f : Q -> M Q) : M Q :=
  match o with
  | Done (Root x _) => ret x
  | Done (Raise e) => raise e
  | Query x k => fun rock =>
      match f x rock with
      | (Ok y, rock') => run_oracle (k y) f rock'
      | (Err e, rock') => (Err e, rock')
      end
  end.

(** Running it against a pure function. *)
Fixpoint run_pure (o : oracle) (f : Q -> Q) : outcome :=
  match o with
  | Done r => r
  | Query x k => run_pure (k (f x)) f
  end.

(** The points at which a strategy evaluates a pure function, in order. *)
Fixpoint queries (o : oracle) (f : Q -> Q) : list Q :=
  match o with
  | Done _ => []
  | Query x k => x :: queries (k (f x)) f
  end.

(** ** The scipy routines the notebook calls

    [brentq a b] is [brentq(f, a, b)] with the default tolerances,
    [fsolve x0] is [fsolve(func, x0)] on a one-element vector,
    [UnivariateSpline x y] the spline fitted to data the fit accepts,
    as a function (what the fit refuses is in [spline_fit] below), and
    [odeint func y0 t] the values of a scalar solution at the times [t]
    ([func] takes the value first and the time second).  The integrator
    is taken to succeed. *)
Class Scipy : Type := {
  brentq : Q -> Q -> oracle;
  fsolve : Q -> oracle;
  UnivariateSpline : list Q -> list Q -> Q -> Q;
  odeint : (Q -> Q -> Q) -> Q -> list Q -> list Q
}.

(** Constants read from numpy and burnman: [np.pi] and
    [burnman.constants.G]. *)
Class Constants : Type := {
  np_pi : Q;
  constants_G : Q
}.

(** ** The notebook *)

Section Notebook.
Context `{sp : Scipy} `{cst : Constants}.

(** The call [UnivariateSpline(x, y)] with the default degree 3 and
    the default smoothing: the constructor raises [ValueError] when [x]
    decreases somewhere ("x must be increasing if s > 0") or when the
    two arrays differ in length, and the fit itself raises
    [dfitpack.error] unless there are more points than the degree. *)
Definition spline_fit (x y : list Q) : result (Q -> Q) :=
  if negb (np_all_diff_nonnegative x) then Err ValueError
  else if negb (Nat.eqb (length x) (length y)) then Err ValueError
  else if (length x <=? 3)%nat then Err FitpackError
  else Ok (UnivariateSpline x y).

(** [_deltaS] of [isentrope]: moves the evaluator to (P, T) and reads
    its entropy. *)
Definition isentrope_deltaS (T S P : Q) : M Q :=
  let* _ := set_state_M P T in
  let* rock_S := attribute_M "S" in
  ret (rock_S - S).

Fixpoint isentrope_loop (entropy : Q) (todo : list Q) (i : nat)
    (sol : Q) (temperatures : list Q) : M (list Q) :=
  match todo with
  | [] => ret temperatures
  | P :: todo' =>
      let* bounds_1 := reads (fun rock => Ok (snd (bounds rock))) in
      let* sol := run_oracle (brentq (fst bounds_1) (snd bounds_1))
                    (fun T => isentrope_deltaS T entropy P) in
      isentrope_loop entropy todo' (S i) sol (<[i := sol]> temperatures)
  end.

Definition isentrope (pressures : list Q) (entropy T_guess : Q) : M (list Q) :=
  let sol := T_guess in
  let temperatures := np_empty_like pressures in
  isentrope_loop entropy pressures 0 sol temperatures.

(** [_deltaS] of [interp_isentrope]: the residual of the interpolant. *)
Definition interp_deltaS (interp : Q -> Q -> Q) (T S P : Q) : Q :=
  interp P T - S.

Fixpoint interp_isentrope_loop (interp : Q -> Q -> Q) (entropy : Q)
    (todo : list Q) (i : nat) (sol : Q) (temperatures : list Q) : result (list Q) :=
  match todo with
  | [] => Ok temperatures
  | P :: todo' =>
      match run_pure (fsolve sol) (fun T => interp_deltaS interp T entropy P) with
      | Root sol _ =>
          interp_isentrope_loop interp entropy todo' (S i) sol (<[i := sol]> temperatures)
      | Raise e => Err e
      end
  end.

Definition interp_isentrope (interp : Q -> Q -> Q) (pressures : list Q)
    (entropy T_guess : Q) : result (list Q) :=
  interp_isentrope_loop interp entropy pressures 0 T_guess (np_empty_like pressures).

(** One pass of the gravity iteration: hydrostatic integration for the
    depths, then Poisson's equation from the outer radius inwards. *)
Definition gravity_pass (pressures densities : list Q)
    (surface_gravity outer_radius : Q) (gravity : list Q) : result (list Q * list Q) :=
  result_bind (spline_fit pressures densities) (fun rhofunc =>
  result_bind (spline_fit pressures gravity) (fun gfunc =>
  let depths := odeint (fun p x => 1 / (gfunc x * rhofunc x)) 0 pressures in
  let radii := map (fun d => outer_radius - d) depths in
  result_bind (spline_fit (rev radii) (rev densities)) (fun rhofunc =>
  let poisson := fun p x => 4 * np_pi * constants_G * rhofunc x * x * x in
  match radii !! 0%nat with
  | None => Err IndexError
  | Some r0 =>
      let gravity := odeint poisson (surface_gravity * r0 * r0) radii in
      let gravity := zip_with Qdiv (zip_with Qdiv gravity radii) radii in
      Ok (depths, gravity)
  end))).

Fixpoint gravity_iterations (n : nat) (pressures densities : list Q)
    (surface_gravity outer_radius : Q) (depths gravity : list Q)
    : result (list Q * list Q) :=
  match n with
  | O => Ok (depths, gravity)
  | S n' =>
      match gravity_pass pressures densities surface_gravity outer_radius gravity with
      | Ok (depths', gravity') =>
          gravity_iterations n' pressures densities surface_gravity outer_radius
            depths' gravity'
      | Err e => Err e
      end
  end.

Definition n_gravity_iterations : nat := 5.

Definition compute_depth_gravity_profiles (pressures densities : list Q)
    (surface_gravity outer_radius : Q) : result (list Q * list Q) :=
  let gravity := replicate (length pressures) surface_gravity in
  gravity_iterations n_gravity_iterations pressures densities
    surface_gravity outer_radius [] gravity.


(** *** The relaxation grid of [relaxed_profile] *)

(** [grid_pressures[1]] and the like: a Python index that may be out of
    range. *)
Definition index (a : list Q) (i : nat) : result Q :=
  match a !! i with
  | Some x => Ok x
  | None => Err IndexError
  end.

(** The temperature smoothing width, as the notebook computes it. *)
Definition temperature_stdev_of
    (max_temperature_stdev temperature_smoothing_factor pressure_stdev : Q)
    (unsmoothed_grid_isentrope_temperatures grid_pressures : list Q) : result Q :=
  result_bind (np_gradient unsmoothed_grid_isentrope_temperatures) (fun grad =>
  result_bind (np_max (np_abs grad)) (fun steepest =>
  result_bind (index grid_pressures 1) (fun gp1 =>
  result_bind (index grid_pressures 0) (fun gp0 =>
  np_min [max_temperature_stdev;
          temperature_smoothing_factor * pressure_stdev * steepest / (gp1 - gp0)])))).

(** [mask = [idx for idx, Td in enumerate(Tdiff) if Td < Tdiff_max]],
    [idx] being the index of the head of [Tdiff]. *)
Fixpoint mask_from (idx : nat) (Tdiff : list Q) (Tdiff_max : Q) : list nat :=
  match Tdiff with
  | [] => []
  | Td :: Tdiff' =>
      if Qlt_bool Td Tdiff_max
      then idx :: mask_from (S idx) Tdiff' Tdiff_max
      else mask_from (S idx) Tdiff' Tdiff_max
  end.

(** What the grid stage of [relaxed_profile] leaves behind: the
    smoothing width, the window, the nodes handed to [rock.evaluate]
    and the two grid arrays (reshaped to the mesh). *)
Record Grid : Type := mkGrid {
  grid_pressures : list Q;
  grid_temperatures : list Q;
  temperature_stdev : Q;
  Tdiff_max : Q;
  mask : list nat;
  evaluated_pressures : list Q;
  evaluated_temperatures : list Q;
  grid_entropies : list (list Q);
  grid_volumes : list (list Q)
}.

Definition relaxation_grid (rock : Rock) (isentrope_spline : Q -> Q)
    (min_grid_pressure max_grid_pressure min_grid_temperature max_grid_temperature : Q)
    (n_gridpoints : nat * nat)
    (pressure_stdev temperature_smoothing_factor max_temperature_stdev truncate : Q)
    : result Grid :=
  let grid_pressures := np_linspace min_grid_pressure max_grid_pressure (fst n_gridpoints) in
  let grid_temperatures :=
    np_linspace min_grid_temperature max_grid_temperature (snd n_gridpoints) in
  let unsmoothed_grid_isentrope_temperatures := map isentrope_spline grid_pressures in
  let pp := meshgrid_flat_x grid_pressures grid_temperatures in
  let TT := meshgrid_flat_y grid_pressures grid_temperatures in
  let mesh_shape := (length grid_temperatures, length grid_pressures) in
  let grid_entropies := np_zeros_like pp in
  let grid_volumes := np_zeros_like pp in
  let Tdiff := np_abs (zip_with Qminus (map isentrope_spline pp) TT) in
  result_bind
    (temperature_stdev_of max_temperature_stdev temperature_smoothing_factor
       pressure_stdev unsmoothed_grid_isentrope_temperatures grid_pressures)
    (fun temperature_stdev =>
  let Tdiff_max := 50 + 30 + truncate * temperature_stdev in
  let mask := mask_from 0 Tdiff Tdiff_max in
  let pp_mask := take_indices pp mask in
  let TT_mask := take_indices TT mask in
  match evaluate rock ["S"; "V"]%string pp_mask TT_mask with
  | [S_values; V_values] =>
      let grid_entropies := put_indices grid_entropies mask S_values in
      let grid_volumes := put_indices grid_volumes mask V_values in
      Ok (mkGrid grid_pressures grid_temperatures temperature_stdev Tdiff_max mask
            pp_mask TT_mask
            (reshape (fst mesh_shape) (snd mesh_shape) grid_entropies)
            (reshape (fst mesh_shape) (snd mesh_shape) grid_volumes))
  | _ => Err ValueError
  end).

(** *** [relaxed_profile] *)

(** The three interpolants [burnman.tools.interp_smoothed_array_and_derivatives]
    returns for a grid array: the smoothed field and its derivatives
    along x (pressure) and y (temperature).  The routine belongs to
    burnman's library, not to the notebook; it is a parameter here. *)
Variable interp_smoothed_array_and_derivatives :
  list (list Q) -> list Q -> list Q -> Q -> Q -> Q ->
  (Q -> Q -> Q) * (Q -> Q -> Q) * (Q -> Q -> Q).

(** Modelled from the spec: the failures of
    [burnman.tools.interp_smoothed_array_and_derivatives], which is not
    in the notebook.  Section 4.2: it "must fail with InvalidGrid if
    the grid does not have at least two points in each dimension, and
    with InvalidSmoothingWidth if either standard deviation is
    negative"; on any other input it returns the three interpolants of
    the parameter. *)
Definition smoothed_interpolants (array : list (list Q)) (x_values y_values : list Q)
    (x_stdev y_stdev truncate : Q)
    : result ((Q -> Q -> Q) * (Q -> Q -> Q) * (Q -> Q -> Q)) :=
  if (length x_values <? 2)%nat || (length y_values <? 2)%nat then Err InvalidGrid
  else if Qlt_bool x_stdev 0 || Qlt_bool y_stdev 0 then Err InvalidSmoothingWidth
  else Ok (interp_smoothed_array_and_derivatives array x_values y_values
             x_stdev y_stdev truncate).

Record Profile : Type := mkProfile {
  smoothed_temperatures : list Q;
  depths : list Q;
  gravity : list Q;
  densities : list Q;
  alphas_relaxed : list Q;
  compressibilities_relaxed : list Q;
  specific_heats_relaxed : list Q;
  Vss : list Q;
  Vps : list Q;
  dVsdT : list Q;
  dVpdT : list Q
}.

Definition first_array (arrays : list (list Q)) : result (list Q) :=
  match arrays with
  | a :: _ => Ok a
  | [] => Err IndexError
  end.

Definition two_arrays (arrays : list (list Q)) : result (list Q * list Q) :=
  match arrays with
  | [a; b] => Ok (a, b)
  | _ => Err ValueError
  end.

Definition relaxed_profile (potential_temperature max_pressure
    surface_gravity outer_radius : Q) (n_points : nat) (n_gridpoints : nat * nat)
    (pressure_stdev temperature_smoothing_factor max_temperature_stdev truncate
     min_grid_temperature max_grid_temperature : Q) : M Profile :=
  let* min_grid_pressure := reads (fun rock => Ok (fst (fst (bounds rock)))) in
  let* max_grid_pressure := reads (fun rock => Ok (snd (fst (bounds rock)))) in
  let* min_grid_temperature := reads (fun rock => Ok (fst (snd (bounds rock)))) in
  let* max_grid_temperature := reads (fun rock => Ok (snd (snd (bounds rock)))) in
  let* _ := set_state_M 100000 potential_temperature in
  let* entropy := attribute_M "S" in
  let pressures := np_linspace 100000 max_pressure n_points in
  let* temperatures := isentrope pressures entropy potential_temperature in
  let* isentrope_spline := lift (spline_fit pressures temperatures) in
  let* grid := reads (fun rock =>
    relaxation_grid rock isentrope_spline
      min_grid_pressure max_grid_pressure min_grid_temperature max_grid_temperature
      n_gridpoints pressure_stdev
      temperature_smoothing_factor max_temperature_stdev truncate) in
  let* S_interps :=
    lift (smoothed_interpolants (grid_entropies grid)
            (grid_pressures grid) (grid_temperatures grid)
            pressure_stdev (temperature_stdev grid) truncate) in
  let '(interp_smoothed_S, interp_smoothed_dSdP, interp_smoothed_dSdT) := S_interps in
  let* V_interps :=
    lift (smoothed_interpolants (grid_volumes grid)
            (grid_pressures grid) (grid_temperatures grid)
            pressure_stdev (temperature_stdev grid) truncate) in
  let '(interp_smoothed_V, interp_smoothed_dVdP, interp_smoothed_dVdT) := V_interps in
  let* smoothed_temperatures :=
    lift (interp_isentrope interp_smoothed_S pressures entropy potential_temperature) in
  let* densities := reads (fun rock =>
    first_array (evaluate rock ["rho"]%string pressures smoothed_temperatures)) in
  let* depths_gravity :=
    lift (compute_depth_gravity_profiles pressures densities surface_gravity outer_radius) in
  let '(depths, gravity) := depths_gravity in
  let volumes := zip_with interp_smoothed_V pressures smoothed_temperatures in
  let dSdT := zip_with interp_smoothed_dSdT pressures smoothed_temperatures in
  let dVdT := zip_with interp_smoothed_dVdT pressures smoothed_temperatures in
  let dVdP := zip_with interp_smoothed_dVdP pressures smoothed_temperatures in
  let alphas_relaxed := zip_with Qdiv dVdT volumes in
  let compressibilities_relaxed := zip_with Qdiv (map Qopp dVdP) volumes in
  let* params_molar_mass := reads (fun rock => Ok (molar_mass rock)) in
  let specific_heats_relaxed :=
    map (fun x => x / params_molar_mass) (zip_with Qmult smoothed_temperatures dSdT) in
  let dT := 1 # 10 in
  let* Vsub := reads (fun rock =>
    two_arrays (evaluate rock ["p_wave_velocity"; "shear_wave_velocity"]%string
                  pressures (map (fun T => T - dT / 2) smoothed_temperatures))) in
  let '(Vpsub, Vssub) := Vsub in
  let* Vadd := reads (fun rock =>
    two_arrays (evaluate rock ["p_wave_velocity"; "shear_wave_velocity"]%string
                  pressures (map (fun T => T + dT / 2) smoothed_temperatures))) in
  let '(Vpadd, Vsadd) := Vadd in
  let Vps := map (fun x => x / 2) (zip_with Qplus Vpadd Vpsub) in
  let Vss := map (fun x => x / 2) (zip_with Qplus Vsadd Vssub) in
  let dVpdT := map (fun x => x / dT) (zip_with Qminus Vpadd Vpsub) in
  let dVsdT := map (fun x => x / dT) (zip_with Qminus Vsadd Vssub) in
  ret (mkProfile smoothed_temperatures depths gravity densities
         alphas_relaxed compressibilities_relaxed specific_heats_relaxed
         Vss Vps dVsdT dVpdT).

End Notebook.

(** ** The output stage of [update_plot] *)

(** [np.interp(x, xp, fp)] for one abscissa: the end values outside the
    sample range, the chord of the enclosing interval inside. *)
Fixpoint interp_from (x xp0 fp0 : Q) (xp fp : list Q) : Q :=
  match xp, fp with
  | xp1 :: xp', fp1 :: fp' =>
      if Qlt_bool x xp1
      then (fp1 - fp0) / (xp1 - xp0) * (x - xp0) + fp0
      else interp_from x xp1 fp1 xp' fp'
  | _, _ => fp0
  end.

Definition interp_at (xp fp : list Q) (x : Q) : Q :=
  match xp, fp with
  | xp0 :: xp', fp0 :: fp' =>
      if Qle_bool x xp0 then fp0 else interp_from x xp0 fp0 xp' fp'
  | _, _ => 0
  end.

(** [np.interp] on an array of abscissae; it raises [ValueError] when
    there are no sample points or [xp] and [fp] differ in length. *)
Definition np_interp (x xp fp : list Q) : result (list Q) :=
  match xp with
  | [] => Err ValueError
  | _ :: _ =>
      if Nat.eqb (length xp) (length fp)
      then Ok (map (interp_at xp fp) x)
      else Err ValueError
  end.

(** [np.array(columns).T]: the rows of the table; the columns must have
    one length. *)
Definition row_of (columns : list (list Q)) (k : nat) : list Q :=
  omap (fun column : list Q => column !! k) columns.

Definition np_array_T (columns : list (list Q)) : result (list (list Q)) :=
  match columns with
  | [] => Ok []
  | c :: _ =>
      if forallb (fun c' : list Q => Nat.eqb (length c') (length c)) columns
      then Ok (map (row_of columns) (seq 0 (length c)))
      else Err ValueError
  end.

(** *** The conversion ['%.10e' % value]

    C's [%e] directive with precision [prec], on an exact rational: an
    optional minus sign, one digit, a point, [prec] digits, the letter e,
    the sign of the decimal exponent and at least two exponent digits.
    The value is rounded to the nearest mantissa, ties to even. *)
Definition digit_char (d : Z) : ascii :=
  ascii_of_nat (48 + Z.to_nat (d mod 10)).

(** The [n] low decimal digits of [m], most significant first, put in
    front of [acc]. *)
Fixpoint digits_fixed (n : nat) (m : Z) (acc : string) : string :=
  match n with
  | O => acc
  | S n' => digits_fixed n' (m / 10) (String (digit_char m) acc)
  end.

(** The decimal exponent of [a > 0], the [e] with
    [10^e <= a < 10^(e+1)], looked for in at most [fuel] steps of one
    decade from [e]. *)
Fixpoint decimal_exponent (fuel : nat) (a : Q) (e : Z) : Z :=
  match fuel with
  | O => e
  | S fuel' =>
      if Qle_bool 10 a then decimal_exponent fuel' (a / 10) (e + 1)
      else if Qlt_bool a 1 then decimal_exponent fuel' (a * 10) (e - 1)
      else e
  end.

Definition round_half_even (q : Q) : Z :=
  let f := Qfloor q in
  let r := q - inject_Z f in
  if Qlt_bool r (1 # 2) then f
  else if Qlt_bool (1 # 2) r then (f + 1)%Z
  else if Z.even f then f else (f + 1)%Z.

(** Mantissa (an integer of [prec + 1] digits) and decimal exponent. *)
Definition mantissa_exponent (prec : nat) (q : Q) : Z * Z :=
  if Qeq_bool q 0 then (0%Z, 0%Z)
  else
    let a := Qabs q in
    let fuel := (Z.to_nat (Z.log2 (Z.abs (Qnum a))) + Pos.to_nat (Pos.size (Qden a)) + 2)%nat in
    let e := decimal_exponent fuel a 0 in
    let m := round_half_even (a * Qpower 10 (Z.of_nat prec - e)) in
    if (10 ^ Z.of_nat (S prec) <=? m)%Z then ((m / 10)%Z, (e + 1)%Z) else (m, e).

Definition mantissa_string (prec : nat) (m : Z) : string :=
  String (digit_char (m / 10 ^ Z.of_nat prec))
    (String "."%char (digits_fixed prec m EmptyString)).

(** The number of decimal digits of a natural number, at least one. *)
Fixpoint decimal_width (fuel : nat) (n : Z) : nat :=
  match fuel with
  | O => 1
  | S fuel' => if (n <? 10)%Z then 1%nat else S (decimal_width fuel' (n / 10))
  end.

Definition exponent_string (e : Z) : string :=
  let a := Z.abs e in
  String (if (e <? 0)%Z then "-"%char else "+"%char)
    (digits_fixed (Nat.max 2 (decimal_width (Z.to_nat a) a)) a EmptyString).

Definition format_e (prec : nat) (q : Q) : string :=
  let '(m, e) := mantissa_exponent prec q in
  ((if Qlt_bool q 0 then "-" else "") ++ mantissa_string prec m
     ++ "e" ++ exponent_string e)%string.

(** *** [np.savetxt] *)

Definition newline : string := String (ascii_of_nat 10) EmptyString.
Definition tab : string := String (ascii_of_nat 9) EmptyString.

Fixpoint join (delimiter : string) (cells : list string) : string :=
  match cells with
  | [] => EmptyString
  | [c] => c
  | c :: cells' => (c ++ delimiter ++ join delimiter cells')%string
  end.

(** One line per row: the cells converted with the one format and
    joined by the delimiter. *)
Definition savetxt_row (prec : nat) (delimiter : string) (row : list Q) : string :=
  (join delimiter (map (format_e prec) row) ++ newline)%string.

(** [np.savetxt(outfile, X, header=h, fmt='%.<prec>e', delimiter=d,
    comments='')]: with an empty comment prefix the header is written
    as it is, followed by a newline, then the rows.  The result lists
    what is written piece by piece: the header block first, then one
    line per row. *)
Definition np_savetxt (X : list (list Q)) (header : string) (prec : nat)
    (delimiter : string) : list string :=
  (header ++ newline)%string :: map (savetxt_row prec delimiter) X.

(** The header of [isentrope_properties.txt]; [str(n_points)] is the
    decimal numeral. *)
Definition header_line_1 : string :=
  "# This ASPECT-compatible file contains material properties calculated along an isentrope by the BurnMan software.".
Definition header_line_2 (n_points : nat) : string :=
  ("# POINTS: " ++ pretty n_points ++ " ")%string.
Definition header_line_3 : string :=
  "# depth (m), pressure (Pa), temperature (K), density (kg/m^3), gravity (m/s^2), thermal expansivity (1/K), specific heat (J/K/kg), compressibility (1/Pa), seismic Vs (m/s), seismic Vp (m/s), seismic dVs/dT (m/s/K), seismic dVp/dT (m/s/K)".
Definition header_line_4 : string :=
  ("depth                   pressure                temperature             density                 gravity                 thermal_expansivity     specific_heat           compressibility "
   ++ tab ++
   "seismic_Vs              seismic_Vp              seismic_dVs_dT          seismic_dVp_dT")%string.

Definition header (n_points : nat) : string :=
  (header_line_1 ++ newline ++ header_line_2 n_points ++ newline
     ++ header_line_3 ++ newline ++ header_line_4)%string.

Section OutputStage.
Context `{sp : Scipy} `{cst : Constants}.
Variable interp_smoothed_array_and_derivatives :
  list (list Q) -> list Q -> list Q -> Q -> Q -> Q ->
  (Q -> Q -> Q) * (Q -> Q -> Q) * (Q -> Q -> Q).

(** [a[-1]]. *)
Definition index_last (a : list Q) : result Q :=
  match last a with
  | Some x => Ok x
  | None => Err IndexError
  end.

(** "Convert to equal slices in depth", from the fitted [p_spline] on:
    the twelve columns handed to [np.savetxt], in the order of the
    [np.array([...])] literal. *)
Definition equal_depth_columns_from (p_spline : Q -> Q) (profile : Profile)
    (pressures : list Q) (n_points : nat) : result (list (list Q)) :=
  result_bind (index (depths profile) 0) (fun depths_0 =>
  result_bind (index_last (depths profile)) (fun depths_last =>
  let depths_eq := np_linspace depths_0 depths_last n_points in
  let pressures_eq := map p_spline depths_eq in
  result_bind (np_interp pressures_eq pressures (smoothed_temperatures profile))
    (fun smoothed_temperatures =>
  result_bind (np_interp pressures_eq pressures (densities profile)) (fun densities =>
  result_bind (np_interp pressures_eq pressures (gravity profile)) (fun gravity =>
  result_bind (np_interp pressures_eq pressures (alphas_relaxed profile))
    (fun alphas_relaxed =>
  result_bind (np_interp pressures_eq pressures (specific_heats_relaxed profile))
    (fun specific_heats_relaxed =>
  result_bind (np_interp pressures_eq pressures (compressibilities_relaxed profile))
    (fun compressibilities_relaxed =>
  result_bind (np_interp pressures_eq pressures (Vss profile)) (fun Vss =>
  result_bind (np_interp pressures_eq pressures (Vps profile)) (fun Vps =>
  result_bind (np_interp pressures_eq pressures (dVsdT profile)) (fun dVsdT =>
  result_bind (np_interp pressures_eq pressures (dVpdT profile)) (fun dVpdT =>
  Ok [depths_eq; pressures_eq; smoothed_temperatures;
      densities; gravity; alphas_relaxed;
      specific_heats_relaxed;
      compressibilities_relaxed;
      Vss; Vps; dVsdT; dVpdT])))))))))))).

(** The columns for depths and pressures that the spline fit accepts. *)
Definition equal_depth_columns (profile : Profile) (pressures : list Q)
    (n_points : nat) : result (list (list Q)) :=
  equal_depth_columns_from (UnivariateSpline (depths profile) pressures)
    profile pressures n_points.

(** The lines of [isentrope_properties.txt]: the header block, then one
    line per row of the transposed array.  Nothing is written when the
    fit of the pressures against the depths is refused. *)
Definition isentrope_properties_txt (profile : Profile) (pressures : list Q)
    (n_points : nat) : result (list string) :=
  result_bind (spline_fit (depths profile) pressures) (fun p_spline =>
  result_bind (equal_depth_columns_from p_spline profile pressures n_points)
    (fun columns =>
  result_bind (np_array_T columns) (fun X =>
  Ok (np_savetxt X (header n_points) 10 tab)))).

(** The module-level variables [setup] assigns and [update_plot] reads. *)
Record Globals : Type := mkGlobals {
  max_pressure : Q;
  surface_gravity : Q;
  outer_radius : Q;
  n_points : nat;
  n_gridpoints : nat * nat;
  max_temperature_stdev : Q;
  truncate : Q;
  min_grid_temperature : Q;
  max_grid_temperature : Q;
  pressures : list Q
}.

(** The assignments of [setup] from the widget values; the two grid
    temperatures stay [None] (any value here: [relaxed_profile]
    overwrites them). *)
Definition setup_globals (maxP_GPa g0 r0_km : Q) (n_points : nat)
    (n_P_gridpoints n_T_gridpoints : nat) (max_T_gaussian truncate : Q) : Globals :=
  let max_pressure := maxP_GPa * 1000000000 in
  mkGlobals max_pressure g0 (r0_km * 1000) n_points
    (n_P_gridpoints, n_T_gridpoints) max_T_gaussian truncate 0 0
    (np_linspace 100000 max_pressure n_points).

Definition update_plot (globals : Globals)
    (potential_temperature P_gaussian_GPa T_smoothing : Q) : M (list string) :=
  let* profile :=
    relaxed_profile interp_smoothed_array_and_derivatives
      potential_temperature (max_pressure globals)
      (surface_gravity globals) (outer_radius globals) (n_points globals)
      (n_gridpoints globals) (P_gaussian_GPa * 1000000000) T_smoothing
      (max_temperature_stdev globals) (truncate globals)
      (min_grid_temperature globals) (max_grid_temperature globals) in
  lift (isentrope_properties_txt profile (pressures globals) (n_points globals)).

End OutputStage.

(** ** Reference routines

    Simple routines with the interface of the scipy ones, used to run
    the notebook's functions on concrete inputs: bisection as the
    bracketing root finder, a finite-difference Newton iteration as the
    unbracketed one, linear interpolation as the spline and Euler steps
    as the integrator.  They stand in for the scipy routines where a
    contract is to be met; the iteration of [brentq] itself is
    [brentq_iteration] below. *)

(** Strictly the same sign: the condition under which [brentq] refuses
    an interval. *)
Definition same_sign (y z : Q) : bool :=
  (Qlt_bool 0 y && Qlt_bool 0 z) || (Qlt_bool y 0 && Qlt_bool z 0).

(** [lo] and [hi] are the ends of the current interval, [f lo] of the
    sign [negative_left] tells; [n] is the iteration budget. *)
Fixpoint bisect_loop (xtol : Q) (n : nat) (negative_left : bool) (lo hi : Q) : oracle :=
  if Qle_bool (hi - lo) xtol then Done (Root lo true)
  else
    match n with
    | O => Done (Raise NonConvergence)
    | S n' =>
        let mid := Qred ((lo + hi) / 2) in
        Query mid (fun fmid =>
          if Qeq_bool fmid 0 then Done (Root mid true)
          else if Bool.eqb (Qlt_bool fmid 0) negative_left
               then bisect_loop xtol n' negative_left mid hi
               else bisect_loop xtol n' negative_left lo mid)
    end.

Definition bisect (xtol : Q) (maxiter : nat) (a b : Q) : oracle :=
  Query a (fun fa =>
  Query b (fun fb =>
    if Qeq_bool fa 0 then Done (Root a true)
    else if Qeq_bool fb 0 then Done (Root b true)
    else if same_sign fa fb then Done (Raise RootNotBracketed)
    else bisect_loop xtol maxiter (Qlt_bool fa 0) a b)).

(** Newton steps with a forward-difference slope; when the budget is
    used up or the slope vanishes the last iterate is returned with the
    non-convergence flag, never an exception. *)
Fixpoint newton_loop (ftol h : Q) (n : nat) (x fx : Q) : oracle :=
  if Qle_bool (Qabs fx) ftol then Done (Root x true)
  else
    match n with
    | O => Done (Root x false)
    | S n' =>
        Query (x + h) (fun fxh =>
          let slope := (fxh - fx) / h in
          if Qeq_bool slope 0 then Done (Root x false)
          else
            let x' := Qred (x - fx / slope) in
            Query x' (fun fx' => newton_loop ftol h n' x' fx'))
    end.

Definition newton (ftol h : Q) (maxfev : nat) (x0 : Q) : oracle :=
  Query x0 (fun fx0 => newton_loop ftol h maxfev x0 fx0).

Fixpoint euler (func : Q -> Q -> Q) (y t : Q) (ts : list Q) : list Q :=
  match ts with
  | [] => []
  | t' :: ts' =>
      let y' := Qred (y + (t' - t) * func y t) in
      y' :: euler func y' t' ts'
  end.

Definition euler_odeint (func : Q -> Q -> Q) (y0 : Q) (ts : list Q) : list Q :=
  match ts with
  | [] => []
  | t0 :: ts' => y0 :: euler func y0 t0 ts'
  end.

(** Euler steps carried to 64 binary digits after the point: every
    value is rounded down to a multiple of [2^-64], which keeps the
    numbers short over the fifty and more steps of a profile. *)
Definition round_down (x : Q) : Q :=
  Qmake (Qfloor (x * inject_Z (2 ^ 64))) (2 ^ 64).

Fixpoint rounded_euler (func : Q -> Q -> Q) (y t : Q) (ts : list Q) : list Q :=
  match ts with
  | [] => []
  | t' :: ts' =>
      let y' := round_down (y + (t' - t) * func y t) in
      y' :: rounded_euler func y' t' ts'
  end.

Definition rounded_euler_odeint (func : Q -> Q -> Q) (y0 : Q) (ts : list Q) : list Q :=
  match ts with
  | [] => []
  | t0 :: ts' => y0 :: rounded_euler func y0 t0 ts'
  end.

Definition reference_xtol : Q := 2 # 1000000000000.



Definition reference_scipy : Scipy := {|
  brentq := bisect reference_xtol 100;
  fsolve := newton reference_xtol (1 # 1000000) 50;
  UnivariateSpline := fun x y t => Qred (interp_at x y t);
  odeint := euler_odeint
|}.



Definition reference_constants : Constants := {|
  np_pi := 355 # 113;
  constants_G := 667408 # 10000000000000000
|}.

(** No smoothing at all: the "smoothed" field interpolates the grid
    values linearly, first along x and then along y, and the
    derivatives vanish.  Only used to run [relaxed_profile]. *)
Definition reference_smoothing (array : list (list Q)) (x_values y_values : list Q)
    (x_stdev y_stdev truncate : Q) : (Q -> Q -> Q) * (Q -> Q -> Q) * (Q -> Q -> Q) :=
  (fun x y => interp_at y_values (map (fun row => interp_at x_values row x) array) y,
   fun _ _ => 0, fun _ _ => 0).

(** ** Contracts of the scipy routines *)

(** [brentq] refuses an interval whose end values have strictly the
    same sign. *)
Definition raises_unbracketed (solver : Q -> Q -> oracle) : Prop :=
  forall (f : Q -> Q) (a b : Q),
    same_sign (f a) (f b) = true ->
    run_pure (solver a b) f = Raise RootNotBracketed.


(** The solver calls the function at least once. *)
Definition evaluates (solver : Q -> Q -> oracle) : Prop :=
  forall (f : Q -> Q) (a b : Q), queries (solver a b) f <> [].

(** [fsolve] reports a failure to converge by a warning: it hands back
    its last iterate and raises nothing. *)
Definition never_raises (solver : Q -> oracle) : Prop :=
  forall (f : Q -> Q) (x0 : Q), exists x c, run_pure (solver x0) f = Root x c.


(** [odeint] returns the initial value at the first time. *)
Definition starts_at_initial_value
    (integrate : (Q -> Q -> Q) -> Q -> list Q -> list Q) : Prop :=
  forall func y0 t ts, exists ys, integrate func y0 (t :: ts) = y0 :: ys.

(** ** Vocabulary of the properties *)

(** The residual the bracketing solver sees at pressure [P]. *)
Definition residual (rock : Rock) (entropy P T : Q) : Q :=
  table rock "S" P T - entropy.



(** The evaluator apart from its current state. *)
Definition same_evaluator (rock rock' : Rock) : Prop :=
  bounds rock' = bounds rock /\
  molar_mass rock' = molar_mass rock /\
  table rock' = table rock.

Definition with_state (rock : Rock) (st : option (Q * Q)) : Rock :=
  mkRock (bounds rock) (molar_mass rock) (table rock) st.

(** The finite difference [np.gradient] takes at index [i] of [T],
    written out by position: one-sided at the two ends, central
    inside. *)
Definition slope_at (T : list Q) (i : nat) : option Q :=
  let n := length T in
  if (n <? 2)%nat then None
  else if (i =? 0)%nat then
    match T !! 1%nat, T !! 0%nat with
    | Some t1, Some t0 => Some (t1 - t0)
    | _, _ => None
    end
  else if (i =? n - 1)%nat then
    match T !! (n - 1)%nat, T !! (n - 2)%nat with
    | Some tl, Some tp => Some (tl - tp)
    | _, _ => None
    end
  else
    match T !! (i + 1)%nat, T !! (i - 1)%nat with
    | Some tn, Some tp => Some ((tn - tp) / 2)
    | _, _ => None
    end.

(** [M] is the largest absolute finite difference of [T]. *)
Definition steepest_slope (T : list Q) (M : Q) : Prop :=
  (forall i s, slope_at T i = Some s -> Qabs s <= M) /\
  (exists i s, slope_at T i = Some s /\ M == Qabs s).

Definition is_digit (c : ascii) : bool :=
  let n := nat_of_ascii c in (48 <=? n)%nat && (n <=? 57)%nat.

(** The number of digits a converted value shows before the exponent
    marker: the digits of its mantissa, which for a value other than
    zero are its significant digits. *)
Fixpoint significant_digits (cell : string) : nat :=
  match cell with
  | EmptyString => 0
  | String c rest =>
      if Ascii.eqb c "e" then 0%nat
      else if is_digit c then S (significant_digits rest)
      else significant_digits rest
  end.

(** Strictly increasing sample points, as [np.interp] expects. *)
Definition increasing (l : list Q) : Prop :=
  forall i a b, l !! i = Some a -> l !! S i = Some b -> a < b.

(** The ten property arrays of a profile in the order in which
    [update_plot] resamples and writes them (after the depths and the
    pressures). *)
Definition property_columns (profile : Profile) : list (list Q) :=
  [smoothed_temperatures profile; densities profile; gravity profile;
   alphas_relaxed profile; specific_heats_relaxed profile;
   compressibilities_relaxed profile;
   Vss profile; Vps profile; dVsdT profile; dVpdT profile].

(** Linear interpolation as the claim has it: [v] is the value at [x]
    of the piecewise linear function through the points
    [(xp_i, fp_i)], continued to the left of the first sample by its
    first value and to the right of the last sample by its last
    value. *)
Definition linearly_interpolated (xp fp : list Q) (x v : Q) : Prop :=
  (exists x0 f0,
     xp !! 0%nat = Some x0 /\ fp !! 0%nat = Some f0 /\ x <= x0 /\ v == f0)
  \/ (exists xn fn,
        last xp = Some xn /\ last fp = Some fn /\ xn <= x /\ v == fn)
  \/ (exists i a b fa fb,
        xp !! i = Some a /\ xp !! S i = Some b /\
        fp !! i = Some fa /\ fp !! S i = Some fb /\
        a <= x <= b /\ v == fa + (fb - fa) * (x - a) / (b - a)).


(** ** Concrete evaluators and inputs *)

(** Entropy [slope * T + offset], the other properties constant. *)
Definition linear_rock (Tmin Tmax slope offset : Q) : Rock :=
  mkRock ((100000, 25000000000), (Tmin, Tmax)) (1 # 10)
    (fun name P T => if String.eqb name "S" then slope * T + offset else 3000)
    None.



(** Entropy that rises by one per kelvin. *)
Definition gentle_rock : Rock := linear_rock 0 3000 1 0.

(** The result a root finder's outcome leaves in the caller. *)
Definition outcome_result (o : outcome) : result Q :=
  match o with
  | Root x _ => Ok x
  | Raise e => Err e
  end.

(** The evaluator after the residual has been called at the points
    [qs] for the pressure [P]: it sits on the last of them. *)
Definition moved (rock : Rock) (P : Q) (qs : list Q) : Rock :=
  match last qs with
  | Some T => set_state rock P T
  | None => rock
  end.

(** One bracketed solve at pressure [P], as a function of the
    evaluator's table and bounds alone. *)
Definition solve `{sp : Scipy} (rock : Rock) (entropy P : Q) : outcome :=
  run_pure (brentq (fst (snd (bounds rock))) (snd (snd (bounds rock))))
    (residual rock entropy P).

(** The solves of a pressure sequence in order, stopping at the first
    exception. *)
Fixpoint solve_all `{sp : Scipy} (rock : Rock) (entropy : Q) (todo : list Q)
    : result (list Q) :=
  match todo with
  | [] => Ok []
  | P :: todo' =>
      match solve rock entropy P with
      | Root x _ =>
          match solve_all rock entropy todo' with
          | Ok xs => Ok (x :: xs)
          | Err e => Err e
          end
      | Raise e => Err e
      end
  end.

(** The target entropy is strictly above or strictly below the
    entropies at both temperature bounds. *)
Definition unbracketed_at (rock : Rock) (entropy P : Q) : Prop :=
  same_sign (residual rock entropy P (fst (snd (bounds rock))))
            (residual rock entropy P (snd (snd (bounds rock)))) = true.

(** The unbracketed solves of a pressure sequence in order, each
    started from the previous solution. *)
Fixpoint interp_solve_all `{sp : Scipy} (interp : Q -> Q -> Q) (entropy sol : Q)
    (todo : list Q) : result (list Q) :=
  match todo with
  | [] => Ok []
  | P :: todo' =>
      match run_pure (fsolve sol) (fun T => interp_deltaS interp T entropy P) with
      | Root x _ =>
          match interp_solve_all interp entropy x todo' with
          | Ok xs => Ok (x :: xs)
          | Err e => Err e
          end
      | Raise e => Err e
      end
  end.

(** A computation that leaves the evaluator exactly as it found it. *)
Definition read_only {A} (c : M A) : Prop :=
  forall rock, snd (c rock) = rock.

(** Entropy that rises by one per kelvin and falls by one per 100 Pa. *)
Definition tilted_rock : Rock :=
  mkRock ((100000, 25000000000), (0, 3000)) (1 # 10)
    (fun name P T => if String.eqb name "S" then T - (P - 100000) / 100 else 3000)
    None.

(** The gravity of the first sample as the code computes it, in
    binary64: [odeint] returns its initial value
    [surface_gravity*radii[0]*radii[0]] at the first radius, which
    [gravity / radii / radii] divides twice by [radii[0]], the outer
    radius less the depth 0.0. *)
Definition first_gravity_binary64 (surface_gravity outer_radius : float) : float :=
  let radii_0 := (outer_radius - 0)%float in
  (surface_gravity * radii_0 * radii_0 / radii_0 / radii_0)%float.

(** The binary64 number nearest to 0.1. *)
Definition one_tenth : float := 0x1.999999999999ap-4%float.

(** Depth 0 and the surface gravity at the first sample of a pair of
    profiles. *)
Definition surface_values (surface_gravity : Q) (depths gravity : list Q) : Prop :=
  depths !! 0%nat = Some 0
  /\ exists g, gravity !! 0%nat = Some g /\ g == surface_gravity.

(** The twelve columns of the written table in the order the
    specification lists them: depth, pressure, temperature, density,
    gravity, thermal expansivity, specific heat, compressibility,
    shear-wave velocity, P-wave velocity, dVs/dT and dVp/dT; the depths
    are [n_points] equally spaced values from [d0] to [dlast], the
    pressures the spline of pressure against depth at these depths, and
    every property is interpolated linearly in pressure. *)
Definition resampled_columns `{sp : Scipy} (profile : Profile) (pressures : list Q)
    (n_points : nat) (d0 dlast : Q) : list (list Q) :=
  let depths_eq := np_linspace d0 dlast n_points in
  let pressures_eq := map (UnivariateSpline (depths profile) pressures) depths_eq in
  let resample property := map (interp_at pressures property) pressures_eq in
  [depths_eq; pressures_eq;
   resample (smoothed_temperatures profile);
   resample (densities profile);
   resample (gravity profile);
   resample (alphas_relaxed profile);
   resample (specific_heats_relaxed profile);
   resample (compressibilities_relaxed profile);
   resample (Vss profile);
   resample (Vps profile);
   resample (dVsdT profile);
   resample (dVpdT profile)].

(** All the arrays of a profile have one value per pressure. *)
Definition profile_of_length (profile : Profile) (n : nat) : Prop :=
  length (smoothed_temperatures profile) = n /\
  length (densities profile) = n /\
  length (gravity profile) = n /\
  length (alphas_relaxed profile) = n /\
  length (specific_heats_relaxed profile) = n /\
  length (compressibilities_relaxed profile) = n /\
  length (Vss profile) = n /\
  length (Vps profile) = n /\
  length (dVsdT profile) = n /\
  length (dVpdT profile) = n.

(** The cells of a written line: the pieces between the delimiters,
    without the final newline. *)
Fixpoint cells_from (delimiter : ascii) (cell : string) (line : string) : list string :=
  match line with
  | EmptyString => [cell]
  | String c rest =>
      if Ascii.eqb c delimiter then cell :: cells_from delimiter EmptyString rest
      else if Ascii.eqb c (ascii_of_nat 10) then cells_from delimiter cell rest
      else cells_from delimiter (cell ++ String c EmptyString) rest
  end.

Definition cells (line : string) : list string :=
  cells_from (ascii_of_nat 9) EmptyString line.

(** A text without a tab and without a line end. *)
Fixpoint cell_text (s : string) : bool :=
  match s with
  | EmptyString => true
  | String c rest =>
      negb (Ascii.eqb c (ascii_of_nat 9)) && negb (Ascii.eqb c (ascii_of_nat 10))
      && cell_text rest
  end.

(** The width as the specification writes it, for a given largest
    slope [max_dTdP] of the isentrope against pressure and a given
    spacing of the pressure grid. *)
Definition stated_temperature_stdev
    (max_temperature_stdev temperature_smoothing_factor pressure_stdev
     max_dTdP grid_pressure_spacing : Q) : Q :=
  Qmin max_temperature_stdev
    (temperature_smoothing_factor * pressure_stdev * max_dTdP / grid_pressure_spacing).

(** An isentrope that rises by one kelvin per 100 Pa. *)
Definition straight_isentrope (P : Q) : Q := 1500 + (P - 100000) / 100.

(** [odeint] returns one value per time. *)
Definition one_value_per_time
    (integrate : (Q -> Q -> Q) -> Q -> list Q -> list Q) : Prop :=
  forall func y0 ts, length (integrate func y0 ts) = length ts.




(** Entropy that rises by one per kelvin and falls by 16 from one end
    of the pressure range to the other. *)
Definition shallow_rock : Rock :=
  mkRock ((100000, 25000000000), (1000, 2024)) (1 # 10)
    (fun name P T => if String.eqb name "S" then T - (P - 100000) / 1562493750 else 3000)
    None.





(** An evaluator with velocities affine in temperature, and its
    profile over four pressures. *)
Definition seismic_rock : Rock :=
  mkRock ((100000, 25000000000), (1000, 2024)) (1 # 10)
    (fun name P T =>
       if String.eqb name "S" then T
       else if String.eqb name "p_wave_velocity" then 9000 - T / 2 + P / 10000000
       else if String.eqb name "shear_wave_velocity" then 5000 - T / 4
       else 3000) None.

Definition seismic_profile : Profile :=
  Eval vm_compute in
    match fst (relaxed_profile (sp := reference_scipy) (cst := reference_constants)
                 reference_smoothing 1512 25000000000 (981 # 100) 6371000 4
                 (3%nat, 5%nat) 0 (1 # 4) 30 4 0 0 seismic_rock) with
    | Ok profile => profile
    | Err _ => mkProfile [] [] [] [] [] [] [] [] [] [] []
    end.

(** * Properties *)

(** ** The model on concrete inputs *)

Example np_linspace_three :
  map Qred (np_linspace 100000 300000 3) = [100000; 200000; 300000].
Proof. reflexivity. Qed.

Example np_linspace_one : map Qred (np_linspace 5 9 1) = [5].
Proof. reflexivity. Qed.

Example np_gradient_four :
  result_bind (np_gradient [1; 2; 4; 7]) (fun g => Ok (map Qred g))
  = Ok [1; 3 # 2; 5 # 2; 3].
Proof. reflexivity. Qed.

Example np_gradient_one : np_gradient [1] = Err ValueError.
Proof. reflexivity. Qed.

Example np_max_abs : np_max (np_abs [1; -(5 # 2); 2]) = Ok (5 # 2).
Proof. reflexivity. Qed.

Example np_interp_three :
  result_bind (np_interp [0; 3 # 2; 2; 5] [1; 2; 3] [10; 20; 30])
    (fun y => Ok (map Qred y))
  = Ok [10; 15; 20; 30].
Proof. reflexivity. Qed.

Example meshgrid_two_by_three :
  meshgrid_flat_x [1; 2; 3] [10; 20] = [1; 2; 3; 1; 2; 3]
  /\ meshgrid_flat_y [1; 2; 3] [10; 20] = [10; 10; 10; 20; 20; 20]
  /\ reshape 2 3 [1; 2; 3; 4; 5; 6] = [[1; 2; 3]; [4; 5; 6]].
Proof. repeat split. Qed.

Example mask_and_scatter :
  mask_from 0 [5; 90; 79; 80] 80 = [0; 2]%nat
  /\ put_indices [0; 0; 0; 0] [0; 2]%nat [7; 9] = [7; 0; 9; 0]
  /\ take_indices [10; 20; 30; 40] [0; 2]%nat = [10; 30].
Proof. repeat split. Qed.

Example format_e_values :
  format_e 10 1 = "1.0000000000e+00"%string
  /\ format_e 10 (123456789 # 1000) = "1.2345678900e+05"%string
  /\ format_e 10 (-(123 # 1000000)) = "-1.2300000000e-04"%string
  /\ format_e 10 0 = "0.0000000000e+00"%string
  /\ format_e 10 (999999999999 # 1000000) = "1.0000000000e+06"%string
  /\ format_e 10 (2 # 3) = "6.6666666667e-01"%string
  /\ format_e 10 (Qpower 10 100) = "1.0000000000e+100"%string
  /\ format_e 10 (981 # 100) = "9.8100000000e+00"%string.
Proof. vm_compute. repeat split. Qed.

Example bisect_finds_the_root :
  run_pure (bisect reference_xtol 100 0 3000) (fun T => T - 1500) = Root 1500 true
  /\ queries (bisect reference_xtol 100 0 3000) (fun T => T - 1500) = [0; 3000; 1500]
  /\ run_pure (bisect reference_xtol 100 0 3000) (fun T => T + 1)
     = Raise RootNotBracketed.
Proof. vm_compute. repeat split. Qed.

Example isentrope_two_pressures :
  exists T,
    fst (isentrope (sp := reference_scipy) [100000; 110000] 1500 0 tilted_rock)
    = Ok [1500; T]
    /\ Qabs (T - 1600) <= reference_xtol.
Proof. eexists. split; vm_compute; [reflexivity | discriminate]. Qed.

(** ** Rationals *)

Lemma Qlt_bool_iff (x y : Q) : Qlt_bool x y = true <-> x < y.
Proof.
  unfold Qlt_bool. rewrite Bool.negb_true_iff.
  destruct (Qle_bool y x) eqn:E.
  - apply Qle_bool_iff in E. split; [discriminate | intros H; lra].
  - split; [intros _ | reflexivity].
    apply Qnot_le_lt. intros H. apply Qle_bool_iff in H. congruence.
Qed.

Lemma Qlt_bool_false (x y : Q) : Qlt_bool x y = false <-> y <= x.
Proof.
  destruct (Qlt_bool x y) eqn:E.
  - apply Qlt_bool_iff in E. split; [discriminate | intros H; lra].
  - split; [intros _ | reflexivity].
    apply Qnot_lt_le. intros H. apply Qlt_bool_iff in H. congruence.
Qed.

Lemma Qle_bool_false (x y : Q) : Qle_bool x y = false <-> y < x.
Proof.
  destruct (Qle_bool x y) eqn:E.
  - apply Qle_bool_iff in E. split; [discriminate | intros H; lra].
  - split; [intros _ | reflexivity].
    apply Qnot_le_lt. intros H. apply Qle_bool_iff in H. congruence.
Qed.

(** ** The callback of [isentrope] against an oracle *)

Lemma moved_cons (rock : Rock) (P x : Q) (qs : list Q) :
  moved (set_state rock P x) P qs = moved rock P (x :: qs).
Proof.
  unfold moved. destruct qs as [|q qs]; [reflexivity|].
  rewrite last_cons_cons.
  destruct (last (q :: qs)) eqn:E; [reflexivity|].
  apply last_None in E. discriminate.
Qed.

(** Running a strategy against [_deltaS] gives the answer the strategy
    computes from the pure residual, and leaves the evaluator on the
    last point the strategy asked for. *)
Lemma run_oracle_deltaS (o : oracle) (entropy P : Q) (rock : Rock) :
  run_oracle o (fun T => isentrope_deltaS T entropy P) rock
  = (outcome_result (run_pure o (residual rock entropy P)),
     moved rock P (queries o (residual rock entropy P))).
Proof.
  revert rock. induction o as [r | x k IH]; intros rock.
  - destruct r; reflexivity.
  - cbn [run_oracle run_pure queries].
    unfold isentrope_deltaS at 1.
    cbn [bind set_state_M attribute_M reads attribute set_state state table ret].
    rewrite IH. rewrite moved_cons. reflexivity.
Qed.

Lemma moved_same_evaluator (rock : Rock) (P : Q) (qs : list Q) :
  same_evaluator rock (moved rock P qs).
Proof.
  unfold moved, same_evaluator. destruct (last qs); simpl; auto.
Qed.

Lemma same_evaluator_solve `{sp : Scipy} (rock rock' : Rock) (entropy P : Q) :
  same_evaluator rock rock' -> solve rock' entropy P = solve rock entropy P.
Proof.
  intros (Hb & _ & Ht). unfold solve, residual. rewrite Hb, Ht. reflexivity.
Qed.

Lemma same_evaluator_trans (r1 r2 r3 : Rock) :
  same_evaluator r1 r2 -> same_evaluator r2 r3 -> same_evaluator r1 r3.
Proof.
  unfold same_evaluator. intros (A & B & C) (D & E & F).
  repeat split; congruence.
Qed.

Lemma same_evaluator_refl (rock : Rock) : same_evaluator rock rock.
Proof. unfold same_evaluator; auto. Qed.

(** ** [isentrope] *)

Section Isentrope.
Context `{sp : Scipy}.

(** One turn of the loop of [isentrope]. *)
Lemma isentrope_loop_cons (entropy P : Q) (todo : list Q) (i : nat) (sol : Q)
    (temperatures : list Q) (rock : Rock) :
  isentrope_loop entropy (P :: todo) i sol temperatures rock
  = let rock' :=
      moved rock P
        (queries (brentq (fst (snd (bounds rock))) (snd (snd (bounds rock))))
           (residual rock entropy P)) in
    match solve rock entropy P with
    | Root x _ => isentrope_loop entropy todo (S i) x (<[i := x]> temperatures) rock'
    | Raise e => (Err e, rock')
    end.
Proof.
  cbn [isentrope_loop]. unfold bind, reads. rewrite run_oracle_deltaS.
  unfold solve. cbn zeta.
  destruct (run_pure _ _); reflexivity.
Qed.

(** The loop of [isentrope] computes the solves of [solve_all], writes
    them at the indices from [i] on, and only moves the evaluator. *)
Lemma isentrope_loop_run (entropy : Q) (todo : list Q) :
  forall (i : nat) (sol : Q) (temperatures : list Q) (rock0 rock : Rock),
    same_evaluator rock0 rock ->
    (i + length todo <= length temperatures)%nat ->
    fst (isentrope_loop entropy todo i sol temperatures rock)
    = match solve_all rock0 entropy todo with
      | Ok xs => Ok (take i temperatures ++ xs ++ drop (i + length todo) temperatures)
      | Err e => Err e
      end
    /\ same_evaluator rock0 (snd (isentrope_loop entropy todo i sol temperatures rock)).
Proof.
  induction todo as [|P todo IH]; intros i sol temperatures rock0 rock Hsame Hlen.
  - cbn. split; [|exact Hsame].
    rewrite Nat.add_0_r, take_drop. reflexivity.
  - rewrite isentrope_loop_cons. cbn zeta. cbn [solve_all].
    rewrite (same_evaluator_solve rock0 rock entropy P Hsame).
    set (rock' := moved rock P _).
    assert (Hsame' : same_evaluator rock0 rock').
    { eapply same_evaluator_trans; [exact Hsame | apply moved_same_evaluator]. }
    destruct (solve rock0 entropy P) as [x c | e].
    + cbn [length] in Hlen.
      destruct (IH (S i) x (<[i := x]> temperatures) rock0 rock' Hsame') as [Hfst Hsnd].
      { rewrite length_insert. lia. }
      split; [|exact Hsnd].
      rewrite Hfst.
      destruct (solve_all rock0 entropy todo) as [xs | e]; [|reflexivity].
      f_equal.
      rewrite (take_S_r _ i x) by (apply list_lookup_insert_eq; lia).
      rewrite take_insert_ge by lia.
      rewrite drop_insert_lt by lia.
      rewrite <- app_assoc. cbn [length app].
      replace (i + S (length todo))%nat with (S i + length todo)%nat by lia.
      reflexivity.
    + cbn. split; [reflexivity | exact Hsame'].
Qed.

(** [isentrope] returns exactly the solves of its pressures, in order. *)
Lemma isentrope_run (pressures : list Q) (entropy T_guess : Q) (rock : Rock) :
  fst (isentrope pressures entropy T_guess rock) = solve_all rock entropy pressures
  /\ same_evaluator rock (snd (isentrope pressures entropy T_guess rock)).
Proof.
  unfold isentrope.
  destruct (isentrope_loop_run entropy pressures 0 T_guess (np_empty_like pressures)
              rock rock (same_evaluator_refl rock)) as [Hfst Hsnd].
  { unfold np_empty_like. rewrite length_replicate. lia. }
  split; [|exact Hsnd].
  rewrite Hfst.
  destruct (solve_all rock entropy pressures) as [xs | e] eqn:E; [|reflexivity].
  f_equal. cbn [take app].
  assert (Hxs : length xs = length pressures).
  { clear Hfst Hsnd. revert xs E.
    induction pressures as [|P ps IHp]; cbn [solve_all]; intros xs E.
    - injection E as <-. reflexivity.
    - destruct (solve rock entropy P); [|discriminate].
      destruct (solve_all rock entropy ps) as [ys|]; [|discriminate].
      injection E as <-. cbn. f_equal. apply IHp. reflexivity. }
  rewrite drop_ge; [apply app_nil_r|].
  unfold np_empty_like. rewrite length_replicate. lia.
Qed.

Lemma solve_all_length (rock : Rock) (entropy : Q) (pressures xs : list Q) :
  solve_all rock entropy pressures = Ok xs -> length xs = length pressures.
Proof.
  revert xs. induction pressures as [|P ps IH]; cbn [solve_all]; intros xs E.
  - injection E as <-. reflexivity.
  - destruct (solve rock entropy P); [|discriminate].
    destruct (solve_all rock entropy ps) as [ys|]; [|discriminate].
    injection E as <-. cbn. f_equal. apply IH. reflexivity.
Qed.



(** The first pressure whose solve raises decides the exception. *)
Lemma solve_all_first_failure (rock : Rock) (entropy : Q)
    (before after : list Q) (P : Q) (e : error) :
  (forall P', In P' before -> exists x c, solve rock entropy P' = Root x c) ->
  solve rock entropy P = Raise e ->
  solve_all rock entropy (before ++ P :: after) = Err e.
Proof.
  induction before as [|P0 ps IH]; cbn [app solve_all]; intros H HP.
  - rewrite HP. reflexivity.
  - destruct (H P0) as (x & c & ->); [left; reflexivity|].
    rewrite IH; [reflexivity| |exact HP].
    intros; apply H; right; assumption.
Qed.

(** A pressure whose solve raises leaves no temperature array. *)
Lemma solve_all_failure (rock : Rock) (entropy : Q) (pressures : list Q) (P : Q) (e : error) :
  In P pressures -> solve rock entropy P = Raise e ->
  exists e', solve_all rock entropy pressures = Err e'.
Proof.
  induction pressures as [|P0 ps IH]; cbn [solve_all]; intros Hin HP.
  - destruct Hin.
  - destruct Hin as [-> | Hin].
    + rewrite HP. eauto.
    + destruct (solve rock entropy P0); [|eauto].
      destruct (IH Hin HP) as [e' ->]. eauto.
Qed.

End Isentrope.

(** ** The reference routines meet the contracts *)

Lemma same_sign_true (y z : Q) :
  same_sign y z = true <-> (0 < y /\ 0 < z) \/ (y < 0 /\ z < 0).
Proof.
  unfold same_sign.
  rewrite Bool.orb_true_iff, !Bool.andb_true_iff, !Qlt_bool_iff. reflexivity.
Qed.






Lemma bisect_raises_unbracketed (xtol : Q) (maxiter : nat) :
  raises_unbracketed (bisect xtol maxiter).
Proof.
  intros f a b Hsign. unfold bisect. cbn [run_pure].
  pose proof Hsign as Hs. apply same_sign_true in Hs.
  assert (Ha : Qeq_bool (f a) 0 = false).
  { destruct (Qeq_bool (f a) 0) eqn:E; [|reflexivity].
    apply Qeq_bool_iff in E. lra. }
  assert (Hb : Qeq_bool (f b) 0 = false).
  { destruct (Qeq_bool (f b) 0) eqn:E; [|reflexivity].
    apply Qeq_bool_iff in E. lra. }
  rewrite Ha, Hb, Hsign. reflexivity.
Qed.

Lemma bisect_evaluates (xtol : Q) (maxiter : nat) : evaluates (bisect xtol maxiter).
Proof. intros f a b. unfold bisect. cbn [queries]. discriminate. Qed.

Lemma newton_loop_unfold (ftol h : Q) (n : nat) (x fx : Q) :
  newton_loop ftol h n x fx
  = if Qle_bool (Qabs fx) ftol then Done (Root x true)
    else
      match n with
      | O => Done (Root x false)
      | S n' =>
          Query (x + h) (fun fxh =>
            let slope := (fxh - fx) / h in
            if Qeq_bool slope 0 then Done (Root x false)
            else
              let x' := Qred (x - fx / slope) in
              Query x' (fun fx' => newton_loop ftol h n' x' fx'))
      end.
Proof. destruct n; reflexivity. Qed.

Lemma newton_never_raises (ftol h : Q) (maxfev : nat) :
  never_raises (newton ftol h maxfev).
Proof.
  intros f x0. unfold newton. cbn [run_pure].
  generalize (f x0) as fx. revert x0.
  induction maxfev as [|n IH]; intros x fx; rewrite newton_loop_unfold.
  - destruct (Qle_bool (Qabs fx) ftol); cbn [run_pure]; eauto.
  - destruct (Qle_bool (Qabs fx) ftol); cbn [run_pure]; [eauto|].
    cbn zeta. destruct (Qeq_bool _ 0); cbn [run_pure]; [eauto|].
    apply IH.
Qed.


Lemma euler_odeint_starts_at_initial_value : starts_at_initial_value euler_odeint.
Proof. intros func y0 t ts. cbn. eauto. Qed.

(** ** Claims about [isentrope] and [interp_isentrope] *)

(** C9.  The initial guess [T_guess] has no effect on [isentrope]: for
    a fixed evaluator, pressure sequence and target entropy, any two
    guesses give the same temperatures (and the same final evaluator),
    and these temperatures are the bracketed solves on the evaluator's
    full temperature bounds. *)
Theorem isentrope_ignores_T_guess `{sp : Scipy} (pressures : list Q)
    (entropy T_guess T_guess' : Q) (rock : Rock) :
  isentrope pressures entropy T_guess rock = isentrope pressures entropy T_guess' rock
  /\ fst (isentrope pressures entropy T_guess rock) = solve_all rock entropy pressures.
Proof.
  split.
  - unfold isentrope. destruct pressures; reflexivity.
  - apply isentrope_run.
Qed.

Lemma lookup_In (l : list Q) (i : nat) (x : Q) : l !! i = Some x -> In x l.
Proof. intros H. apply list_elem_of_In. eapply list_elem_of_lookup_2. exact H. Qed.










Section InterpIsentrope.
Context `{sp : Scipy}.

Lemma interp_solve_all_length (interp : Q -> Q -> Q) (entropy : Q) (todo : list Q) :
  forall sol xs,
    interp_solve_all interp entropy sol todo = Ok xs -> length xs = length todo.
Proof.
  induction todo as [|P todo IH]; cbn [interp_solve_all]; intros sol xs E.
  - injection E as <-. reflexivity.
  - destruct (run_pure _ _) as [x c|]; [|discriminate].
    destruct (interp_solve_all interp entropy x todo) as [ys|] eqn:Eys; [|discriminate].
    injection E as <-. cbn. f_equal. eapply IH. exact Eys.
Qed.

(** The loop of [interp_isentrope] computes [interp_solve_all] and
    writes the solutions at the indices from [i] on. *)
Lemma interp_isentrope_loop_run (interp : Q -> Q -> Q) (entropy : Q) (todo : list Q) :
  forall (i : nat) (sol : Q) (temperatures : list Q),
    (i + length todo <= length temperatures)%nat ->
    interp_isentrope_loop interp entropy todo i sol temperatures
    = match interp_solve_all interp entropy sol todo with
      | Ok xs => Ok (take i temperatures ++ xs ++ drop (i + length todo) temperatures)
      | Err e => Err e
      end.
Proof.
  induction todo as [|P todo IH]; intros i sol temperatures Hlen.
  - cbn. rewrite Nat.add_0_r, take_drop. reflexivity.
  - cbn [interp_isentrope_loop interp_solve_all].
    destruct (run_pure _ _) as [x c | e]; [|reflexivity].
    cbn [length] in Hlen.
    rewrite IH by (rewrite length_insert; lia).
    destruct (interp_solve_all interp entropy x todo) as [xs | e]; [|reflexivity].
    f_equal.
    rewrite (take_S_r _ i x) by (apply list_lookup_insert_eq; lia).
    rewrite take_insert_ge by lia.
    rewrite drop_insert_lt by lia.
    rewrite <- app_assoc. cbn [length app].
    replace (i + S (length todo))%nat with (S i + length todo)%nat by lia.
    reflexivity.
Qed.

Lemma interp_isentrope_run (interp : Q -> Q -> Q) (pressures : list Q)
    (entropy T_guess : Q) :
  interp_isentrope interp pressures entropy T_guess
  = interp_solve_all interp entropy T_guess pressures.
Proof.
  unfold interp_isentrope. rewrite interp_isentrope_loop_run.
  - destruct (interp_solve_all interp entropy T_guess pressures) as [xs|] eqn:E;
      [|reflexivity].
    f_equal. cbn [take app].
    rewrite drop_ge; [apply app_nil_r|].
    unfold np_empty_like. rewrite length_replicate. lia.
  - unfold np_empty_like. rewrite length_replicate. lia.
Qed.

(** With a solver that never raises, every pressure gets a solution. *)
Lemma interp_solve_all_total (interp : Q -> Q -> Q) (entropy : Q) (todo : list Q) :
  never_raises fsolve ->
  forall sol, exists xs, interp_solve_all interp entropy sol todo = Ok xs.
Proof.
  intros Hnr. induction todo as [|P todo IH]; cbn [interp_solve_all]; intros sol.
  - eauto.
  - destruct (Hnr (fun T => interp_deltaS interp T entropy P) sol) as (x & c & ->).
    destruct (IH x) as [xs ->]. eauto.
Qed.

(** Every solution is the iterate the solver hands back for its
    pressure when started from the solution before it, the first from
    the initial guess. *)
Lemma interp_solve_all_lookup (interp : Q -> Q -> Q) (entropy : Q) (todo : list Q) :
  forall sol xs,
    interp_solve_all interp entropy sol todo = Ok xs ->
    forall i P start,
      todo !! i = Some P ->
      (sol :: xs) !! i = Some start ->
      exists x c,
        run_pure (fsolve start) (fun T => interp_deltaS interp T entropy P) = Root x c
        /\ xs !! i = Some x.
Proof.
  induction todo as [|P0 todo IH]; cbn [interp_solve_all]; intros sol xs E i P start HP Hs.
  - destruct i; discriminate.
  - destruct (run_pure _ _) as [x c|] eqn:Erun; [|discriminate].
    destruct (interp_solve_all interp entropy x todo) as [ys|] eqn:Eys; [|discriminate].
    injection E as <-.
    destruct i as [|i]; cbn in HP, Hs.
    + injection HP as <-. injection Hs as <-. exists x, c. split; [exact Erun | reflexivity].
    + exact (IH x ys Eys i P start HP Hs).
Qed.

End InterpIsentrope.

(** C5 (amended).  [isentrope] raises the bracketing solver's
    [RootNotBracketed] at the first pressure whose solve fails when,
    there, the entropies at the two temperature bounds lie strictly on
    one side of the target; it then returns no temperature.
    [interp_isentrope] uses the unbracketed solver, which is given no
    bounds and reports a failure to converge by a warning: it raises
    nothing and returns a temperature for every pressure, each of them
    the iterate the solver hands back for that pressure, converged or
    not, when started from the temperature of the pressure before (from
    [T_guess] at the first pressure). *)
Theorem isentrope_solvers_errors `{sp : Scipy} (rock : Rock)
    (before after : list Q) (P entropy T_guess : Q)
    (interp : Q -> Q -> Q) (pressures : list Q) (entropy' T_guess' : Q) :
  raises_unbracketed brentq ->
  never_raises fsolve ->
  (forall P', In P' before -> exists x c, solve rock entropy P' = Root x c) ->
  unbracketed_at rock entropy P ->
  fst (isentrope (before ++ P :: after) entropy T_guess rock) = Err RootNotBracketed
  /\ exists temperatures,
       interp_isentrope interp pressures entropy' T_guess' = Ok temperatures /\
       length temperatures = length pressures /\
       forall i Pi,
         pressures !! i = Some Pi ->
         exists start x c,
           (T_guess' :: temperatures) !! i = Some start /\
           run_pure (fsolve start) (fun T => interp_deltaS interp T entropy' Pi)
             = Root x c /\
           temperatures !! i = Some x.
Proof.
  intros Hraise Hnr Hbefore Hunbr. split.
  - rewrite (proj1 (isentrope_run _ entropy T_guess rock)).
    apply solve_all_first_failure; [exact Hbefore|].
    unfold solve. apply Hraise. exact Hunbr.
  - destruct (interp_solve_all_total interp entropy' pressures Hnr T_guess') as [xs Hxs].
    exists xs. rewrite interp_isentrope_run. split; [exact Hxs|].
    pose proof (interp_solve_all_length _ _ _ _ _ Hxs) as Hlen.
    split; [exact Hlen|].
    intros i Pi HPi.
    destruct (lookup_lt_is_Some_2 (T_guess' :: xs) i) as [start Hstart].
    { pose proof (lookup_lt_Some _ _ _ HPi). cbn [length]. lia. }
    destruct (interp_solve_all_lookup interp entropy' pressures T_guess' xs Hxs
                i Pi start HPi Hstart) as (x & c & Hrun & Hx).
    exists start, x, c. auto.
Qed.

(** C5 (amended) on the tilted evaluator: the target 2500 is bracketed
    at 1e5 Pa and lies above both end entropies at 2e5 Pa. *)
Lemma isentrope_solvers_errors_witness :
  fst (isentrope (sp := reference_scipy) ([100000] ++ 200000 :: [300000]) 2500 1500
         tilted_rock) = Err RootNotBracketed
  /\ exists temperatures,
       interp_isentrope (sp := reference_scipy) (fun _ T => T) [100000; 200000] 7 1000
         = Ok temperatures /\
       length temperatures = length [100000; 200000] /\
       forall i Pi,
         [100000; 200000] !! i = Some Pi ->
         exists start x c,
           (1000 :: temperatures) !! i = Some start /\
           run_pure (fsolve (Scipy := reference_scipy) start)
             (fun T => interp_deltaS (fun _ T => T) T 7 Pi) = Root x c /\
           temperatures !! i = Some x.
Proof.
  apply (isentrope_solvers_errors (sp := reference_scipy) tilted_rock
           [100000] [300000] 200000 2500 1500 (fun _ T => T) [100000; 200000] 7 1000).
  - apply bisect_raises_unbracketed.
  - apply newton_never_raises.
  - intros P' [<- | []]. eexists. eexists. vm_compute. reflexivity.
  - vm_compute. reflexivity.
Defined.

(** C5 as stated fails for [interp_isentrope]: with an interpolant
    that is zero everywhere the target entropy 1 is spanned nowhere and
    the solver gives up without converging, yet the initial guess comes
    back as the temperature and nothing is raised. *)
Lemma interp_isentrope_counterexample :
  run_pure (fsolve (Scipy := reference_scipy) 1000)
    (fun T => interp_deltaS (fun _ _ => 0) T 1 100000) = Root 1000 false
  /\ interp_isentrope (sp := reference_scipy) (fun _ _ => 0) [100000] 1 1000
     = Ok [1000].
Proof. split; vm_compute; reflexivity. Qed.

(** ** The evaluator across the core computations *)

Lemma read_only_ret {A} (a : A) : read_only (ret a).
Proof. intros rock. reflexivity. Qed.

Lemma read_only_lift {A} (r : result A) : read_only (lift r).
Proof. intros rock. reflexivity. Qed.

Lemma read_only_reads {A} (f : Rock -> result A) : read_only (reads f).
Proof. intros rock. reflexivity. Qed.

Lemma read_only_bind {A B} (c : M A) (k : A -> M B) :
  read_only c -> (forall a, read_only (k a)) -> read_only (bind c k).
Proof.
  intros Hc Hk rock. unfold bind.
  specialize (Hc rock). destruct (c rock) as [[a | e] rock']; cbn in Hc; subst rock'.
  - apply Hk.
  - reflexivity.
Qed.

Ltac read_only_steps :=
  repeat first
    [ apply read_only_ret
    | apply read_only_lift
    | apply read_only_reads
    | apply read_only_bind; [ | intros ? ]
    | match goal with
      | |- read_only (match ?x with _ => _ end) => destruct x
      end ].

Lemma same_evaluator_solve_all `{sp : Scipy} (rock rock' : Rock) (entropy : Q)
    (pressures : list Q) :
  same_evaluator rock rock' ->
  solve_all rock' entropy pressures = solve_all rock entropy pressures.
Proof.
  intros Hsame. induction pressures as [|P ps IH]; cbn [solve_all]; [reflexivity|].
  rewrite (same_evaluator_solve rock rock' entropy P Hsame), IH. reflexivity.
Qed.

Lemma with_state_same_evaluator (rock : Rock) (st : option (Q * Q)) :
  same_evaluator rock (with_state rock st).
Proof. unfold same_evaluator, with_state. cbn. auto. Qed.

(** After the loop of [isentrope] the evaluator is where it was, or on
    a state set at one of the pressures. *)
Lemma isentrope_loop_state `{sp : Scipy} (entropy : Q) (todo : list Q) :
  forall (i : nat) (sol : Q) (temperatures : list Q) (rock : Rock),
    state (snd (isentrope_loop entropy todo i sol temperatures rock)) = state rock
    \/ exists P T, In P todo /\
         state (snd (isentrope_loop entropy todo i sol temperatures rock)) = Some (P, T).
Proof.
  induction todo as [|P todo IH]; intros i sol temperatures rock.
  - left. reflexivity.
  - rewrite isentrope_loop_cons. cbn zeta.
    set (qs := queries _ _).
    assert (Hmoved : state (moved rock P qs) = state rock
                     \/ exists T, state (moved rock P qs) = Some (P, T)).
    { unfold moved. destruct (last qs) as [T|]; [right; exists T|left]; reflexivity. }
    destruct (solve rock entropy P) as [x c | e].
    + destruct (IH (S i) x (<[i := x]> temperatures) (moved rock P qs))
        as [Hsame | (P' & T' & Hin & Hst)].
      * rewrite Hsame. destruct Hmoved as [-> | [T ->]]; [left; reflexivity|].
        right. exists P, T. split; [left|]; reflexivity.
      * right. exists P', T'. split; [right; exact Hin | exact Hst].
    + cbn [snd]. destruct Hmoved as [-> | [T ->]]; [left; reflexivity|].
      right. exists P, T. split; [left|]; reflexivity.
Qed.

(** The state the loop leaves is one its callback has set: a pressure
    of the sequence with a temperature at which the bracketing solver
    evaluated the residual there. *)
Lemma isentrope_loop_state_queries `{sp : Scipy} (entropy : Q) (todo : list Q) :
  forall (i : nat) (sol : Q) (temperatures : list Q) (rock0 rock : Rock),
    same_evaluator rock0 rock ->
    state (snd (isentrope_loop entropy todo i sol temperatures rock)) = state rock
    \/ exists P T,
         In P todo /\
         In T (queries (brentq (fst (snd (bounds rock0))) (snd (snd (bounds rock0))))
                 (residual rock0 entropy P)) /\
         state (snd (isentrope_loop entropy todo i sol temperatures rock)) = Some (P, T).
Proof.
  induction todo as [|P todo IH]; intros i sol temperatures rock0 rock Hsame.
  - left. reflexivity.
  - rewrite isentrope_loop_cons. cbn zeta.
    assert (Hres : residual rock entropy P = residual rock0 entropy P).
    { unfold residual. rewrite (proj2 (proj2 Hsame)). reflexivity. }
    rewrite (proj1 Hsame), Hres.
    set (qs := queries _ _).
    assert (Hmoved : state (moved rock P qs) = state rock
                     \/ exists T, In T qs /\ state (moved rock P qs) = Some (P, T)).
    { unfold moved. destruct (last qs) as [T|] eqn:Elast; [right; exists T|left; reflexivity].
      split; [|reflexivity].
      apply list_elem_of_In. apply last_Some_elem_of. exact Elast. }
    assert (Hsame' : same_evaluator rock0 (moved rock P qs)).
    { eapply same_evaluator_trans; [exact Hsame | apply moved_same_evaluator]. }
    destruct (solve rock entropy P) as [x c | e].
    + destruct (IH (S i) x (<[i := x]> temperatures) rock0 (moved rock P qs) Hsame')
        as [Hkeep | (P' & T' & Hin & HT' & Hst)].
      * rewrite Hkeep. destruct Hmoved as [-> | (T & HT & ->)]; [left; reflexivity|].
        right. exists P, T. split; [left; reflexivity|]. split; [exact HT | reflexivity].
      * right. exists P', T'. split; [right; exact Hin|]. split; assumption.
    + cbn [snd]. destruct Hmoved as [-> | (T & HT & ->)]; [left; reflexivity|].
      right. exists P, T. split; [left; reflexivity|]. split; [exact HT | reflexivity].
Qed.

(** With a root finder that calls the function at least once,
    [isentrope] over a non-empty pressure sequence always leaves the
    evaluator on a state set at one of the pressures. *)
Lemma isentrope_loop_moves `{sp : Scipy} (entropy : Q) (todo : list Q) :
  evaluates brentq ->
  todo <> [] ->
  forall (i : nat) (sol : Q) (temperatures : list Q) (rock : Rock),
    exists P T, In P todo /\
      state (snd (isentrope_loop entropy todo i sol temperatures rock)) = Some (P, T).
Proof.
  intros Hev Hne i sol temperatures rock.
  destruct todo as [|P todo]; [congruence|].
  rewrite isentrope_loop_cons. cbn zeta.
  set (qs := queries _ _).
  assert (Hmoved : exists T, state (moved rock P qs) = Some (P, T)).
  { unfold moved. destruct (last qs) as [T|] eqn:E; [exists T; reflexivity|].
    apply last_None in E. exfalso. eapply Hev. exact E. }
  destruct Hmoved as [T HT].
  destruct (solve rock entropy P) as [x c | e].
  - destruct (isentrope_loop_state entropy todo (S i) x (<[i := x]> temperatures)
                (moved rock P qs)) as [Hsame | (P' & T' & Hin & Hst)].
    + exists P, T. split; [left; reflexivity|]. rewrite Hsame. exact HT.
    + exists P', T'. split; [right; exact Hin | exact Hst].
  - exists P, T. split; [left; reflexivity | exact HT].
Qed.

Section RelaxedProfile.
Context `{sp : Scipy} `{cst : Constants}.
Variable interp_smoothed_array_and_derivatives :
  list (list Q) -> list Q -> list Q -> Q -> Q -> Q ->
  (Q -> Q -> Q) * (Q -> Q -> Q) * (Q -> Q -> Q).

(** [relaxed_profile] leaves the evaluator where its call of
    [isentrope] left it: what follows only reads. *)
Lemma relaxed_profile_evaluator (potential_temperature max_pressure
    surface_gravity outer_radius : Q) (n_points : nat) (n_gridpoints : nat * nat)
    (pressure_stdev temperature_smoothing_factor max_temperature_stdev truncate
     min_grid_temperature max_grid_temperature : Q) (rock : Rock) :
  snd (relaxed_profile interp_smoothed_array_and_derivatives
         potential_temperature max_pressure surface_gravity outer_radius
         n_points n_gridpoints pressure_stdev temperature_smoothing_factor
         max_temperature_stdev truncate min_grid_temperature max_grid_temperature rock)
  = snd (isentrope (np_linspace 100000 max_pressure n_points)
           (table rock "S" 100000 potential_temperature) potential_temperature
           (set_state rock 100000 potential_temperature)).
Proof.
  unfold relaxed_profile.
  cbn [bind reads set_state_M attribute_M attribute set_state state table].
  unfold bind at 1.
  destruct (isentrope _ _ _ _) as [[temperatures | e] rock']; [|reflexivity].
  cbn [snd].
  match goal with |- snd (?c rock') = _ => enough (H : read_only c) by apply H end.
  read_only_steps.
Qed.

End RelaxedProfile.

(** C8 (amended).  The core computations leave the property table, the
    bounds and the molar mass of the evaluator unchanged and their
    results do not depend on the state the evaluator is in before the
    call; its current (pressure, temperature) state, however, is moved
    by [set_state].  After [isentrope] the evaluator is where it was or
    on a state the callback has set: one of the pressures, with a
    temperature at which the bracketing solver evaluated the residual
    there.  After [relaxed_profile] it is the evaluator its call of
    [isentrope] leaves, and so always on a state set by the call:
    (1e5 Pa, potential temperature) or a profile pressure with a
    temperature the bracketing solver tried there. *)
Theorem core_moves_only_the_state `{sp : Scipy} `{cst : Constants}
    (interp_smoothed_array_and_derivatives :
       list (list Q) -> list Q -> list Q -> Q -> Q -> Q ->
       (Q -> Q -> Q) * (Q -> Q -> Q) * (Q -> Q -> Q))
    (rock : Rock) (st : option (Q * Q))
    (pressures : list Q) (entropy T_guess : Q)
    (potential_temperature max_pressure surface_gravity outer_radius : Q)
    (n_points : nat) (n_gridpoints : nat * nat)
    (pressure_stdev temperature_smoothing_factor max_temperature_stdev truncate
     min_grid_temperature max_grid_temperature : Q) :
  let tried entropy P :=
    queries (brentq (fst (snd (bounds rock))) (snd (snd (bounds rock))))
      (residual rock entropy P) in
  let after_isentrope := isentrope pressures entropy T_guess rock in
  let relaxed rock :=
    relaxed_profile interp_smoothed_array_and_derivatives
      potential_temperature max_pressure surface_gravity outer_radius
      n_points n_gridpoints pressure_stdev temperature_smoothing_factor
      max_temperature_stdev truncate min_grid_temperature max_grid_temperature rock in
  let profile_pressures := np_linspace 100000 max_pressure n_points in
  let profile_entropy := table rock "S" 100000 potential_temperature in
  (same_evaluator rock (snd after_isentrope)
   /\ (state (snd after_isentrope) = state rock
       \/ exists P T,
            In P pressures /\ In T (tried entropy P) /\
            state (snd after_isentrope) = Some (P, T))
   /\ fst (isentrope pressures entropy T_guess (with_state rock st)) = fst after_isentrope)
  /\ (same_evaluator rock (snd (relaxed rock))
      /\ snd (relaxed rock)
         = snd (isentrope profile_pressures profile_entropy potential_temperature
                  (set_state rock 100000 potential_temperature))
      /\ (state (snd (relaxed rock)) = Some (100000, potential_temperature)
          \/ exists P T,
               In P profile_pressures /\ In T (tried profile_entropy P) /\
               state (snd (relaxed rock)) = Some (P, T))
      /\ fst (relaxed (with_state rock st)) = fst (relaxed rock)).
Proof.
  cbn zeta. split; [split; [|split]|split; [|split; [|split]]].
  - apply isentrope_run.
  - apply isentrope_loop_state_queries. apply same_evaluator_refl.
  - rewrite (proj1 (isentrope_run pressures entropy T_guess (with_state rock st))).
    rewrite (proj1 (isentrope_run pressures entropy T_guess rock)).
    apply same_evaluator_solve_all, with_state_same_evaluator.
  - rewrite relaxed_profile_evaluator.
    eapply same_evaluator_trans; [|apply isentrope_run].
    unfold same_evaluator. cbn. auto.
  - apply relaxed_profile_evaluator.
  - rewrite relaxed_profile_evaluator.
    destruct (isentrope_loop_state_queries
                (table rock "S" 100000 potential_temperature)
                (np_linspace 100000 max_pressure n_points) 0 potential_temperature
                (np_empty_like (np_linspace 100000 max_pressure n_points))
                rock (set_state rock 100000 potential_temperature))
      as [Hkeep | (P & T & HP & HT & Hst)].
    + unfold same_evaluator. cbn. auto.
    + left. unfold isentrope. rewrite Hkeep. reflexivity.
    + right. exists P, T. auto.
  - reflexivity.
Qed.

(** C8 as stated fails: a fresh evaluator (no state set) is left by
    [isentrope] on a state the call has set, an evaluator that [setup]
    has put on (1e5 Pa, 1500 K) is left by [isentrope] at the last
    pressure of the sequence, and [relaxed_profile], where it returns
    the profile of [seismic_rock] on four pressures, leaves that fresh
    evaluator at the last profile pressure, 25 GPa, and 1512 K. *)
Lemma core_moves_the_state_counterexample :
  state tilted_rock = None
  /\ state (snd (isentrope (sp := reference_scipy) [100000] 1500 1500 tilted_rock))
     = Some (100000, 1500)
  /\ (exists T,
        state (snd (isentrope (sp := reference_scipy) [100000; 110000] 1500 1500
                      (set_state tilted_rock 100000 1500)))
        = Some (110000, T))
  /\ state seismic_rock = None
  /\ fst (relaxed_profile (sp := reference_scipy) (cst := reference_constants)
            reference_smoothing 1512 25000000000 (981 # 100) 6371000 4
            (3%nat, 5%nat) 0 (1 # 4) 30 4 0 0 seismic_rock) = Ok seismic_profile
  /\ exists P T,
       state (snd (relaxed_profile (sp := reference_scipy) (cst := reference_constants)
                     reference_smoothing 1512 25000000000 (981 # 100) 6371000 4
                     (3%nat, 5%nat) 0 (1 # 4) 30 4 0 0 seismic_rock))
       = Some (P, T)
       /\ P == 25000000000 /\ T == 1512.
Proof.
  split; [reflexivity|]. split; [vm_compute; reflexivity|].
  split; [eexists; vm_compute; reflexivity|].
  split; [reflexivity|].
  split; [vm_compute; reflexivity|].
  rewrite relaxed_profile_evaluator. eexists. eexists.
  split; [vm_compute; reflexivity|]. split; reflexivity.
Qed.

(** ** The depth/gravity integrator *)

Lemma map_lookup {A B} (f : A -> B) (l : list A) (i : nat) :
  map f l !! i = f <$> l !! i.
Proof.
  revert i. induction l as [|x l IH]; intros [|i]; cbn; auto.
Qed.

Lemma map_length_eq {A B} (f : A -> B) (l : list A) : length (map f l) = length l.
Proof. induction l; cbn; auto. Qed.

Section DepthGravity.
Context `{sp : Scipy} `{cst : Constants}.

(** What an accepted fit says of its data. *)
Lemma spline_fit_Ok (x y : list Q) (s : Q -> Q) :
  spline_fit x y = Ok s ->
  s = UnivariateSpline x y
  /\ np_all_diff_nonnegative x = true
  /\ length x = length y
  /\ (4 <= length x)%nat.
Proof.
  unfold spline_fit.
  destruct (np_all_diff_nonnegative x); cbn [negb]; [|discriminate].
  destruct (Nat.eqb_spec (length x) (length y)) as [Hlen|]; cbn [negb]; [|discriminate].
  destruct (Nat.leb_spec (length x) 3) as [|Hfour]; [discriminate|].
  intros [= <-]. repeat split; [exact Hlen | lia].
Qed.

(** A fit of fewer than four points is refused, whatever the points. *)
Lemma spline_fit_too_few (x y : list Q) :
  (length x < 4)%nat ->
  spline_fit x y = Err ValueError \/ spline_fit x y = Err FitpackError.
Proof.
  intros Hfew. unfold spline_fit.
  destruct (negb (np_all_diff_nonnegative x)); [left; reflexivity|].
  destruct (negb (length x =? length y)%nat); [left; reflexivity|].
  destruct (Nat.leb_spec (length x) 3); [right; reflexivity | lia].
Qed.

Lemma result_bind_Ok {A B} (r : result A) (k : A -> result B) (b : B) :
  result_bind r k = Ok b -> exists a, r = Ok a /\ k a = Ok b.
Proof. destruct r as [a|e]; cbn; [eauto | discriminate]. Qed.

Lemma gravity_pass_surface (pressures densities : list Q)
    (surface_gravity outer_radius : Q) (gravity depths' gravity' : list Q) :
  starts_at_initial_value odeint ->
  0 < outer_radius ->
  gravity_pass pressures densities surface_gravity outer_radius gravity
    = Ok (depths', gravity') ->
  ((4 <= length pressures)%nat /\ length pressures = length densities
   /\ np_all_diff_nonnegative pressures = true)
  /\ surface_values surface_gravity depths' gravity'.
Proof.
  intros Hode Hr. unfold gravity_pass. intros E.
  apply result_bind_Ok in E as (rhofunc & Hrho & E).
  apply result_bind_Ok in E as (gfunc & Hg & E).
  apply result_bind_Ok in E as (rhofunc' & _ & E).
  apply spline_fit_Ok in Hrho as (_ & Hinc & Hlen & Hfour).
  split; [auto|].
  destruct pressures as [|P ps]; [cbn in Hfour; lia|].
  destruct (Hode (fun p x => 1 / (gfunc x * rhofunc x)) 0 P ps) as [ds Hds].
  rewrite Hds in E. cbn [map lookup list_lookup] in E.
  match type of E with
  | context [odeint ?f ?y0 (?r :: ?rs)] =>
      destruct (Hode f y0 r rs) as [gs Hgs]; rewrite Hgs in E
  end.
  injection E as <- <-.
  split; [reflexivity|].
  cbn [zip_with lookup list_lookup].
  eexists. split; [reflexivity|].
  field. lra.
Qed.

Lemma gravity_iterations_surface (pressures densities : list Q)
    (surface_gravity outer_radius : Q) (n : nat) :
  starts_at_initial_value odeint ->
  0 < outer_radius ->
  forall depths gravity depths' gravity',
    n <> 0%nat ->
    gravity_iterations n pressures densities surface_gravity outer_radius
      depths gravity = Ok (depths', gravity') ->
    ((4 <= length pressures)%nat /\ length pressures = length densities
     /\ np_all_diff_nonnegative pressures = true)
    /\ surface_values surface_gravity depths' gravity'.
Proof.
  intros Hode Hr. induction n as [|n IH]; intros depths gravity depths' gravity' Hn E;
    [congruence|].
  cbn [gravity_iterations] in E.
  apply result_bind_Ok in E as ([d1 g1] & Hpass & E).
  destruct n as [|n].
  - cbn in E. injection E as <- <-.
    eapply gravity_pass_surface; eassumption.
  - eapply IH; [discriminate | exact E].
Qed.

Lemma rev_reverse {A} (l : list A) : rev l = reverse l.
Proof.
  induction l as [|x l IH]; [reflexivity|].
  cbn [rev]. rewrite IH, reverse_cons. reflexivity.
Qed.

Lemma diff_nonnegative_from_spec (l : list Q) :
  forall x0,
    diff_nonnegative_from x0 l = true <->
    forall i a b, (x0 :: l) !! i = Some a -> (x0 :: l) !! S i = Some b -> a <= b.
Proof.
  induction l as [|x1 l IH]; intros x0; cbn [diff_nonnegative_from].
  - split; [|reflexivity]. intros _ [|i] a b Ha Hb; discriminate.
  - rewrite andb_true_iff, IH, Qle_bool_iff. split.
    + intros [H01 Hrest] [|i] a b Ha Hb.
      * cbn in Ha, Hb. injection Ha as <-. injection Hb as <-. exact H01.
      * exact (Hrest i a b Ha Hb).
    + intros H. split; [apply (H 0%nat); reflexivity|].
      intros i a b Ha Hb. exact (H (S i) a b Ha Hb).
Qed.

(** [np.all(np.diff(x) >= 0.0)] says that [x] does not decrease. *)
Lemma np_all_diff_nonnegative_spec (l : list Q) :
  np_all_diff_nonnegative l = true <->
  forall i a b, l !! i = Some a -> l !! S i = Some b -> a <= b.
Proof.
  destruct l as [|x0 l]; [|apply diff_nonnegative_from_spec].
  split; [|reflexivity]. intros _ i a b Ha. discriminate.
Qed.

(** The depths of a pass that returns do not decrease: the fit of the
    densities against the reversed radii was accepted. *)
Lemma gravity_pass_depths (pressures densities : list Q)
    (surface_gravity outer_radius : Q) (gravity depths' gravity' : list Q) :
  gravity_pass pressures densities surface_gravity outer_radius gravity
    = Ok (depths', gravity') ->
  np_all_diff_nonnegative depths' = true.
Proof.
  unfold gravity_pass. intros E.
  apply result_bind_Ok in E as (rhofunc & _ & E).
  apply result_bind_Ok in E as (gfunc & _ & E).
  apply result_bind_Ok in E as (rhofunc' & Hfit & E).
  apply spline_fit_Ok in Hfit as (_ & Hinc & _ & _).
  destruct (map _ _ !! 0%nat) as [r0|]; [|discriminate].
  injection E as <- _.
  set (depths' := odeint _ 0 pressures) in *.
  rewrite np_all_diff_nonnegative_spec in Hinc.
  apply np_all_diff_nonnegative_spec. intros i a b Ha Hb.
  pose proof (lookup_lt_Some _ _ _ Hb) as Hi.
  assert (Hrev : forall j x,
            (j < length depths')%nat -> depths' !! j = Some x ->
            rev (map (fun d => outer_radius - d) depths') !! (length depths' - S j)%nat
            = Some (outer_radius - x)).
  { intros j x Hj Hx. rewrite rev_reverse, reverse_lookup;
      rewrite ?map_length_eq; [|lia].
    replace (length depths' - S (length depths' - S j))%nat with j by lia.
    rewrite map_lookup, Hx. reflexivity. }
  pose proof (Hinc (length depths' - S (S i))%nat (outer_radius - b) (outer_radius - a))
    as Hle.
  rewrite (Hrev (S i) b Hi Hb) in Hle.
  replace (S (length depths' - S (S i))) with (length depths' - S i)%nat in Hle by lia.
  rewrite (Hrev i a ltac:(lia) Ha) in Hle.
  specialize (Hle eq_refl eq_refl). lra.
Qed.

Lemma gravity_iterations_depths (pressures densities : list Q)
    (surface_gravity outer_radius : Q) (n : nat) :
  forall depths gravity depths' gravity',
    n <> 0%nat ->
    gravity_iterations n pressures densities surface_gravity outer_radius
      depths gravity = Ok (depths', gravity') ->
    np_all_diff_nonnegative depths' = true.
Proof.
  induction n as [|n IH]; intros depths gravity depths' gravity' Hn E; [congruence|].
  cbn [gravity_iterations] in E.
  apply result_bind_Ok in E as ([d1 g1] & Hpass & E).
  destruct n as [|n].
  - cbn in E. injection E as <- <-. eapply gravity_pass_depths. exact Hpass.
  - eapply IH; [discriminate | exact E].
Qed.

Lemma compute_depth_gravity_profiles_depths (pressures densities : list Q)
    (surface_gravity outer_radius : Q) (depths' gravity' : list Q) :
  compute_depth_gravity_profiles pressures densities surface_gravity outer_radius
    = Ok (depths', gravity') ->
  (4 <= length pressures)%nat /\ np_all_diff_nonnegative depths' = true.
Proof.
  unfold compute_depth_gravity_profiles, n_gravity_iterations. intros E. split.
  - cbn [gravity_iterations] in E.
    apply result_bind_Ok in E as ([d1 g1] & Hpass & _).
    unfold gravity_pass in Hpass.
    apply result_bind_Ok in Hpass as (rhofunc & Hfit & _).
    apply spline_fit_Ok in Hfit. tauto.
  - eapply gravity_iterations_depths; [|exact E]. discriminate.
Qed.

End DepthGravity.



(** C4 as stated fails on valid inputs.  Three samples with increasing
    pressures and positive densities, a positive surface gravity and a
    positive outer radius: the first spline fit of the first pass is
    refused (a cubic spline takes four points), whatever the routines,
    and nothing is returned.  And where the code returns, the gravity
    of the first sample is the binary64 value of
    [surface_gravity * r * r / r / r], which for the surface gravity 0.1
    and the outer radius 3 is 0.10000000000000002, not the input. *)
Lemma depth_gravity_counterexample :
  (forall (sp : Scipy) (cst : Constants),
     compute_depth_gravity_profiles [100000; 200000; 300000] [3000; 3100; 3200]
       (981 # 100) 6371000 = Err FitpackError)
  /\ PrimFloat.eqb (first_gravity_binary64 one_tenth 3) one_tenth = false
  /\ first_gravity_binary64 one_tenth 3 = 0x1.999999999999bp-4%float.
Proof.
  split; [intros sp cst; reflexivity|].
  split; vm_compute; reflexivity.
Qed.

(** ** Lists as arrays *)

Lemma np_linspace_length (start stop : Q) (num : nat) :
  length (np_linspace start stop num) = num.
Proof. unfold np_linspace. rewrite map_length_eq. apply length_seq. Qed.

Lemma np_linspace_lookup (start stop : Q) (num i : nat) :
  (i < num)%nat ->
  np_linspace start stop num !! i
  = Some (start + inject_Z (Z.of_nat i) * ((stop - start) / inject_Z (Z.of_nat (num - 1)))).
Proof.
  intros Hi. unfold np_linspace. rewrite map_lookup.
  rewrite lookup_seq_lt by exact Hi. reflexivity.
Qed.

Lemma In_lookup {A} (l : list A) (x : A) : In x l -> exists i, l !! i = Some x.
Proof.
  intros H. apply list_elem_of_In in H. apply list_elem_of_lookup_1 in H. exact H.
Qed.

Lemma np_linspace_between (start stop : Q) (num : nat) (x : Q) :
  start <= stop -> In x (np_linspace start stop num) -> start <= x <= stop.
Proof.
  intros Hle Hin. apply In_lookup in Hin as [i Hi].
  pose proof (lookup_lt_Some _ _ _ Hi) as Hlt. rewrite np_linspace_length in Hlt.
  rewrite np_linspace_lookup in Hi by exact Hlt. injection Hi as <-.
  destruct (Nat.eq_dec num 1%nat) as [-> | Hnum].
  - assert (i = 0%nat) as -> by lia. cbn [Nat.sub Z.of_nat inject_Z].
    change (inject_Z 0) with 0.
    assert (E : start + 0 * ((stop - start) / 0) == start) by ring.
    rewrite E. lra.
  - set (n1 := inject_Z (Z.of_nat (num - 1))).
    set (k := inject_Z (Z.of_nat i)).
    assert (Hn1 : 0 < n1).
    { unfold n1. rewrite <- (Zlt_Qlt 0). lia. }
    assert (Hk0 : 0 <= k).
    { unfold k. rewrite <- (Zle_Qle 0). lia. }
    assert (Hk1 : k <= n1).
    { unfold k, n1. rewrite <- Zle_Qle. lia. }
    assert (Hstep : 0 <= (stop - start) / n1).
    { apply Qle_shift_div_l; [exact Hn1 | lra]. }
    split.
    + assert (0 <= k * ((stop - start) / n1)) by (apply Qmult_le_0_compat; assumption).
      lra.
    + assert (Hprod : k * ((stop - start) / n1) <= n1 * ((stop - start) / n1)).
      { apply Qmult_le_compat_r; assumption. }
      assert (E : n1 * ((stop - start) / n1) == stop - start) by (field; lra).
      rewrite E in Hprod. lra.
Qed.

Lemma np_linspace_increasing (start stop : Q) (num : nat) :
  start < stop -> increasing (np_linspace start stop num).
Proof.
  intros Hlt i a b Ha Hb.
  pose proof (lookup_lt_Some _ _ _ Hb) as Hi. rewrite np_linspace_length in Hi.
  rewrite np_linspace_lookup in Ha by lia.
  rewrite np_linspace_lookup in Hb by lia.
  injection Ha as <-. injection Hb as <-.
  set (step := (stop - start) / inject_Z (Z.of_nat (num - 1))).
  assert (Hstep : 0 < step).
  { unfold step. apply Qlt_shift_div_l; [|lra].
    rewrite <- (Zlt_Qlt 0). lia. }
  assert (E : inject_Z (Z.of_nat (S i)) == inject_Z (Z.of_nat i) + 1).
  { rewrite Nat2Z.inj_succ. unfold Z.succ. rewrite inject_Z_plus. reflexivity. }
  rewrite E. lra.
Qed.

Lemma np_linspace_last (start stop : Q) (num : nat) :
  (2 <= num)%nat ->
  exists x, last (np_linspace start stop num) = Some x /\ x == stop.
Proof.
  intros Hn. rewrite last_lookup, np_linspace_length.
  rewrite np_linspace_lookup by lia. eexists. split; [reflexivity|].
  replace (Nat.pred num) with (num - 1)%nat by lia.
  field. intros E. apply (proj1 (inject_Z_injective _ 0)) in E. lia.
Qed.

(** ** The temperature smoothing width *)

Lemma gradient_interior_length (rest : list Q) :
  forall prev cur, length (gradient_interior prev cur rest) = S (length rest).
Proof.
  induction rest as [|next rest IH]; intros prev cur; cbn; [reflexivity|].
  rewrite IH. reflexivity.
Qed.

(** The entries of the interior pass, by position in the array
    [prev :: cur :: rest]. *)
Lemma gradient_interior_lookup (rest : list Q) :
  forall (prev cur : Q) (i : nat),
    gradient_interior prev cur rest !! i
    = if (i <? length rest)%nat then
        match (prev :: cur :: rest) !! (i + 2)%nat, (prev :: cur :: rest) !! i with
        | Some tn, Some tp => Some ((tn - tp) / 2)
        | _, _ => None
        end
      else if (i =? length rest)%nat then
        match (prev :: cur :: rest) !! (i + 1)%nat, (prev :: cur :: rest) !! i with
        | Some tl, Some tp => Some (tl - tp)
        | _, _ => None
        end
      else None.
Proof.
  induction rest as [|next rest IH]; intros prev cur i.
  - destruct i as [|i]; cbn; [reflexivity|].
    destruct i; reflexivity.
  - destruct i as [|i].
    + reflexivity.
    + cbn [gradient_interior lookup list_lookup length].
      rewrite IH.
      change (S i <? S (length rest))%nat with (i <? length rest)%nat.
      change (S i =? S (length rest))%nat with (i =? length rest)%nat.
      reflexivity.
Qed.

(** [np.gradient] computes, at every index, the finite difference
    [slope_at] describes. *)
Lemma np_gradient_slope_at (T grad : list Q) :
  np_gradient T = Ok grad ->
  length grad = length T /\ forall i, grad !! i = slope_at T i.
Proof.
  destruct T as [|f0 [|f1 rest]]; cbn [np_gradient]; try discriminate.
  intros E. injection E as <-. split.
  - cbn. rewrite gradient_interior_length. reflexivity.
  - intros i. unfold slope_at. cbn [length].
    change (S (S (length rest)) <? 2)%nat with false. cbn iota.
    destruct i as [|i]; [reflexivity|].
    change (S i =? 0)%nat with false. cbn iota.
    cbn [lookup list_lookup]. rewrite gradient_interior_lookup.
    replace (S (S (length rest)) - 1)%nat with (S (length rest)) by lia.
    change (S i =? S (length rest))%nat with (i =? length rest)%nat.
    destruct (i =? length rest)%nat eqn:Elast.
    + apply Nat.eqb_eq in Elast. subst i.
      rewrite (proj2 (Nat.ltb_ge _ _)) by lia.
      replace (S (S (length rest)) - 2)%nat with (length rest) by lia.
      replace (length rest + 1)%nat with (S (length rest)) by lia.
      reflexivity.
    + apply Nat.eqb_neq in Elast.
      destruct (i <? length rest)%nat eqn:Elt.
      * replace (S i + 1)%nat with (i + 2)%nat by lia.
        replace (S i - 1)%nat with i by lia.
        reflexivity.
      * apply Nat.ltb_ge in Elt.
        rewrite (lookup_ge_None_2 (f0 :: f1 :: rest) (S i + 1)) by (cbn; lia).
        reflexivity.
Qed.

Lemma Qmax_cases (x y : Q) : (Qmax x y = x /\ y <= x) \/ (Qmax x y = y /\ x <= y).
Proof.
  unfold Qmax, GenericMinMax.gmax.
  destruct (x ?= y) eqn:E.
  - left. split; [reflexivity|]. apply Qeq_alt in E. lra.
  - right. split; [reflexivity|]. apply Qlt_alt in E. lra.
  - left. split; [reflexivity|]. apply Qgt_alt in E. lra.
Qed.

Lemma foldl_Qmax_spec (xs : list Q) :
  forall x,
    x <= foldl Qmax x xs
    /\ (forall y, In y xs -> y <= foldl Qmax x xs)
    /\ (foldl Qmax x xs = x \/ In (foldl Qmax x xs) xs).
Proof.
  induction xs as [|z xs IH]; intros x; cbn [foldl].
  - split; [lra|]. split; [intros y []|left; reflexivity].
  - destruct (IH (Qmax x z)) as (Hge & Hall & Hin).
    destruct (Qmax_cases x z) as [[E Hle] | [E Hle]]; rewrite E in *.
    + split; [exact Hge|]. split.
      * intros y [<- | Hy]; [lra | apply Hall; exact Hy].
      * destruct Hin as [-> | Hin]; [left; reflexivity | right; right; exact Hin].
    + split; [lra|]. split.
      * intros y [<- | Hy]; [exact Hge | apply Hall; exact Hy].
      * destruct Hin as [-> | Hin]; [right; left; reflexivity | right; right; exact Hin].
Qed.

(** [np.max] returns an element of the array that bounds all of it. *)
Lemma np_max_spec (a : list Q) (M : Q) :
  np_max a = Ok M -> (forall y, In y a -> y <= M) /\ In M a.
Proof.
  destruct a as [|x xs]; cbn [np_max]; [discriminate|].
  intros E. injection E as <-.
  destruct (foldl_Qmax_spec xs x) as (Hge & Hall & Hin). split.
  - intros y [<- | Hy]; [exact Hge | apply Hall; exact Hy].
  - destruct Hin as [-> | Hin]; [left; reflexivity | right; exact Hin].
Qed.

(** The width the notebook computes, for an isentrope sampled at two
    grid pressures or more. *)
Lemma temperature_stdev_of_spec
    (max_temperature_stdev temperature_smoothing_factor pressure_stdev : Q)
    (unsmoothed grid_pressures : list Q) :
  (2 <= length grid_pressures)%nat ->
  length unsmoothed = length grid_pressures ->
  exists M gp0 gp1,
    grid_pressures !! 0%nat = Some gp0 /\
    grid_pressures !! 1%nat = Some gp1 /\
    steepest_slope unsmoothed M /\
    temperature_stdev_of max_temperature_stdev temperature_smoothing_factor
      pressure_stdev unsmoothed grid_pressures
    = Ok (Qmin max_temperature_stdev
            (temperature_smoothing_factor * pressure_stdev * M / (gp1 - gp0))).
Proof.
  intros Hn Hlen.
  destruct grid_pressures as [|gp0 [|gp1 gps]]; cbn in Hn; try lia.
  destruct unsmoothed as [|t0 [|t1 ts]]; cbn in Hlen; try lia.
  unfold temperature_stdev_of.
  destruct (np_gradient (t0 :: t1 :: ts)) as [grad|] eqn:Egrad; [|discriminate].
  destruct (np_gradient_slope_at _ _ Egrad) as [Hglen Hslope].
  cbn [result_bind].
  destruct (np_max (np_abs grad)) as [M|] eqn:Emax.
  2:{ destruct grad; [cbn in Hglen; lia | discriminate]. }
  destruct (np_max_spec _ _ Emax) as [Hall Hin].
  exists M, gp0, gp1. split; [reflexivity|]. split; [reflexivity|]. split.
  - split.
    + intros i s Hs. apply Hall. unfold np_abs.
      rewrite <- Hslope in Hs. apply in_map. eapply lookup_In. exact Hs.
    + unfold np_abs in Hin. apply in_map_iff in Hin as (s & <- & Hs).
      apply In_lookup in Hs as [i Hi]. exists i, s.
      rewrite <- Hslope. split; [exact Hi | reflexivity].
  - reflexivity.
Qed.

(** ** The mesh and the scatter assignment *)

Lemma meshgrid_flat_x_length (x y : list Q) :
  length (meshgrid_flat_x x y) = (length y * length x)%nat.
Proof.
  unfold meshgrid_flat_x. induction y as [|a y IH]; cbn; [reflexivity|].
  rewrite length_app, IH. reflexivity.
Qed.

Lemma meshgrid_flat_y_length (x y : list Q) :
  length (meshgrid_flat_y x y) = (length y * length x)%nat.
Proof.
  unfold meshgrid_flat_y. induction y as [|a y IH]; cbn; [reflexivity|].
  rewrite length_app, map_length_eq, IH. reflexivity.
Qed.

(** Node [(i, j)] of the mesh sits at flat index [j * nP + i] and
    carries the [i]-th pressure and the [j]-th temperature. *)
Lemma meshgrid_flat_x_lookup (x y : list Q) (i j : nat) :
  (i < length x)%nat -> (j < length y)%nat ->
  meshgrid_flat_x x y !! (j * length x + i)%nat = x !! i.
Proof.
  unfold meshgrid_flat_x. revert j.
  induction y as [|a y IH]; intros j Hi Hj; cbn in Hj; [lia|].
  cbn [flat_map]. destruct j as [|j].
  - cbn [Nat.mul Nat.add]. apply lookup_app_l. exact Hi.
  - rewrite lookup_app_r by (cbn; lia).
    replace (S j * length x + i - length x)%nat with (j * length x + i)%nat by (cbn; lia).
    apply IH; [exact Hi | lia].
Qed.

Lemma meshgrid_flat_y_lookup (x y : list Q) (i j : nat) :
  (i < length x)%nat -> (j < length y)%nat ->
  meshgrid_flat_y x y !! (j * length x + i)%nat = y !! j.
Proof.
  unfold meshgrid_flat_y. revert j.
  induction y as [|a y IH]; intros j Hi Hj; cbn in Hj; [lia|].
  cbn [flat_map]. destruct j as [|j].
  - cbn [Nat.mul Nat.add]. rewrite lookup_app_l by (rewrite map_length_eq; exact Hi).
    rewrite map_lookup. destruct (lookup_lt_is_Some_2 x i Hi) as [xi ->]. reflexivity.
  - rewrite lookup_app_r by (rewrite map_length_eq; cbn; lia).
    rewrite map_length_eq.
    replace (S j * length x + i - length x)%nat with (j * length x + i)%nat by (cbn; lia).
    apply IH; [exact Hi | lia].
Qed.

Lemma reshape_lookup (rows cols : nat) :
  forall (a : list Q) (i j : nat),
    (j < rows)%nat -> (i < cols)%nat ->
    reshape rows cols a !! j ≫= (fun row => row !! i) = a !! (j * cols + i)%nat.
Proof.
  induction rows as [|rows IH]; intros a i j Hj Hi; [lia|].
  cbn [reshape]. destruct j as [|j].
  - cbn [lookup list_lookup mbind option_bind Nat.mul Nat.add].
    apply lookup_take_lt. exact Hi.
  - cbn [lookup list_lookup]. rewrite IH by lia.
    rewrite lookup_drop. f_equal. cbn. lia.
Qed.

Lemma mask_from_bounds (Tdiff : list Q) (Tdiff_max : Q) :
  forall (idx k idx' : nat),
    mask_from idx Tdiff Tdiff_max !! k = Some idx' ->
    (idx <= idx')%nat /\
    exists Td, Tdiff !! (idx' - idx)%nat = Some Td /\ Td < Tdiff_max.
Proof.
  induction Tdiff as [|Td Tdiff IH]; intros idx k idx' H; cbn [mask_from] in H.
  - discriminate.
  - destruct (Qlt_bool Td Tdiff_max) eqn:E.
    + destruct k as [|k]; cbn in H.
      * injection H as <-. split; [lia|].
        exists Td. rewrite Nat.sub_diag. split; [reflexivity|].
        apply Qlt_bool_iff. exact E.
      * destruct (IH _ _ _ H) as (Hle & Td' & HTd' & Hlt).
        split; [lia|]. exists Td'. split; [|exact Hlt].
        replace (idx' - idx)%nat with (S (idx' - S idx)) by lia. exact HTd'.
    + destruct (IH _ _ _ H) as (Hle & Td' & HTd' & Hlt).
      split; [lia|]. exists Td'. split; [|exact Hlt].
      replace (idx' - idx)%nat with (S (idx' - S idx)) by lia. exact HTd'.
Qed.

Lemma take_indices_cons (a : list Q) (idx : nat) (mask : list nat) (x : Q) :
  a !! idx = Some x -> take_indices a (idx :: mask) = x :: take_indices a mask.
Proof. intros H. unfold take_indices. cbn. rewrite H. reflexivity. Qed.

(** Fancy indexing with in-range indices keeps the positions. *)
Lemma take_indices_lookup (a : list Q) (mask : list nat) :
  (forall k idx, mask !! k = Some idx -> (idx < length a)%nat) ->
  forall k, take_indices a mask !! k = mask !! k ≫= (fun idx => a !! idx).
Proof.
  induction mask as [|idx mask IH]; intros Hin k; [reflexivity|].
  destruct (lookup_lt_is_Some_2 a idx (Hin 0%nat idx eq_refl)) as [x Hx].
  rewrite (take_indices_cons _ _ _ _ Hx).
  destruct k as [|k]; cbn.
  - rewrite Hx. reflexivity.
  - apply IH. intros k' idx' H. apply (Hin (S k')). exact H.
Qed.

(** The scatter assignment of the notebook: a slot whose temperature
    difference is below the bound receives the value of [F] at its
    node, every other slot keeps what it held. *)
Lemma put_indices_mask (F : Q -> Q -> Q) (Tdiff_max : Q) (pp TT : list Q)
    (Tdiff : list Q) :
  forall (idx : nat) (a : list Q),
    length TT = length pp ->
    (idx + length Tdiff <= length pp)%nat ->
    (idx + length Tdiff <= length a)%nat ->
    forall k,
      put_indices a (mask_from idx Tdiff Tdiff_max)
        (zip_with F (take_indices pp (mask_from idx Tdiff Tdiff_max))
                    (take_indices TT (mask_from idx Tdiff Tdiff_max))) !! k
      = match Tdiff !! (k - idx)%nat with
        | Some Td =>
            if (idx <=? k)%nat && Qlt_bool Td Tdiff_max
            then match pp !! k, TT !! k with
                 | Some p, Some t => Some (F p t)
                 | _, _ => None
                 end
            else a !! k
        | None => a !! k
        end.
Proof.
  induction Tdiff as [|Td Tdiff IH]; intros idx a HTT Hpp Ha k.
  - cbn. rewrite lookup_nil. reflexivity.
  - cbn [length] in Hpp, Ha. cbn [mask_from].
    destruct (lookup_lt_is_Some_2 pp idx) as [p Hp]; [lia|].
    destruct (lookup_lt_is_Some_2 TT idx) as [t Ht]; [lia|].
    destruct (Qlt_bool Td Tdiff_max) eqn:E.
    + rewrite (take_indices_cons _ _ _ _ Hp), (take_indices_cons _ _ _ _ Ht).
      cbn [zip_with put_indices].
      rewrite IH by (rewrite ?length_insert; lia).
      destruct (Nat.lt_trichotomy k idx) as [Hlt | [-> | Hgt]].
      * replace (k - S idx)%nat with 0%nat by lia.
        replace (k - idx)%nat with 0%nat by lia.
        cbn [lookup list_lookup].
        rewrite (proj2 (Nat.leb_gt idx k)) by lia.
        rewrite (proj2 (Nat.leb_gt (S idx) k)) by lia.
        cbn [andb]. rewrite list_lookup_insert_ne by lia.
        destruct (Tdiff !! 0%nat); reflexivity.
      * replace (idx - S idx)%nat with 0%nat by lia.
        rewrite Nat.sub_diag. cbn [lookup list_lookup].
        rewrite Nat.leb_refl, E. cbn [andb].
        rewrite (proj2 (Nat.leb_gt (S idx) idx)) by lia. cbn [andb].
        rewrite Hp, Ht.
        rewrite list_lookup_insert_eq by lia.
        destruct (Tdiff !! 0%nat); reflexivity.
      * replace (k - idx)%nat with (S (k - S idx)) by lia.
        cbn [lookup list_lookup].
        rewrite (proj2 (Nat.leb_le idx k)) by lia.
        rewrite (proj2 (Nat.leb_le (S idx) k)) by lia.
        rewrite list_lookup_insert_ne by lia. reflexivity.
    + rewrite IH by lia.
      destruct (Nat.lt_trichotomy k idx) as [Hlt | [-> | Hgt]].
      * replace (k - S idx)%nat with 0%nat by lia.
        replace (k - idx)%nat with 0%nat by lia.
        cbn [lookup list_lookup].
        rewrite (proj2 (Nat.leb_gt idx k)) by lia.
        rewrite (proj2 (Nat.leb_gt (S idx) k)) by lia.
        cbn [andb]. destruct (Tdiff !! 0%nat); reflexivity.
      * replace (idx - S idx)%nat with 0%nat by lia.
        rewrite Nat.sub_diag. cbn [lookup list_lookup].
        rewrite E, Bool.andb_false_r.
        rewrite (proj2 (Nat.leb_gt (S idx) idx)) by lia. cbn [andb].
        destruct (Tdiff !! 0%nat); reflexivity.
      * replace (k - idx)%nat with (S (k - S idx)) by lia.
        cbn [lookup list_lookup].
        rewrite (proj2 (Nat.leb_le idx k)) by lia.
        rewrite (proj2 (Nat.leb_le (S idx) k)) by lia.
        reflexivity.
Qed.

(** ** The relaxation grid *)

Section RelaxationGrid.
Variables (rock : Rock) (isentrope_spline : Q -> Q).
Variables (min_grid_pressure max_grid_pressure : Q).
Variables (min_grid_temperature max_grid_temperature : Q).
Variables (n_P n_T : nat).
Variables (pressure_stdev temperature_smoothing_factor : Q).
Variables (max_temperature_stdev truncate : Q).

Let gp := np_linspace min_grid_pressure max_grid_pressure n_P.
Let gt := np_linspace min_grid_temperature max_grid_temperature n_T.
Let pp := meshgrid_flat_x gp gt.
Let TT := meshgrid_flat_y gp gt.
Let Tdiff := np_abs (zip_with Qminus (map isentrope_spline pp) TT).

(** With two grid pressures or more the grid stage returns; this is
    what it returns, the width being the one of [temperature_stdev_of]. *)
Lemma relaxation_grid_returns :
  (2 <= n_P)%nat ->
  exists sigma,
    temperature_stdev_of max_temperature_stdev temperature_smoothing_factor
      pressure_stdev (map isentrope_spline gp) gp = Ok sigma
    /\ relaxation_grid rock isentrope_spline
         min_grid_pressure max_grid_pressure min_grid_temperature max_grid_temperature
         (n_P, n_T) pressure_stdev temperature_smoothing_factor
         max_temperature_stdev truncate
       = let bound := 50 + 30 + truncate * sigma in
         let mask := mask_from 0 Tdiff bound in
         Ok (mkGrid gp gt sigma bound mask
               (take_indices pp mask) (take_indices TT mask)
               (reshape (length gt) (length gp)
                  (put_indices (np_zeros_like pp) mask
                     (zip_with (table rock "S") (take_indices pp mask)
                        (take_indices TT mask))))
               (reshape (length gt) (length gp)
                  (put_indices (np_zeros_like pp) mask
                     (zip_with (table rock "V") (take_indices pp mask)
                        (take_indices TT mask))))).
Proof.
  intros Hn.
  destruct (temperature_stdev_of_spec max_temperature_stdev
              temperature_smoothing_factor pressure_stdev
              (map isentrope_spline gp) gp)
    as (M & gp0 & gp1 & _ & _ & _ & Hsigma).
  { unfold gp. rewrite np_linspace_length. exact Hn. }
  { apply map_length_eq. }
  eexists. split; [exact Hsigma|].
  unfold relaxation_grid. cbn [fst snd].
  fold gp gt. fold pp TT. fold Tdiff.
  rewrite Hsigma. reflexivity.
Qed.

Lemma Tdiff_length : length Tdiff = length pp.
Proof.
  unfold Tdiff, np_abs. rewrite map_length_eq, length_zip_with, map_length_eq.
  unfold pp, TT. rewrite meshgrid_flat_x_length, meshgrid_flat_y_length. lia.
Qed.

Lemma Tdiff_lookup (k : nat) (P T : Q) :
  pp !! k = Some P -> TT !! k = Some T ->
  Tdiff !! k = Some (Qabs (isentrope_spline P - T)).
Proof.
  intros HP HT. unfold Tdiff, np_abs.
  rewrite map_lookup, lookup_zip_with, map_lookup, HP, HT. reflexivity.
Qed.

(** The value the scatter assignment leaves at node [(i, j)]. *)
Lemma scattered_node (F : Q -> Q -> Q) (bound : Q) (i j : nat) (P T : Q) :
  gp !! i = Some P -> gt !! j = Some T ->
  reshape (length gt) (length gp)
    (put_indices (np_zeros_like pp) (mask_from 0 Tdiff bound)
       (zip_with F (take_indices pp (mask_from 0 Tdiff bound))
          (take_indices TT (mask_from 0 Tdiff bound)))) !! j
    ≫= (fun row => row !! i)
  = Some (if Qlt_bool (Qabs (isentrope_spline P - T)) bound then F P T else 0).
Proof.
  intros HP HT.
  pose proof (lookup_lt_Some _ _ _ HP) as Hi.
  pose proof (lookup_lt_Some _ _ _ HT) as Hj.
  rewrite reshape_lookup by assumption.
  assert (Hk : (j * length gp + i < length pp)%nat).
  { unfold pp. rewrite meshgrid_flat_x_length. nia. }
  assert (Hpp : pp !! (j * length gp + i)%nat = Some P).
  { unfold pp. rewrite meshgrid_flat_x_lookup by assumption. exact HP. }
  assert (HTT : TT !! (j * length gp + i)%nat = Some T).
  { unfold TT. rewrite meshgrid_flat_y_lookup by assumption. exact HT. }
  rewrite put_indices_mask.
  - rewrite Nat.sub_0_r, (Tdiff_lookup _ _ _ Hpp HTT).
    cbn [Nat.leb andb]. rewrite Hpp, HTT.
    destruct (Qlt_bool _ bound); [reflexivity|].
    unfold np_zeros_like. apply lookup_replicate_2. exact Hk.
  - unfold pp, TT. rewrite meshgrid_flat_x_length, meshgrid_flat_y_length. reflexivity.
  - rewrite Tdiff_length. lia.
  - unfold np_zeros_like. rewrite length_replicate, Tdiff_length. lia.
Qed.

Lemma In_meshgrid_flat_x (P : Q) : In P pp -> In P gp.
Proof.
  unfold pp, meshgrid_flat_x. intros H.
  apply in_flat_map in H as (_ & _ & H). exact H.
Qed.

Lemma In_meshgrid_flat_y (T : Q) : In T TT -> In T gt.
Proof.
  unfold TT, meshgrid_flat_y. intros H.
  apply in_flat_map in H as (y & Hy & H).
  apply in_map_iff in H as (_ & <- & _). exact Hy.
Qed.

(** Every node handed to the evaluator is a node of the mesh inside
    the window. *)
Lemma evaluated_node (bound : Q) (k : nat) (P T : Q) :
  take_indices pp (mask_from 0 Tdiff bound) !! k = Some P ->
  take_indices TT (mask_from 0 Tdiff bound) !! k = Some T ->
  In P gp /\ In T gt /\ Qabs (isentrope_spline P - T) < bound.
Proof.
  assert (Hrange : forall k idx, mask_from 0 Tdiff bound !! k = Some idx ->
                                 (idx < length pp)%nat).
  { intros k' idx H. destruct (mask_from_bounds _ _ _ _ _ H) as (_ & Td & HTd & _).
    apply lookup_lt_Some in HTd. rewrite Tdiff_length in HTd. lia. }
  assert (HrangeT : forall k idx, mask_from 0 Tdiff bound !! k = Some idx ->
                                  (idx < length TT)%nat).
  { intros k' idx H. specialize (Hrange k' idx H).
    unfold pp, TT in *. rewrite meshgrid_flat_x_length in Hrange.
    rewrite meshgrid_flat_y_length. exact Hrange. }
  rewrite (take_indices_lookup pp _ Hrange), (take_indices_lookup TT _ HrangeT).
  destruct (mask_from 0 Tdiff bound !! k) as [idx|] eqn:Eidx; [|discriminate].
  cbn [mbind option_bind]. intros HP HT.
  destruct (mask_from_bounds _ _ _ _ _ Eidx) as (_ & Td & HTd & Hlt).
  rewrite Nat.sub_0_r, (Tdiff_lookup _ _ _ HP HT) in HTd. injection HTd as <-.
  split; [apply In_meshgrid_flat_x; eapply lookup_In; exact HP|].
  split; [apply In_meshgrid_flat_y; eapply lookup_In; exact HT | exact Hlt].
Qed.

End RelaxationGrid.

(** C2.  The grid stage evaluates the property table only at mesh
    nodes whose temperature is within [50 + 30 + truncate *
    temperature_stdev] of the unsmoothed isentrope at the node's
    pressure; a node inside that window holds the evaluator's entropy
    and volume, and every node outside it holds zero in both grid
    arrays. *)
Theorem window_evaluation (rock : Rock) (isentrope_spline : Q -> Q)
    (min_grid_pressure max_grid_pressure min_grid_temperature max_grid_temperature : Q)
    (n_P n_T : nat)
    (pressure_stdev temperature_smoothing_factor max_temperature_stdev truncate : Q) :
  (2 <= n_P)%nat ->
  exists grid,
    relaxation_grid rock isentrope_spline
      min_grid_pressure max_grid_pressure min_grid_temperature max_grid_temperature
      (n_P, n_T) pressure_stdev temperature_smoothing_factor
      max_temperature_stdev truncate = Ok grid
    /\ Tdiff_max grid = 50 + 30 + truncate * temperature_stdev grid
    /\ (forall i j P T,
          grid_pressures grid !! i = Some P ->
          grid_temperatures grid !! j = Some T ->
          exists s v,
            grid_entropies grid !! j ≫= (fun row => row !! i) = Some s /\
            grid_volumes grid !! j ≫= (fun row => row !! i) = Some v /\
            (Qabs (isentrope_spline P - T) < Tdiff_max grid ->
             s = table rock "S" P T /\ v = table rock "V" P T) /\
            (Tdiff_max grid <= Qabs (isentrope_spline P - T) -> s = 0 /\ v = 0))
    /\ (forall k P T,
          evaluated_pressures grid !! k = Some P ->
          evaluated_temperatures grid !! k = Some T ->
          In P (grid_pressures grid) /\ In T (grid_temperatures grid) /\
          Qabs (isentrope_spline P - T) < Tdiff_max grid).
Proof.
  intros Hn.
  destruct (relaxation_grid_returns rock isentrope_spline
              min_grid_pressure max_grid_pressure min_grid_temperature
              max_grid_temperature n_P n_T pressure_stdev temperature_smoothing_factor
              max_temperature_stdev truncate Hn) as (sigma & _ & Hgrid).
  cbn zeta in Hgrid. eexists. split; [exact Hgrid|].
  cbn [Tdiff_max temperature_stdev grid_pressures grid_temperatures
       grid_entropies grid_volumes evaluated_pressures evaluated_temperatures].
  split; [reflexivity|]. split.
  - intros i j P T HP HT.
    eexists. eexists.
    split; [apply scattered_node; eassumption|].
    split; [apply scattered_node; eassumption|].
    split.
    + intros Hin. apply Qlt_bool_iff in Hin. rewrite Hin. split; reflexivity.
    + intros Hout. apply Qlt_bool_false in Hout. rewrite Hout. split; reflexivity.
  - intros k P T HP HT. eapply evaluated_node; eassumption.
Qed.

(** C2 on a mesh of three pressures and five temperatures. *)
Lemma window_evaluation_witness :
  exists grid,
    relaxation_grid tilted_rock straight_isentrope
      100000 300000 1000 2000 (3%nat, 5%nat) 500 (1 # 4) 30 4 = Ok grid
    /\ Tdiff_max grid = 50 + 30 + 4 * temperature_stdev grid
    /\ (forall i j P T,
          grid_pressures grid !! i = Some P ->
          grid_temperatures grid !! j = Some T ->
          exists s v,
            grid_entropies grid !! j ≫= (fun row => row !! i) = Some s /\
            grid_volumes grid !! j ≫= (fun row => row !! i) = Some v /\
            (Qabs (straight_isentrope P - T) < Tdiff_max grid ->
             s = table tilted_rock "S" P T /\ v = table tilted_rock "V" P T) /\
            (Tdiff_max grid <= Qabs (straight_isentrope P - T) -> s = 0 /\ v = 0))
    /\ (forall k P T,
          evaluated_pressures grid !! k = Some P ->
          evaluated_temperatures grid !! k = Some T ->
          In P (grid_pressures grid) /\ In T (grid_temperatures grid) /\
          Qabs (straight_isentrope P - T) < Tdiff_max grid).
Proof.
  apply (window_evaluation tilted_rock straight_isentrope
           100000 300000 1000 2000 3 5 500 (1 # 4) 30 4).
  lia.
Defined.

Lemma np_linspace_spacing (start stop : Q) (num : nat) (x0 x1 : Q) :
  np_linspace start stop num !! 0%nat = Some x0 ->
  np_linspace start stop num !! 1%nat = Some x1 ->
  x1 - x0 == (stop - start) / inject_Z (Z.of_nat (num - 1)).
Proof.
  intros H0 H1.
  pose proof (lookup_lt_Some _ _ _ H1) as Hn. rewrite np_linspace_length in Hn.
  rewrite np_linspace_lookup in H0 by lia.
  rewrite np_linspace_lookup in H1 by lia.
  injection H0 as <-. injection H1 as <-.
  change (inject_Z (Z.of_nat 0)) with 0. change (inject_Z (Z.of_nat 1)) with 1.
  ring.
Qed.

(** C3 (amended).  With two pressure grid points or more, the
    temperature smoothing width of the grid stage is
    [min(max_temperature_stdev, temperature_smoothing_factor *
    pressure_stdev * M / spacing)], where [spacing] is the difference
    of the first two grid pressures (the spacing of the pressure grid)
    and [M] the largest absolute finite difference of the unsmoothed
    isentrope temperatures between neighbouring nodes of the pressure
    grid (one-sided at the two ends, central inside): [M / spacing] is
    the finite-difference slope of the isentrope against pressure, and
    it is not divided by the spacing a second time. *)
Theorem temperature_stdev_formula (rock : Rock) (isentrope_spline : Q -> Q)
    (min_grid_pressure max_grid_pressure min_grid_temperature max_grid_temperature : Q)
    (n_P n_T : nat)
    (pressure_stdev temperature_smoothing_factor max_temperature_stdev truncate : Q) :
  (2 <= n_P)%nat ->
  exists grid M gp0 gp1,
    relaxation_grid rock isentrope_spline
      min_grid_pressure max_grid_pressure min_grid_temperature max_grid_temperature
      (n_P, n_T) pressure_stdev temperature_smoothing_factor
      max_temperature_stdev truncate = Ok grid
    /\ grid_pressures grid = np_linspace min_grid_pressure max_grid_pressure n_P
    /\ grid_pressures grid !! 0%nat = Some gp0
    /\ grid_pressures grid !! 1%nat = Some gp1
    /\ gp1 - gp0 == (max_grid_pressure - min_grid_pressure) / inject_Z (Z.of_nat (n_P - 1))
    /\ steepest_slope (map isentrope_spline (grid_pressures grid)) M
    /\ temperature_stdev grid
       = Qmin max_temperature_stdev
           (temperature_smoothing_factor * pressure_stdev * M / (gp1 - gp0)).
Proof.
  intros Hn.
  destruct (relaxation_grid_returns rock isentrope_spline
              min_grid_pressure max_grid_pressure min_grid_temperature
              max_grid_temperature n_P n_T pressure_stdev temperature_smoothing_factor
              max_temperature_stdev truncate Hn) as (sigma & Hsigma & Hgrid).
  cbn zeta in Hgrid.
  destruct (temperature_stdev_of_spec max_temperature_stdev
              temperature_smoothing_factor pressure_stdev
              (map isentrope_spline
                 (np_linspace min_grid_pressure max_grid_pressure n_P))
              (np_linspace min_grid_pressure max_grid_pressure n_P))
    as (M & gp0 & gp1 & H0 & H1 & Hsteep & Hof).
  { rewrite np_linspace_length. exact Hn. }
  { apply map_length_eq. }
  rewrite Hsigma in Hof. injection Hof as ->.
  eexists. exists M, gp0, gp1. split; [exact Hgrid|].
  cbn [grid_pressures temperature_stdev].
  split; [reflexivity|]. split; [exact H0|]. split; [exact H1|].
  split; [eapply np_linspace_spacing; eassumption|].
  split; [exact Hsteep | reflexivity].
Qed.

(** C3 (amended) on a mesh of three pressures and five temperatures. *)
Lemma temperature_stdev_formula_witness :
  exists grid M gp0 gp1,
    relaxation_grid tilted_rock straight_isentrope
      100000 300000 1000 2000 (3%nat, 5%nat) 500 (1 # 4) 30 4 = Ok grid
    /\ grid_pressures grid = np_linspace 100000 300000 3
    /\ grid_pressures grid !! 0%nat = Some gp0
    /\ grid_pressures grid !! 1%nat = Some gp1
    /\ gp1 - gp0 == (300000 - 100000) / inject_Z (Z.of_nat (3 - 1))
    /\ steepest_slope (map straight_isentrope (grid_pressures grid)) M
    /\ temperature_stdev grid = Qmin 30 ((1 # 4) * 500 * M / (gp1 - gp0)).
Proof.
  apply (temperature_stdev_formula tilted_rock straight_isentrope
           100000 300000 1000 2000 3 5 500 (1 # 4) 30 4).
  lia.
Defined.

(** C3 as stated fails when [dT_isentrope/dP] is the slope of the
    isentrope against pressure: for an isentrope that rises by 1/100
    kelvin per pascal everywhere, on a pressure grid of spacing 100000
    Pa, the notebook's width is 5/4 K, while the stated formula, which
    divides the slope by the spacing once more, gives 1/80000. *)
Lemma temperature_stdev_counterexample :
  (forall P1 P2, ~ P1 == P2 ->
     (straight_isentrope P2 - straight_isentrope P1) / (P2 - P1) == 1 # 100)
  /\ exists grid gp0 gp1,
       relaxation_grid tilted_rock straight_isentrope
         100000 300000 1000 2000 (3%nat, 5%nat) 500 (1 # 4) 30 4 = Ok grid
       /\ grid_pressures grid !! 0%nat = Some gp0
       /\ grid_pressures grid !! 1%nat = Some gp1
       /\ gp1 - gp0 == 100000
       /\ temperature_stdev grid == 5 # 4
       /\ stated_temperature_stdev 30 (1 # 4) 500 (1 # 100) (gp1 - gp0) == 1 # 80000
       /\ ~ temperature_stdev grid
            == stated_temperature_stdev 30 (1 # 4) 500 (1 # 100) (gp1 - gp0).
Proof.
  split.
  - intros P1 P2 Hne. unfold straight_isentrope. field.
    intros E. apply Hne. lra.
  - eexists. eexists. eexists.
    split; [vm_compute; reflexivity|].
    split; [reflexivity|]. split; [reflexivity|].
    repeat split; vm_compute; congruence.
Qed.

(** ** The written table *)

Lemma np_interp_returns (x xp fp : list Q) :
  xp <> [] -> length fp = length xp ->
  np_interp x xp fp = Ok (map (interp_at xp fp) x).
Proof.
  intros Hne Hlen. unfold np_interp.
  destruct xp as [|xp0 xp']; [congruence|].
  rewrite Hlen, Nat.eqb_refl. reflexivity.
Qed.




Lemma increasing_tail (x : Q) (l : list Q) : increasing (x :: l) -> increasing l.
Proof. intros H i a b Ha Hb. exact (H (S i) a b Ha Hb). Qed.




(** [np.interp] is linear interpolation: the value of the piecewise
    linear function through the samples, continued by its end values. *)
Lemma interp_from_linear (x : Q) (xp : list Q) :
  forall (fp : list Q) (xp0 fp0 : Q),
    increasing (xp0 :: xp) -> length fp = length xp -> xp0 <= x ->
    linearly_interpolated (xp0 :: xp) (fp0 :: fp) x (interp_from x xp0 fp0 xp fp).
Proof.
  induction xp as [|xp1 xp IH]; intros fp xp0 fp0 Hinc Hlen H0.
  - destruct fp; [|discriminate]. right. left.
    exists xp0, fp0.
    split; [reflexivity|]. split; [reflexivity|]. split; [exact H0 | reflexivity].
  - destruct fp as [|fp1 fp]; [discriminate|].
    cbn [interp_from].
    assert (H01 : xp0 < xp1) by (apply (Hinc 0%nat); reflexivity).
    destruct (Qlt_bool x xp1) eqn:E.
    + apply Qlt_bool_iff in E. right. right.
      exists 0%nat, xp0, xp1, fp0, fp1.
      do 4 (split; [reflexivity|]). split; [lra | field; lra].
    + apply Qlt_bool_false in E.
      destruct (IH fp xp1 fp1 (increasing_tail _ _ Hinc)) as
        [(x0 & f0 & Hx0 & Hf0 & Hle & Hv)
        |[(xn & fn & Hxn & Hfn & Hle & Hv)
         |(i & a & b & fa & fb & Ha & Hb & Hfa & Hfb & Hab & Hv)]];
        [cbn in Hlen; lia | exact E | | |].
      * cbn in Hx0, Hf0. injection Hx0 as <-. injection Hf0 as <-.
        right. right. exists 0%nat, xp0, xp1, fp0, fp1.
        do 4 (split; [reflexivity|]). split; [lra|].
        rewrite Hv. assert (Hx : x == xp1) by lra. rewrite Hx. field. lra.
      * right. left. exists xn, fn. tauto.
      * right. right. exists (S i), a, b, fa, fb. tauto.
Qed.

Lemma interp_at_linear (xp fp : list Q) (x : Q) :
  increasing xp -> xp <> [] -> length fp = length xp ->
  linearly_interpolated xp fp x (interp_at xp fp x).
Proof.
  intros Hinc Hne Hlen.
  destruct xp as [|xp0 xp]; [congruence|].
  destruct fp as [|fp0 fp]; [discriminate|].
  cbn [interp_at].
  destruct (Qle_bool x xp0) eqn:E.
  - apply Qle_bool_iff in E. left. exists xp0, fp0.
    split; [reflexivity|]. split; [reflexivity|]. split; [exact E | reflexivity].
  - apply Qle_bool_false in E. apply interp_from_linear; [exact Hinc | | lra].
    cbn in Hlen. lia.
Qed.

Lemma spline_fit_accepts `{sp : Scipy} (x y : list Q) :
  np_all_diff_nonnegative x = true ->
  length x = length y ->
  (4 <= length x)%nat ->
  spline_fit x y = Ok (UnivariateSpline x y).
Proof.
  intros Hinc Hlen Hfour. unfold spline_fit.
  rewrite Hinc, Hlen, Nat.eqb_refl. cbn [negb].
  destruct (Nat.leb_spec (length y) 3); [lia | reflexivity].
Qed.

Section WrittenTable.
Context `{sp : Scipy}.
Variables (profile : Profile) (pressures : list Q) (n_points : nat).
Hypothesis pressures_nonempty : pressures <> [].
Hypothesis profile_length : profile_of_length profile (length pressures).

(** The columns [update_plot] hands to [np.savetxt] are the columns of
    the specification, in its order. *)
Lemma equal_depth_columns_returns (d0 dlast : Q) :
  depths profile !! 0%nat = Some d0 ->
  last (depths profile) = Some dlast ->
  equal_depth_columns profile pressures n_points
  = Ok (resampled_columns profile pressures n_points d0 dlast).
Proof.
  intros H0 Hlast.
  destruct profile_length as (HT & Hrho & Hg & Ha & Hcp & Hb & Hvs & Hvp & Hdvs & Hdvp).
  unfold equal_depth_columns, equal_depth_columns_from, index, index_last.
  rewrite H0, Hlast.
  cbn [result_bind].
  rewrite !np_interp_returns by assumption.
  reflexivity.
Qed.

Lemma resampled_columns_lengths (d0 dlast : Q) :
  Forall (fun column : list Q => length column = n_points)
    (resampled_columns profile pressures n_points d0 dlast).
Proof.
  unfold resampled_columns.
  repeat constructor; rewrite ?map_length_eq; apply np_linspace_length.
Qed.

Lemma np_array_T_returns (columns : list (list Q)) (n : nat) :
  columns <> [] ->
  Forall (fun column : list Q => length column = n) columns ->
  np_array_T columns = Ok (map (row_of columns) (seq 0 n)).
Proof.
  intros Hne Hall. unfold np_array_T.
  destruct columns as [|c cs]; [congruence|].
  pose proof (Forall_inv Hall) as Hc. cbn beta in Hc.
  assert (Hcheck : forallb (fun c' : list Q => Nat.eqb (length c') (length c)) (c :: cs)
                   = true).
  { apply forallb_forall. intros c' Hin.
    rewrite Forall_forall in Hall. apply list_elem_of_In in Hin.
    rewrite (Hall c' Hin), Hc. apply Nat.eqb_refl. }
  rewrite Hcheck, Hc. reflexivity.
Qed.

(** Row [k] of the table: its depth, the spline of pressure against
    depth there, and each property interpolated at that pressure. *)
Lemma row_of_resampled_columns (d0 dlast : Q) (k : nat) :
  (k < n_points)%nat ->
  row_of (resampled_columns profile pressures n_points d0 dlast) k
  = let depth := d0 + inject_Z (Z.of_nat k)
                      * ((dlast - d0) / inject_Z (Z.of_nat (n_points - 1))) in
    let pressure := UnivariateSpline (depths profile) pressures depth in
    depth :: pressure
      :: map (fun computed => interp_at pressures computed pressure)
           (property_columns profile).
Proof.
  intros Hk. unfold row_of, resampled_columns, property_columns.
  cbn [omap list_omap map].
  rewrite !map_lookup, (np_linspace_lookup d0 dlast n_points k Hk).
  reflexivity.
Qed.

(** What is written when the fit of the pressures against the depths
    is accepted: the header block, then one line per row of the
    specification's columns. *)
Lemma isentrope_properties_txt_returns (d0 dlast : Q) :
  np_all_diff_nonnegative (depths profile) = true ->
  length (depths profile) = length pressures ->
  (4 <= length pressures)%nat ->
  depths profile !! 0%nat = Some d0 ->
  last (depths profile) = Some dlast ->
  isentrope_properties_txt profile pressures n_points
  = Ok (np_savetxt
          (map (row_of (resampled_columns profile pressures n_points d0 dlast))
             (seq 0 n_points))
          (header n_points) 10 tab).
Proof.
  intros Hinc Hdepths Hfour H0 Hlast. unfold isentrope_properties_txt.
  rewrite (spline_fit_accepts _ _ Hinc Hdepths) by lia. cbn [result_bind].
  fold (equal_depth_columns profile pressures n_points).
  rewrite (equal_depth_columns_returns d0 dlast H0 Hlast). cbn [result_bind].
  rewrite (np_array_T_returns _ n_points);
    [reflexivity | discriminate | apply resampled_columns_lengths].
Qed.

(** And nothing is written when it is refused. *)
Lemma isentrope_properties_txt_refused (e : error) :
  spline_fit (depths profile) pressures = Err e ->
  isentrope_properties_txt profile pressures n_points = Err e.
Proof. intros E. unfold isentrope_properties_txt. rewrite E. reflexivity. Qed.

End WrittenTable.

Lemma nonempty_first_last (l : list Q) :
  l <> [] -> exists x0 xlast, l !! 0%nat = Some x0 /\ last l = Some xlast.
Proof.
  intros Hne. destruct l as [|x l]; [congruence|].
  exists x. destruct (last (x :: l)) as [y|] eqn:E.
  - exists y. split; reflexivity.
  - apply last_None in E. discriminate.
Qed.

Lemma property_columns_lengths (profile : Profile) (n j : nat) (computed : list Q) :
  profile_of_length profile n ->
  property_columns profile !! j = Some computed ->
  length computed = n.
Proof.
  intros (HT & Hrho & Hg & Ha & Hcp & Hb & Hvs & Hvp & Hdvs & Hdvp) Hj.
  unfold property_columns in Hj.
  do 10 (destruct j as [|j]; [cbn in Hj; injection Hj as <-; assumption|]).
  destruct j; discriminate.
Qed.

(** C10.  Before the file is written every column is resampled onto
    [n_points] depths equally spaced between the first and the last
    computed depth.  For a profile the spline fit accepts (four or more
    samples, depths that do not decrease) over increasing pressures,
    [update_plot] writes the header block and [n_points] rows; row [k]
    starts with the depth [d0 + k (dlast - d0) / (n_points - 1)], which
    is the first computed depth in the first row and the last computed
    depth in the last row; its second cell is the spline of pressure
    against depth at that depth, and its ten other cells are the values
    at that pressure of the piecewise linear functions through the
    computed values of the ten properties. *)
Theorem rows_equally_spaced_in_depth `{sp : Scipy} (profile : Profile)
    (pressures : list Q) (n_points : nat) :
  (2 <= n_points)%nat ->
  increasing pressures ->
  (4 <= length pressures)%nat ->
  length (depths profile) = length pressures ->
  np_all_diff_nonnegative (depths profile) = true ->
  profile_of_length profile (length pressures) ->
  exists d0 dlast rows,
    depths profile !! 0%nat = Some d0 /\
    last (depths profile) = Some dlast /\
    isentrope_properties_txt profile pressures n_points
      = Ok ((header n_points ++ newline)%string :: rows) /\
    length rows = n_points /\
    forall k, (k < n_points)%nat ->
      exists depth values,
        rows !! k
          = Some (join tab
                    (map (format_e 10)
                       (depth :: UnivariateSpline (depths profile) pressures depth
                          :: values))
                  ++ newline)%string /\
        depth == d0 + inject_Z (Z.of_nat k)
                      * ((dlast - d0) / inject_Z (Z.of_nat (n_points - 1))) /\
        (k = 0%nat -> depth == d0) /\
        (k = (n_points - 1)%nat -> depth == dlast) /\
        length values = 10%nat /\
        forall j computed,
          property_columns profile !! j = Some computed ->
          exists value,
            values !! j = Some value /\
            linearly_interpolated pressures computed
              (UnivariateSpline (depths profile) pressures depth) value.
Proof.
  intros Hn Hinc Hfour Hdepths Hnondecr Hlen.
  assert (Hp : pressures <> []) by (intros ->; cbn in Hfour; lia).
  assert (Hd : depths profile <> []).
  { intros E. rewrite E in Hdepths. cbn in Hdepths. lia. }
  destruct (nonempty_first_last _ Hd) as (d0 & dlast & H0 & Hlast).
  exists d0, dlast. eexists.
  split; [exact H0|]. split; [exact Hlast|].
  split; [exact (isentrope_properties_txt_returns profile pressures n_points
                   Hp Hlen d0 dlast Hnondecr Hdepths Hfour H0 Hlast)|].
  split; [rewrite !map_length_eq; apply length_seq|].
  intros k Hk.
  assert (Hden : ~ inject_Z (Z.of_nat (n_points - 1)) == 0).
  { intros E. apply (proj1 (inject_Z_injective _ 0)) in E. lia. }
  eexists. eexists.
  split.
  { rewrite !map_lookup, lookup_seq_lt by exact Hk. cbn [fmap option_fmap option_map].
    unfold savetxt_row.
    rewrite (row_of_resampled_columns profile pressures n_points d0 dlast k Hk).
    cbn zeta. reflexivity. }
  split; [reflexivity|].
  split; [intros ->; change (inject_Z (Z.of_nat 0)) with 0; ring|].
  split; [intros ->; field; exact Hden|].
  split; [reflexivity|].
  intros j computed Hj.
  eexists. split; [rewrite map_lookup, Hj; reflexivity|].
  apply interp_at_linear; [exact Hinc | exact Hp |].
  eapply property_columns_lengths; eassumption.
Qed.

Lemma seismic_pressures_increasing : increasing (np_linspace 100000 25000000000 4).
Proof. apply np_linspace_increasing. reflexivity. Qed.

Lemma seismic_profile_of_length :
  profile_of_length seismic_profile (length (np_linspace 100000 25000000000 4)).
Proof. repeat split. Qed.

Lemma seismic_depths_accepted :
  np_all_diff_nonnegative (depths seismic_profile) = true.
Proof. vm_compute. reflexivity. Qed.

(** C10 on the four-sample profile of [seismic_rock]. *)
Lemma rows_equally_spaced_in_depth_witness :
  exists d0 dlast rows,
    depths seismic_profile !! 0%nat = Some d0 /\
    last (depths seismic_profile) = Some dlast /\
    isentrope_properties_txt (sp := reference_scipy) seismic_profile
      (np_linspace 100000 25000000000 4) 4
      = Ok ((header 4 ++ newline)%string :: rows) /\
    length rows = 4%nat /\
    forall k, (k < 4)%nat ->
      exists depth values,
        rows !! k
          = Some (join tab
                    (map (format_e 10)
                       (depth :: UnivariateSpline (Scipy := reference_scipy)
                                   (depths seismic_profile)
                                   (np_linspace 100000 25000000000 4) depth
                          :: values))
                  ++ newline)%string /\
        depth == d0 + inject_Z (Z.of_nat k)
                      * ((dlast - d0) / inject_Z (Z.of_nat (4 - 1))) /\
        (k = 0%nat -> depth == d0) /\
        (k = (4 - 1)%nat -> depth == dlast) /\
        length values = 10%nat /\
        forall j computed,
          property_columns seismic_profile !! j = Some computed ->
          exists value,
            values !! j = Some value /\
            linearly_interpolated (np_linspace 100000 25000000000 4) computed
              (UnivariateSpline (Scipy := reference_scipy) (depths seismic_profile)
                 (np_linspace 100000 25000000000 4) depth) value.
Proof.
  apply (rows_equally_spaced_in_depth (sp := reference_scipy) seismic_profile
           (np_linspace 100000 25000000000 4) 4).
  - lia.
  - exact seismic_pressures_increasing.
  - cbn. lia.
  - reflexivity.
  - exact seismic_depths_accepted.
  - exact seismic_profile_of_length.
Defined.

(** ** The converted values *)

Lemma digit_char_digit (d : Z) :
  is_digit (digit_char d) = true /\ Ascii.eqb (digit_char d) "e" = false.
Proof.
  unfold digit_char.
  assert (H : (Z.to_nat (d mod 10) < 10)%nat).
  { pose proof (Z.mod_pos_bound d 10). lia. }
  generalize dependent (Z.to_nat (d mod 10)). intros k H.
  do 10 (destruct k as [|k]; [split; reflexivity|]). lia.
Qed.

Lemma significant_digits_digits_fixed (n : nat) :
  forall (m : Z) (acc : string),
    significant_digits (digits_fixed n m acc) = (n + significant_digits acc)%nat.
Proof.
  induction n as [|n IH]; intros m acc; cbn [digits_fixed]; [reflexivity|].
  rewrite IH. cbn [significant_digits].
  destruct (digit_char_digit m) as [-> ->]. lia.
Qed.

Lemma string_app_cons (c : ascii) (s1 s2 : string) :
  (String c s1 ++ s2 = String c (s1 ++ s2))%string.
Proof. reflexivity. Qed.

Lemma string_app_nil (s : string) : (EmptyString ++ s = s)%string.
Proof. reflexivity. Qed.

Lemma string_app_assoc (s1 s2 s3 : string) :
  (s1 ++ s2 ++ s3 = (s1 ++ s2) ++ s3)%string.
Proof.
  induction s1 as [|c s1 IH]; [reflexivity|].
  change (String c (s1 ++ s2 ++ s3) = String c ((s1 ++ s2) ++ s3))%string.
  f_equal. exact IH.
Qed.

Lemma digits_fixed_app (n : nat) :
  forall (m : Z) (acc : string),
    digits_fixed n m acc = (digits_fixed n m EmptyString ++ acc)%string.
Proof.
  induction n as [|n IH]; intros m acc; cbn [digits_fixed]; [reflexivity|].
  rewrite IH. rewrite (IH (m / 10)%Z (String (digit_char m) EmptyString)).
  rewrite <- string_app_assoc. reflexivity.
Qed.

(** ['%.<prec>e'] prints [prec + 1] significant digits: one before the
    point and [prec] after it. *)
Lemma format_e_significant_digits (prec : nat) (q : Q) :
  significant_digits (format_e prec q) = S prec.
Proof.
  unfold format_e. destruct (mantissa_exponent prec q) as [m e].
  assert (H : significant_digits
                (mantissa_string prec m ++ "e" ++ exponent_string e) = S prec).
  { unfold mantissa_string. rewrite !string_app_cons.
    cbn [significant_digits].
    destruct (digit_char_digit (m / 10 ^ Z.of_nat prec)) as [-> ->].
    change (Ascii.eqb "." "e") with false. change (is_digit ".") with false.
    cbn iota. f_equal.
    rewrite <- digits_fixed_app.
    rewrite significant_digits_digits_fixed.
    cbn [significant_digits].
    change (Ascii.eqb "e" "e") with true. cbn iota. lia. }
  destruct (Qlt_bool q 0); [|exact H].
  rewrite string_app_cons, string_app_nil. cbn [significant_digits].
  change (Ascii.eqb "-" "e") with false. change (is_digit "-") with false.
  exact H.
Qed.

(** Entry [c] of row [k] is entry [k] of column [c]. *)
Lemma row_of_lookup (columns : list (list Q)) (n k : nat) :
  Forall (fun column : list Q => length column = n) columns ->
  (k < n)%nat ->
  length (row_of columns k) = length columns
  /\ forall c, row_of columns k !! c = columns !! c ≫= (fun column => column !! k).
Proof.
  intros Hall Hk. unfold row_of.
  induction Hall as [|column columns Hcol Hall IH]; [split; [reflexivity|]; intros c; reflexivity|].
  destruct IH as [IHlen IHlook].
  destruct (lookup_lt_is_Some_2 column k) as [x Hx]; [lia|].
  cbn [omap list_omap]. rewrite Hx. split.
  - cbn. f_equal. exact IHlen.
  - intros [|c]; cbn; [rewrite Hx; reflexivity | apply IHlook].
Qed.

(** A converted value holds no tab and no line end, so the cells of a
    written row are the converted values, one by one. *)
Lemma cell_text_app (s1 s2 : string) :
  cell_text (s1 ++ s2) = cell_text s1 && cell_text s2.
Proof.
  induction s1 as [|c s1 IH]; [reflexivity|].
  rewrite string_app_cons. cbn [cell_text]. rewrite IH.
  destruct (Ascii.eqb c (ascii_of_nat 9)), (Ascii.eqb c (ascii_of_nat 10)); reflexivity.
Qed.

Lemma digit_char_cell_text (d : Z) (s : string) :
  cell_text (String (digit_char d) s) = cell_text s.
Proof.
  unfold digit_char.
  assert (H : (Z.to_nat (d mod 10) < 10)%nat).
  { pose proof (Z.mod_pos_bound d 10). lia. }
  generalize dependent (Z.to_nat (d mod 10)). intros k H.
  do 10 (destruct k as [|k]; [reflexivity|]). lia.
Qed.

Lemma digits_fixed_cell_text (n : nat) :
  forall (m : Z) (acc : string),
    cell_text (digits_fixed n m acc) = cell_text acc.
Proof.
  induction n as [|n IH]; intros m acc; cbn [digits_fixed]; [reflexivity|].
  rewrite IH. apply digit_char_cell_text.
Qed.

Lemma format_e_cell_text (prec : nat) (q : Q) : cell_text (format_e prec q) = true.
Proof.
  unfold format_e. destruct (mantissa_exponent prec q) as [m e].
  rewrite !cell_text_app.
  assert (Hm : cell_text (mantissa_string prec m) = true).
  { unfold mantissa_string. rewrite digit_char_cell_text.
    cbn [cell_text]. change (Ascii.eqb "." (ascii_of_nat 9)) with false.
    change (Ascii.eqb "." (ascii_of_nat 10)) with false. cbn [negb andb].
    apply digits_fixed_cell_text. }
  assert (He : cell_text (exponent_string e) = true).
  { unfold exponent_string.
    destruct (e <? 0)%Z; cbn [cell_text];
      [change (Ascii.eqb "-" (ascii_of_nat 9)) with false;
       change (Ascii.eqb "-" (ascii_of_nat 10)) with false
      |change (Ascii.eqb "+" (ascii_of_nat 9)) with false;
       change (Ascii.eqb "+" (ascii_of_nat 10)) with false];
      cbn [negb andb]; apply digits_fixed_cell_text. }
  rewrite Hm, He. destruct (Qlt_bool q 0); reflexivity.
Qed.

Lemma cells_from_cell_text (s : string) :
  forall (cell rest : string),
    cell_text s = true ->
    cells_from (ascii_of_nat 9) cell (s ++ rest)
    = cells_from (ascii_of_nat 9) (cell ++ s) rest.
Proof.
  induction s as [|c s IH]; intros cell rest Hs.
  - rewrite string_app_nil.
    assert (E : (cell ++ EmptyString)%string = cell).
    { clear. induction cell as [|c cell IH]; [reflexivity|].
      rewrite string_app_cons, IH. reflexivity. }
    rewrite E. reflexivity.
  - rewrite string_app_cons. cbn [cells_from]. cbn [cell_text] in Hs.
    destruct (Ascii.eqb c (ascii_of_nat 9)); [discriminate|].
    destruct (Ascii.eqb c (ascii_of_nat 10)); [discriminate|].
    cbn [negb andb] in Hs.
    rewrite (IH _ rest Hs). f_equal.
    rewrite <- string_app_assoc. reflexivity.
Qed.

Lemma cells_join (values : list string) :
  values <> [] ->
  Forall (fun cell => cell_text cell = true) values ->
  cells (join tab values ++ newline) = values.
Proof.
  intros Hne Hall. unfold cells.
  induction Hall as [|c cs Hc Hall IH]; [congruence|].
  destruct cs as [|c' cs].
  - cbn [join]. rewrite (cells_from_cell_text c EmptyString newline Hc).
    rewrite string_app_nil. reflexivity.
  - change (join tab (c :: c' :: cs)) with (c ++ tab ++ join tab (c' :: cs))%string.
    rewrite <- !string_app_assoc.
    rewrite (cells_from_cell_text c EmptyString _ Hc), string_app_nil.
    unfold tab at 1. rewrite string_app_cons, string_app_nil.
    cbn [cells_from]. rewrite Ascii.eqb_refl.
    f_equal. apply IH. discriminate.
Qed.

(** The cells of a written row: the values of the row converted with
    ['%.10e'], each with eleven significant digits. *)
Lemma savetxt_row_cells (row : list Q) :
  row <> [] ->
  cells (savetxt_row 10 tab row) = map (format_e 10) row
  /\ Forall (fun cell => significant_digits cell = 11%nat)
       (cells (savetxt_row 10 tab row)).
Proof.
  intros Hne.
  assert (E : cells (savetxt_row 10 tab row) = map (format_e 10) row).
  { unfold savetxt_row. apply cells_join.
    - destruct row; [congruence | discriminate].
    - apply Forall_forall. intros cell Hin.
      apply list_elem_of_In, in_map_iff in Hin as (q & <- & _).
      apply format_e_cell_text. }
  split; [exact E|]. rewrite E.
  apply Forall_forall. intros cell Hin.
  apply list_elem_of_In, in_map_iff in Hin as (q & <- & _).
  apply format_e_significant_digits.
Qed.

(** The table of a profile the spline fit accepts, row by row. *)
Lemma written_table `{sp : Scipy} (profile : Profile)
    (pressures : list Q) (n_points : nat) :
  (4 <= length pressures)%nat ->
  length (depths profile) = length pressures ->
  np_all_diff_nonnegative (depths profile) = true ->
  profile_of_length profile (length pressures) ->
  exists d0 dlast rows,
    depths profile !! 0%nat = Some d0 /\
    last (depths profile) = Some dlast /\
    isentrope_properties_txt profile pressures n_points
      = Ok ((header_line_1 ++ newline
             ++ "# POINTS: " ++ pretty n_points ++ " " ++ newline
             ++ header_line_3 ++ newline ++ header_line_4 ++ newline)%string :: rows) /\
    length rows = n_points /\
    forall k, (k < n_points)%nat ->
      exists line depth pressure,
        rows !! k = Some line /\
        np_linspace d0 dlast n_points !! k = Some depth /\
        pressure = UnivariateSpline (depths profile) pressures depth /\
        let at_pressure computed := interp_at pressures computed pressure in
        let row :=
          [depth; pressure;
           at_pressure (smoothed_temperatures profile);
           at_pressure (densities profile);
           at_pressure (gravity profile);
           at_pressure (alphas_relaxed profile);
           at_pressure (specific_heats_relaxed profile);
           at_pressure (compressibilities_relaxed profile);
           at_pressure (Vss profile);
           at_pressure (Vps profile);
           at_pressure (dVsdT profile);
           at_pressure (dVpdT profile)] in
        line = (join tab (map (format_e 10) row) ++ newline)%string /\
        cells line = map (format_e 10) row /\
        Forall (fun cell => significant_digits cell = 11%nat) (cells line).
Proof.
  intros Hfour Hdepths Hnondecr Hlen.
  assert (Hp : pressures <> []) by (intros ->; cbn in Hfour; lia).
  assert (Hd : depths profile <> []).
  { intros E. rewrite E in Hdepths. cbn in Hdepths. lia. }
  destruct (nonempty_first_last _ Hd) as (d0 & dlast & H0 & Hlast).
  exists d0, dlast. eexists.
  split; [exact H0|]. split; [exact Hlast|].
  split.
  { rewrite (isentrope_properties_txt_returns profile pressures n_points
               Hp Hlen d0 dlast Hnondecr Hdepths Hfour H0 Hlast).
    unfold np_savetxt, header, header_line_2.
    rewrite <- !string_app_assoc. reflexivity. }
  split; [rewrite !map_length_eq; apply length_seq|].
  intros k Hk.
  eexists. eexists. eexists.
  split.
  { rewrite !map_lookup, lookup_seq_lt by exact Hk. cbn [fmap option_fmap option_map].
    rewrite (row_of_resampled_columns profile pressures n_points d0 dlast k Hk).
    reflexivity. }
  split; [apply np_linspace_lookup; exact Hk|].
  split; [reflexivity|].
  cbn zeta. split; [reflexivity|].
  match goal with
  | |- cells (savetxt_row 10 tab ?row) = _ /\ _ =>
      exact (savetxt_row_cells row ltac:(discriminate))
  end.
Qed.

(** C6 (amended).  The file starts with the header block, which names
    the point count and the columns; every data row then holds the
    twelve columns in the order depth, pressure, temperature, density,
    gravity, thermal expansivity, specific heat, compressibility,
    shear-wave velocity, P-wave velocity, dVs/dT, dVp/dT, separated by
    tabs, each value converted with ['%.10e']: exponential notation
    with ten digits after the point, that is eleven significant
    digits.  This is what is written for a profile the spline fit
    accepts: four or more samples and depths that do not decrease. *)
Theorem table_rows_format `{sp : Scipy} (profile : Profile)
    (pressures : list Q) (n_points : nat) :
  (4 <= length pressures)%nat ->
  length (depths profile) = length pressures ->
  np_all_diff_nonnegative (depths profile) = true ->
  profile_of_length profile (length pressures) ->
  exists d0 dlast rows,
    depths profile !! 0%nat = Some d0 /\
    last (depths profile) = Some dlast /\
    isentrope_properties_txt profile pressures n_points
      = Ok ((header_line_1 ++ newline
             ++ "# POINTS: " ++ pretty n_points ++ " " ++ newline
             ++ header_line_3 ++ newline ++ header_line_4 ++ newline)%string :: rows) /\
    length rows = n_points /\
    forall k, (k < n_points)%nat ->
      exists line depth pressure,
        rows !! k = Some line /\
        np_linspace d0 dlast n_points !! k = Some depth /\
        pressure = UnivariateSpline (depths profile) pressures depth /\
        let at_pressure computed := interp_at pressures computed pressure in
        let row :=
          [depth; pressure;
           at_pressure (smoothed_temperatures profile);
           at_pressure (densities profile);
           at_pressure (gravity profile);
           at_pressure (alphas_relaxed profile);
           at_pressure (specific_heats_relaxed profile);
           at_pressure (compressibilities_relaxed profile);
           at_pressure (Vss profile);
           at_pressure (Vps profile);
           at_pressure (dVsdT profile);
           at_pressure (dVpdT profile)] in
        line = (join tab (map (format_e 10) row) ++ newline)%string /\
        cells line = map (format_e 10) row /\
        Forall (fun cell => significant_digits cell = 11%nat) (cells line).
Proof. exact (written_table profile pressures n_points). Qed.

(** C6 (amended) on the four-sample profile of [seismic_rock]. *)
Lemma table_rows_format_witness :
  exists d0 dlast rows,
    depths seismic_profile !! 0%nat = Some d0 /\
    last (depths seismic_profile) = Some dlast /\
    isentrope_properties_txt (sp := reference_scipy) seismic_profile
      (np_linspace 100000 25000000000 4) 4
      = Ok ((header_line_1 ++ newline
             ++ "# POINTS: " ++ pretty 4%nat ++ " " ++ newline
             ++ header_line_3 ++ newline ++ header_line_4 ++ newline)%string :: rows) /\
    length rows = 4%nat /\
    forall k, (k < 4)%nat ->
      exists line depth pressure,
        rows !! k = Some line /\
        np_linspace d0 dlast 4 !! k = Some depth /\
        pressure = UnivariateSpline (Scipy := reference_scipy) (depths seismic_profile)
                     (np_linspace 100000 25000000000 4) depth /\
        let at_pressure computed :=
          interp_at (np_linspace 100000 25000000000 4) computed pressure in
        let row :=
          [depth; pressure;
           at_pressure (smoothed_temperatures seismic_profile);
           at_pressure (densities seismic_profile);
           at_pressure (gravity seismic_profile);
           at_pressure (alphas_relaxed seismic_profile);
           at_pressure (specific_heats_relaxed seismic_profile);
           at_pressure (compressibilities_relaxed seismic_profile);
           at_pressure (Vss seismic_profile);
           at_pressure (Vps seismic_profile);
           at_pressure (dVsdT seismic_profile);
           at_pressure (dVpdT seismic_profile)] in
        line = (join tab (map (format_e 10) row) ++ newline)%string /\
        cells line = map (format_e 10) row /\
        Forall (fun cell => significant_digits cell = 11%nat) (cells line).
Proof.
  apply (table_rows_format (sp := reference_scipy) seismic_profile
           (np_linspace 100000 25000000000 4) 4).
  - cbn. lia.
  - reflexivity.
  - exact seismic_depths_accepted.
  - exact seismic_profile_of_length.
Defined.

(** C6 as stated fails on the number of digits.  In the table of the
    four-sample profile of [seismic_rock], whatever spline is fitted to
    its depths, the first data row has twelve cells, the first of them
    the depth 0, and every cell is written with eleven significant
    digits, none with ten; with linear interpolation as the spline the
    row reads as given. *)
Lemma table_cells_counterexample :
  (forall sp : Scipy,
     exists rows line,
       isentrope_properties_txt seismic_profile (np_linspace 100000 25000000000 4) 4
         = Ok ((header 4 ++ newline)%string :: rows) /\
       rows !! 0%nat = Some line /\
       length (cells line) = 12%nat /\
       cells line !! 0%nat = Some "0.0000000000e+00"%string /\
       Forall (fun cell => significant_digits cell = 11%nat) (cells line) /\
       ~ In 10%nat (map significant_digits (cells line)))
  /\ exists rows line,
       isentrope_properties_txt (sp := reference_scipy) seismic_profile
         (np_linspace 100000 25000000000 4) 4
         = Ok ((header 4 ++ newline)%string :: rows) /\
       rows !! 0%nat = Some line /\
       cells line
         = ["0.0000000000e+00"; "1.0000000000e+05"; "1.5120000000e+03";
            "3.0000000000e+03"; "9.8100000000e+00"; "0.0000000000e+00";
            "0.0000000000e+00"; "0.0000000000e+00"; "4.6220000000e+03";
            "8.2440100000e+03"; "-2.5000000000e-01"; "-5.0000000000e-01"]%string.
Proof.
  assert (Hall : forall sp : Scipy,
            exists rows line depth pressure values,
              isentrope_properties_txt seismic_profile
                (np_linspace 100000 25000000000 4) 4
                = Ok ((header 4 ++ newline)%string :: rows) /\
              rows !! 0%nat = Some line /\
              format_e 10 depth = "0.0000000000e+00"%string /\
              pressure = UnivariateSpline (depths seismic_profile)
                           (np_linspace 100000 25000000000 4) depth /\
              values = map (fun computed =>
                              interp_at (np_linspace 100000 25000000000 4) computed
                                pressure)
                         (property_columns seismic_profile) /\
              cells line = map (format_e 10) (depth :: pressure :: values) /\
              Forall (fun cell => significant_digits cell = 11%nat) (cells line)).
  { intros sp.
    destruct (written_table (sp := sp) seismic_profile
                (np_linspace 100000 25000000000 4) 4)
      as (d0 & dlast & rows & H0 & Hlast & Hwritten & _ & Hrows);
      [cbn; lia | reflexivity | exact seismic_depths_accepted
      | exact seismic_profile_of_length |].
    destruct (Hrows 0%nat ltac:(lia))
      as (line & depth & pressure & Hline & Hdepth & Hpressure & _ & Hcells & Hdigits).
    exists rows, line, depth, pressure. eexists.
    split.
    { rewrite Hwritten. unfold header, header_line_2.
      rewrite <- !string_app_assoc. reflexivity. }
    split; [exact Hline|].
    split.
    { vm_compute in H0. injection H0 as <-.
      vm_compute in Hlast. injection Hlast as <-.
      vm_compute in Hdepth. injection Hdepth as <-.
      vm_compute. reflexivity. }
    split; [exact Hpressure|]. split; [reflexivity|].
    split; [exact Hcells | exact Hdigits]. }
  split.
  - intros sp.
    destruct (Hall sp) as (rows & line & depth & pressure & values & Hwritten & Hline
                           & Hdepth & _ & -> & Hcells & Hdigits).
    exists rows, line.
    split; [exact Hwritten|]. split; [exact Hline|].
    split; [rewrite Hcells; reflexivity|].
    split.
    { rewrite Hcells. cbn [map lookup list_lookup]. f_equal. exact Hdepth. }
    split; [exact Hdigits|].
    intros Hin. apply in_map_iff in Hin as (cell & Hten & Hin).
    rewrite Forall_forall in Hdigits. apply list_elem_of_In in Hin.
    rewrite (Hdigits cell Hin) in Hten. discriminate.
  - destruct (isentrope_properties_txt (sp := reference_scipy) seismic_profile
                (np_linspace 100000 25000000000 4) 4) as [written|e] eqn:E;
      [|vm_compute in E; discriminate].
    destruct written as [|block [|line rows]]; [vm_compute in E; discriminate..|].
    exists (line :: rows), line.
    assert (Hblock : block = (header 4 ++ newline)%string).
    { vm_compute in E. injection E as <- _. vm_compute. reflexivity. }
    rewrite Hblock. split; [reflexivity|]. split; [reflexivity|].
    vm_compute in E. injection E as _ <- _. vm_compute. reflexivity.
Qed.

(** ** From [relaxed_profile] to the written table *)

Section EndToEnd.
Context `{sp : Scipy} `{cst : Constants}.
Variable interp_smoothed_array_and_derivatives :
  list (list Q) -> list Q -> list Q -> Q -> Q -> Q ->
  (Q -> Q -> Q) * (Q -> Q -> Q) * (Q -> Q -> Q).
Hypothesis odeint_lengths : one_value_per_time odeint.

Lemma gravity_pass_lengths (pressures densities : list Q)
    (surface_gravity outer_radius : Q) (gravity depths' gravity' : list Q) :
  gravity_pass pressures densities surface_gravity outer_radius gravity
    = Ok (depths', gravity') ->
  length depths' = length pressures /\ length gravity' = length pressures.
Proof.
  unfold gravity_pass. intros E.
  apply result_bind_Ok in E as (rhofunc & _ & E).
  apply result_bind_Ok in E as (gfunc & _ & E).
  apply result_bind_Ok in E as (rhofunc' & _ & E).
  destruct (map _ _ !! 0%nat) as [r0|]; [|discriminate].
  injection E as <- <-.
  rewrite !length_zip_with, !odeint_lengths, !map_length_eq, !odeint_lengths.
  split; lia.
Qed.

Lemma gravity_iterations_lengths (pressures densities : list Q)
    (surface_gravity outer_radius : Q) (n : nat) :
  forall depths gravity depths' gravity',
    (n = 0%nat ->
     length depths = length pressures /\ length gravity = length pressures) ->
    gravity_iterations n pressures densities surface_gravity outer_radius
      depths gravity = Ok (depths', gravity') ->
    length depths' = length pressures /\ length gravity' = length pressures.
Proof.
  induction n as [|n IH]; intros depths gravity depths' gravity' H0 E.
  - cbn in E. injection E as <- <-. apply H0. reflexivity.
  - cbn [gravity_iterations] in E.
    destruct (gravity_pass pressures densities surface_gravity outer_radius gravity)
      as [[d1 g1]|] eqn:Epass; [|discriminate].
    eapply IH; [|exact E]. intros _.
    eapply gravity_pass_lengths. exact Epass.
Qed.

Lemma compute_depth_gravity_profiles_lengths (pressures densities : list Q)
    (surface_gravity outer_radius : Q) (depths' gravity' : list Q) :
  compute_depth_gravity_profiles pressures densities surface_gravity outer_radius
    = Ok (depths', gravity') ->
  length depths' = length pressures /\ length gravity' = length pressures.
Proof.
  unfold compute_depth_gravity_profiles. apply gravity_iterations_lengths.
  unfold n_gravity_iterations. discriminate.
Qed.

(** The arrays [relaxed_profile] returns all have one value per
    profile pressure. *)
Lemma relaxed_profile_lengths (potential_temperature max_pressure
    surface_gravity outer_radius : Q) (n_points : nat) (n_gridpoints : nat * nat)
    (pressure_stdev temperature_smoothing_factor max_temperature_stdev truncate
     min_grid_temperature max_grid_temperature : Q) (rock : Rock) (profile : Profile) :
  fst (relaxed_profile interp_smoothed_array_and_derivatives
         potential_temperature max_pressure surface_gravity outer_radius
         n_points n_gridpoints pressure_stdev temperature_smoothing_factor
         max_temperature_stdev truncate min_grid_temperature max_grid_temperature rock)
    = Ok profile ->
  profile_of_length profile n_points /\ length (depths profile) = n_points
  /\ (4 <= n_points)%nat /\ np_all_diff_nonnegative (depths profile) = true.
Proof.
  unfold relaxed_profile.
  cbn [bind reads set_state_M attribute_M attribute set_state state table].
  unfold bind at 1.
  destruct (isentrope _ _ _ _) as [[temperatures | e] rock']; [|discriminate].
  unfold bind at 1. cbn [lift].
  destruct (spline_fit _ _) as [isentrope_spline|]; [|discriminate].
  unfold bind at 1. cbn [reads].
  destruct (relaxation_grid _ _ _ _ _ _ _ _ _ _ _) as [grid|]; [|discriminate].
  unfold bind at 1. cbn [lift].
  destruct (smoothed_interpolants _ (grid_entropies grid) _ _ _ _ _)
    as [[[interp_S interp_dSdP] interp_dSdT]|]; [|discriminate].
  unfold bind at 1. cbn [lift].
  destruct (smoothed_interpolants _ (grid_volumes grid) _ _ _ _ _)
    as [[[interp_V interp_dVdP] interp_dVdT]|]; [|discriminate].
  unfold bind at 1. cbn [lift].
  destruct (interp_isentrope _ _ _ _) as [smoothed|] eqn:Esmoothed; [|discriminate].
  rewrite interp_isentrope_run in Esmoothed.
  apply interp_solve_all_length in Esmoothed. rewrite np_linspace_length in Esmoothed.
  unfold bind at 1. cbn [reads evaluate map first_array].
  unfold bind at 1. cbn [lift].
  destruct (compute_depth_gravity_profiles _ _ _ _) as [[depths' gravity']|] eqn:Edg;
    [|discriminate].
  pose proof (compute_depth_gravity_profiles_depths _ _ _ _ _ _ Edg) as [Hfour Hinc].
  rewrite np_linspace_length in Hfour.
  apply compute_depth_gravity_profiles_lengths in Edg.
  rewrite np_linspace_length in Edg. destruct Edg as [Hd Hg].
  cbn [bind reads ret evaluate map two_arrays fst].
  intros E. injection E as <-.
  unfold profile_of_length.
  cbn [smoothed_temperatures densities gravity alphas_relaxed specific_heats_relaxed
       compressibilities_relaxed Vss Vps dVsdT dVpdT depths].
  rewrite ?map_length_eq, ?length_zip_with, ?map_length_eq, ?length_zip_with,
    ?map_length_eq, ?np_linspace_length, ?Esmoothed, ?Hg.
  repeat split; try lia; assumption.
Qed.


End EndToEnd.

(** ** The smoothed isentrope at zero width *)

(** The relaxation grid depends on the evaluator through its table
    alone. *)
Lemma relaxation_grid_same_evaluator (rock rock' : Rock) (isentrope_spline : Q -> Q)
    (min_grid_pressure max_grid_pressure min_grid_temperature max_grid_temperature : Q)
    (n_gridpoints : nat * nat)
    (pressure_stdev temperature_smoothing_factor max_temperature_stdev truncate : Q) :
  same_evaluator rock rock' ->
  relaxation_grid rock' isentrope_spline
    min_grid_pressure max_grid_pressure min_grid_temperature max_grid_temperature
    n_gridpoints pressure_stdev temperature_smoothing_factor max_temperature_stdev truncate
  = relaxation_grid rock isentrope_spline
      min_grid_pressure max_grid_pressure min_grid_temperature max_grid_temperature
      n_gridpoints pressure_stdev temperature_smoothing_factor max_temperature_stdev
      truncate.
Proof.
  intros (_ & _ & Ht). unfold relaxation_grid, evaluate. rewrite Ht. reflexivity.
Qed.





Section ZeroWidth.
Context `{sp : Scipy} `{cst : Constants}.
Variable interp_smoothed_array_and_derivatives :
  list (list Q) -> list Q -> list Q -> Q -> Q -> Q ->
  (Q -> Q -> Q) * (Q -> Q -> Q) * (Q -> Q -> Q).

(** What the smoothing routine accepts, and what it then returns. *)
Lemma smoothed_interpolants_Ok (array : list (list Q)) (x_values y_values : list Q)
    (x_stdev y_stdev truncate : Q)
    (interps : (Q -> Q -> Q) * (Q -> Q -> Q) * (Q -> Q -> Q)) :
  smoothed_interpolants interp_smoothed_array_and_derivatives
    array x_values y_values x_stdev y_stdev truncate = Ok interps ->
  interps = interp_smoothed_array_and_derivatives array x_values y_values
              x_stdev y_stdev truncate
  /\ (2 <= length x_values)%nat /\ (2 <= length y_values)%nat
  /\ 0 <= x_stdev /\ 0 <= y_stdev.
Proof.
  unfold smoothed_interpolants.
  destruct (Nat.ltb_spec (length x_values) 2); cbn [orb]; [discriminate|].
  destruct (Nat.ltb_spec (length y_values) 2); cbn [orb]; [discriminate|].
  destruct (Qlt_bool x_stdev 0) eqn:Ex; cbn [orb]; [discriminate|].
  destruct (Qlt_bool y_stdev 0) eqn:Ey; cbn [orb]; [discriminate|].
  apply Qlt_bool_false in Ex. apply Qlt_bool_false in Ey.
  intros [= <-]. auto.
Qed.


(** How [relaxed_profile] arrives at the smoothed temperatures: the
    bracketed isentrope, the relaxation grid around its spline, and
    the unbracketed solves against the interpolant the smoothing
    routine makes of the grid of entropies. *)
Lemma relaxed_profile_smoothed (potential_temperature max_pressure
    surface_gravity outer_radius : Q) (n_points : nat) (n_gridpoints : nat * nat)
    (pressure_stdev temperature_smoothing_factor max_temperature_stdev truncate
     min_grid_temperature max_grid_temperature : Q) (rock : Rock) (profile : Profile) :
  fst (relaxed_profile interp_smoothed_array_and_derivatives
         potential_temperature max_pressure surface_gravity outer_radius
         n_points n_gridpoints pressure_stdev temperature_smoothing_factor
         max_temperature_stdev truncate min_grid_temperature max_grid_temperature rock)
    = Ok profile ->
  exists temperatures grid,
    fst (isentrope (np_linspace 100000 max_pressure n_points)
           (table rock "S" 100000 potential_temperature) potential_temperature
           (set_state rock 100000 potential_temperature)) = Ok temperatures
    /\ relaxation_grid rock
         (UnivariateSpline (np_linspace 100000 max_pressure n_points) temperatures)
         (fst (fst (bounds rock))) (snd (fst (bounds rock)))
         (fst (snd (bounds rock))) (snd (snd (bounds rock)))
         n_gridpoints pressure_stdev temperature_smoothing_factor
         max_temperature_stdev truncate = Ok grid
    /\ interp_isentrope
         (fst (fst (interp_smoothed_array_and_derivatives (grid_entropies grid)
                      (grid_pressures grid) (grid_temperatures grid)
                      pressure_stdev (temperature_stdev grid) truncate)))
         (np_linspace 100000 max_pressure n_points)
         (table rock "S" 100000 potential_temperature) potential_temperature
       = Ok (smoothed_temperatures profile).
Proof.
  unfold relaxed_profile.
  cbn [bind reads set_state_M attribute_M attribute set_state state table].
  unfold bind at 1.
  pose proof (proj2 (isentrope_run (np_linspace 100000 max_pressure n_points)
                       (table rock "S" 100000 potential_temperature) potential_temperature
                       (set_state rock 100000 potential_temperature))) as Hsame.
  unfold set_state in Hsame.
  destruct (isentrope _ _ _ _) as [[temperatures | e] rock']; [|discriminate].
  cbn [snd] in Hsame.
  unfold bind at 1. cbn [lift].
  destruct (spline_fit _ _) as [isentrope_spline|] eqn:Efit; [|discriminate].
  apply spline_fit_Ok in Efit as (-> & _).
  unfold bind at 1. cbn [reads].
  rewrite (relaxation_grid_same_evaluator _ rock' _ _ _ _ _ _ _ _ _ _ Hsame).
  rewrite (relaxation_grid_same_evaluator rock _ _ _ _ _ _ _ _ _ _ _
             (with_state_same_evaluator rock (Some (100000, potential_temperature)))).
  destruct (relaxation_grid _ _ _ _ _ _ _ _ _ _ _) as [grid|] eqn:Egrid; [|discriminate].
  unfold bind at 1. cbn [lift].
  destruct (smoothed_interpolants _ (grid_entropies grid) _ _ _ _ _)
    as [[[interp_S interp_dSdP] interp_dSdT]|] eqn:ES; [|discriminate].
  apply smoothed_interpolants_Ok in ES as (ES & _).
  unfold bind at 1. cbn [lift].
  destruct (smoothed_interpolants _ (grid_volumes grid) _ _ _ _ _)
    as [[[interp_V interp_dVdP] interp_dVdT]|]; [|discriminate].
  unfold bind at 1. cbn [lift].
  destruct (interp_isentrope _ _ _ _) as [smoothed|] eqn:Esmoothed; [|discriminate].
  unfold bind at 1. cbn [reads evaluate map first_array].
  unfold bind at 1. cbn [lift].
  destruct (compute_depth_gravity_profiles _ _ _ _) as [[depths' gravity']|];
    [|discriminate].
  cbn [bind reads ret evaluate map two_arrays fst].
  intros E. injection E as <-.
  exists temperatures, grid. cbn [smoothed_temperatures fst].
  split; [reflexivity|]. split; [exact Egrid|].
  rewrite <- ES. exact Esmoothed.
Qed.


End ZeroWidth.






Lemma rounded_euler_odeint_starts_at_initial_value :
  starts_at_initial_value rounded_euler_odeint.
Proof. intros func y0 t ts. cbn. eauto. Qed.



(** * Further properties of the notebook's functions *)

(** ** Equally spaced arrays and the profile pressures *)

(** X1.  The profile pressures set up from the widget values are
    [n_points] values that start at 1e5 Pa, end at the maximum pressure
    and increase strictly, once there are two points and the maximum
    pressure is above 1e5 Pa. *)
Theorem profile_pressures_increase (maxP_GPa g0 r0_km : Q) (n : nat)
    (n_P_gridpoints n_T_gridpoints : nat) (max_T_gaussian truncate' : Q) :
  let globals :=
    setup_globals maxP_GPa g0 r0_km n n_P_gridpoints n_T_gridpoints
      max_T_gaussian truncate' in
  (2 <= n)%nat ->
  100000 < maxP_GPa * 1000000000 ->
  length (pressures globals) = n
  /\ (exists first, pressures globals !! 0%nat = Some first /\ first == 100000)
  /\ (exists final, last (pressures globals) = Some final
                    /\ final == maxP_GPa * 1000000000)
  /\ increasing (pressures globals).
Proof.
  intros globals Hn Hmax. cbn [globals setup_globals pressures].
  split; [apply np_linspace_length|].
  split.
  { rewrite np_linspace_lookup by lia. eexists. split; [reflexivity|].
    change (inject_Z (Z.of_nat 0)) with 0. ring. }
  split; [apply np_linspace_last; exact Hn|].
  apply np_linspace_increasing. exact Hmax.
Qed.

Lemma profile_pressures_increase_witness :
  length (pressures (setup_globals 25 (981 # 100) 6371 51 51 11 30 4)) = 51%nat
  /\ (exists first,
        pressures (setup_globals 25 (981 # 100) 6371 51 51 11 30 4) !! 0%nat = Some first
        /\ first == 100000)
  /\ (exists final,
        last (pressures (setup_globals 25 (981 # 100) 6371 51 51 11 30 4)) = Some final
        /\ final == 25 * 1000000000)
  /\ increasing (pressures (setup_globals 25 (981 # 100) 6371 51 51 11 30 4)).
Proof.
  apply (profile_pressures_increase 25 (981 # 100) 6371 51 51 11 30 4).
  - lia.
  - reflexivity.
Defined.

(** ** [isentrope] and [interp_isentrope] over their pressures *)

Lemma solve_all_app `{sp : Scipy} (rock : Rock) (entropy : Q) (ps1 ps2 : list Q) :
  solve_all rock entropy (ps1 ++ ps2)
  = match solve_all rock entropy ps1 with
    | Ok t1 =>
        match solve_all rock entropy ps2 with
        | Ok t2 => Ok (t1 ++ t2)
        | Err e => Err e
        end
    | Err e => Err e
    end.
Proof.
  induction ps1 as [|P ps1 IH]; cbn [app solve_all].
  - destruct (solve_all rock entropy ps2); reflexivity.
  - destruct (solve rock entropy P) as [x c | e]; [|reflexivity].
    rewrite IH.
    destruct (solve_all rock entropy ps1) as [t1 | e]; [|reflexivity].
    destruct (solve_all rock entropy ps2) as [t2 | e]; reflexivity.
Qed.

(** X2.  The isentrope over two pressure lists one after the other is
    the isentrope over the first followed by the isentrope over the
    second, whatever the guesses and whatever state the evaluator is
    in at the start of each run; the first solve that fails is the
    error of the whole. *)
Theorem isentrope_app `{sp : Scipy} (pressures1 pressures2 : list Q)
    (entropy T_guess T_guess1 T_guess2 : Q) (rock : Rock) (st1 st2 : option (Q * Q)) :
  fst (isentrope (pressures1 ++ pressures2) entropy T_guess rock)
  = match fst (isentrope pressures1 entropy T_guess1 (with_state rock st1)) with
    | Ok temperatures1 =>
        match fst (isentrope pressures2 entropy T_guess2 (with_state rock st2)) with
        | Ok temperatures2 => Ok (temperatures1 ++ temperatures2)
        | Err e => Err e
        end
    | Err e => Err e
    end.
Proof.
  rewrite !(proj1 (isentrope_run _ _ _ _)).
  rewrite !(same_evaluator_solve_all rock _ _ _ (with_state_same_evaluator rock _)).
  apply solve_all_app.
Qed.

Lemma isentrope_loop_final_state `{sp : Scipy} (entropy P : Q) (ps : list Q) :
  evaluates brentq ->
  forall (i : nat) (sol : Q) (temperatures : list Q) (rock0 rock : Rock)
         (temperatures' : list Q),
    same_evaluator rock0 rock ->
    fst (isentrope_loop entropy (ps ++ [P]) i sol temperatures rock) = Ok temperatures' ->
    exists T,
      last (queries (brentq (fst (snd (bounds rock0))) (snd (snd (bounds rock0))))
              (residual rock0 entropy P)) = Some T
      /\ snd (isentrope_loop entropy (ps ++ [P]) i sol temperatures rock)
         = set_state rock0 P T.
Proof.
  intros Hev. induction ps as [|P0 ps IH]; intros i sol temperatures rock0 rock t' Hsame Hok.
  - cbn [app] in *. rewrite isentrope_loop_cons in *. cbn zeta in *.
    destruct Hsame as (Hb & Hm & Ht).
    assert (Hres : residual rock entropy P = residual rock0 entropy P)
      by (unfold residual; rewrite Ht; reflexivity).
    rewrite Hb, Hres in *.
    set (qs := queries _ _) in *.
    destruct (last qs) as [T|] eqn:Elast.
    2:{ apply last_None in Elast. exfalso. eapply Hev. exact Elast. }
    exists T. split; [reflexivity|].
    destruct (solve rock entropy P) as [x c | e]; [|discriminate].
    cbn [isentrope_loop ret snd]. unfold moved. rewrite Elast.
    unfold set_state. rewrite Hb, Hm, Ht. reflexivity.
  - cbn [app] in *. rewrite isentrope_loop_cons in *. cbn zeta in *.
    destruct (solve rock entropy P0) as [x c | e]; [|discriminate].
    eapply IH; [|exact Hok].
    eapply same_evaluator_trans; [exact Hsame | apply moved_same_evaluator].
Qed.

(** X3.  When [isentrope] returns, the evaluator is left at the last
    pressure and at the last temperature the bracketing solver tried
    there: the callback's [set_state] of the final function evaluation
    is the one that stays. *)
Theorem isentrope_final_state `{sp : Scipy} (pressures : list Q) (P entropy T_guess : Q)
    (rock : Rock) (temperatures : list Q) :
  evaluates brentq ->
  fst (isentrope (pressures ++ [P]) entropy T_guess rock) = Ok temperatures ->
  exists T,
    last (queries (brentq (fst (snd (bounds rock))) (snd (snd (bounds rock))))
            (residual rock entropy P)) = Some T
    /\ snd (isentrope (pressures ++ [P]) entropy T_guess rock) = set_state rock P T.
Proof.
  intros Hev Hok. unfold isentrope in *.
  eapply isentrope_loop_final_state; [exact Hev | apply same_evaluator_refl | exact Hok].
Qed.

Lemma isentrope_final_state_witness :
  exists T,
    last (queries (brentq (Scipy := reference_scipy)
                     (fst (snd (bounds gentle_rock))) (snd (snd (bounds gentle_rock))))
            (residual gentle_rock 1000 200000)) = Some T
    /\ snd (isentrope (sp := reference_scipy) ([100000] ++ [200000]) 1000 1500 gentle_rock)
       = set_state gentle_rock 200000 T.
Proof.
  eapply (isentrope_final_state (sp := reference_scipy) [100000] 200000 1000 1500
            gentle_rock).
  - apply bisect_evaluates.
  - vm_compute. reflexivity.
Defined.

Lemma interp_solve_all_app `{sp : Scipy} (interp : Q -> Q -> Q) (entropy : Q)
    (ps1 ps2 : list Q) :
  forall sol,
    interp_solve_all interp entropy sol (ps1 ++ ps2)
    = match interp_solve_all interp entropy sol ps1 with
      | Ok t1 =>
          match interp_solve_all interp entropy (default sol (last t1)) ps2 with
          | Ok t2 => Ok (t1 ++ t2)
          | Err e => Err e
          end
      | Err e => Err e
      end.
Proof.
  induction ps1 as [|P ps1 IH]; intros sol; cbn [app interp_solve_all].
  - cbn. destruct (interp_solve_all interp entropy sol ps2); reflexivity.
  - destruct (run_pure _ _) as [x c | e]; [|reflexivity].
    rewrite IH.
    destruct (interp_solve_all interp entropy x ps1) as [t1 | e]; [|reflexivity].
    assert (Hlast : default sol (last (x :: t1)) = default x (last t1)).
    { destruct t1 as [|y t1]; [reflexivity|]. rewrite last_cons_cons.
      destruct (last (y :: t1)) eqn:E; [reflexivity|].
      apply last_None in E. discriminate. }
    rewrite Hlast.
    destruct (interp_solve_all interp entropy (default x (last t1)) ps2); reflexivity.
Qed.

(** X4.  [interp_isentrope] over two pressure lists one after the other
    is the run over the first followed by the run over the second
    started from the last temperature of the first (from [T_guess] when
    the first list is empty): each solve starts from the solution
    before it. *)
Theorem interp_isentrope_app `{sp : Scipy} (interp : Q -> Q -> Q)
    (pressures1 pressures2 : list Q) (entropy T_guess : Q) :
  interp_isentrope interp (pressures1 ++ pressures2) entropy T_guess
  = match interp_isentrope interp pressures1 entropy T_guess with
    | Ok temperatures1 =>
        match interp_isentrope interp pressures2 entropy
                (default T_guess (last temperatures1)) with
        | Ok temperatures2 => Ok (temperatures1 ++ temperatures2)
        | Err e => Err e
        end
    | Err e => Err e
    end.
Proof.
  rewrite !interp_isentrope_run, interp_solve_all_app.
  destruct (interp_solve_all interp entropy T_guess pressures1) as [t1 | e];
    [|reflexivity].
  rewrite interp_isentrope_run. reflexivity.
Qed.




(** ** The shape of the depth and gravity profiles *)

Lemma euler_length (func : Q -> Q -> Q) (ts : list Q) :
  forall y t, length (euler func y t ts) = length ts.
Proof.
  induction ts as [|t' ts IH]; intros y t; cbn [euler length]; [reflexivity|].
  f_equal. apply IH.
Qed.

Lemma euler_odeint_one_value_per_time : one_value_per_time euler_odeint.
Proof.
  intros func y0 [|t ts]; cbn [euler_odeint length]; [reflexivity|].
  f_equal. apply euler_length.
Qed.

(** X6.  [compute_depth_gravity_profiles] takes four samples or more:
    on fewer it raises at the first spline fit of its first pass, with
    the [ValueError] or the [dfitpack.error] of that fit, whatever the
    densities, the surface gravity and the outer radius. *)
Theorem depth_gravity_needs_four_samples `{sp : Scipy} `{cst : Constants}
    (pressures densities : list Q) (surface_gravity outer_radius : Q) :
  (length pressures < 4)%nat ->
  compute_depth_gravity_profiles pressures densities surface_gravity outer_radius
    = Err ValueError
  \/ compute_depth_gravity_profiles pressures densities surface_gravity outer_radius
     = Err FitpackError.
Proof.
  intros Hfew. unfold compute_depth_gravity_profiles, n_gravity_iterations.
  cbn [gravity_iterations]. unfold gravity_pass.
  destruct (spline_fit_too_few pressures densities Hfew) as [-> | ->];
    [left | right]; reflexivity.
Qed.

Lemma depth_gravity_needs_four_samples_witness :
  compute_depth_gravity_profiles (sp := reference_scipy) (cst := reference_constants)
    [100000; 200000; 300000] [3000; 3100; 3200] (981 # 100) 6371000 = Err ValueError
  \/ compute_depth_gravity_profiles (sp := reference_scipy) (cst := reference_constants)
       [100000; 200000; 300000] [3000; 3100; 3200] (981 # 100) 6371000
     = Err FitpackError.
Proof.
  apply (depth_gravity_needs_four_samples (sp := reference_scipy)
           (cst := reference_constants)).
  cbn. lia.
Defined.

(** ** The grid of [relaxed_profile] *)

(** X7.  [relaxed_profile] never reads its [min_grid_temperature] and
    [max_grid_temperature] arguments: any two choices give the same run,
    and in every run that returns the grid behind the smoothed
    temperatures spans the evaluator's own pressure and temperature
    bounds with the requested numbers of nodes. *)
Theorem relaxed_profile_grid_spans_bounds `{sp : Scipy} `{cst : Constants}
    (interp_smoothed_array_and_derivatives :
       list (list Q) -> list Q -> list Q -> Q -> Q -> Q ->
       (Q -> Q -> Q) * (Q -> Q -> Q) * (Q -> Q -> Q))
    (potential_temperature max_pressure surface_gravity outer_radius : Q)
    (n_points : nat) (n_gridpoints : nat * nat)
    (pressure_stdev temperature_smoothing_factor max_temperature_stdev truncate
     min_grid_temperature max_grid_temperature
     min_grid_temperature' max_grid_temperature' : Q) (rock : Rock) :
  relaxed_profile interp_smoothed_array_and_derivatives
    potential_temperature max_pressure surface_gravity outer_radius
    n_points n_gridpoints pressure_stdev temperature_smoothing_factor
    max_temperature_stdev truncate min_grid_temperature max_grid_temperature rock
  = relaxed_profile interp_smoothed_array_and_derivatives
      potential_temperature max_pressure surface_gravity outer_radius
      n_points n_gridpoints pressure_stdev temperature_smoothing_factor
      max_temperature_stdev truncate min_grid_temperature' max_grid_temperature' rock
  /\ forall profile,
       fst (relaxed_profile interp_smoothed_array_and_derivatives
              potential_temperature max_pressure surface_gravity outer_radius
              n_points n_gridpoints pressure_stdev temperature_smoothing_factor
              max_temperature_stdev truncate min_grid_temperature max_grid_temperature
              rock) = Ok profile ->
       exists temperatures grid,
         fst (isentrope (np_linspace 100000 max_pressure n_points)
                (table rock "S" 100000 potential_temperature) potential_temperature
                (set_state rock 100000 potential_temperature)) = Ok temperatures
         /\ interp_isentrope
              (fst (fst (interp_smoothed_array_and_derivatives (grid_entropies grid)
                           (grid_pressures grid) (grid_temperatures grid)
                           pressure_stdev (temperature_stdev grid) truncate)))
              (np_linspace 100000 max_pressure n_points)
              (table rock "S" 100000 potential_temperature) potential_temperature
            = Ok (smoothed_temperatures profile)
         /\ grid_pressures grid
            = np_linspace (fst (fst (bounds rock))) (snd (fst (bounds rock)))
                (fst n_gridpoints)
         /\ grid_temperatures grid
            = np_linspace (fst (snd (bounds rock))) (snd (snd (bounds rock)))
                (snd n_gridpoints).
Proof.
  split; [reflexivity|].
  intros profile Hrun.
  destruct (relaxed_profile_smoothed _ _ _ _ _ _ _ _ _ _ _ _ _ _ _ Hrun)
    as (temperatures & grid & Ht & Hg & Hs).
  exists temperatures, grid. split; [exact Ht|]. split; [exact Hs|].
  unfold relaxation_grid in Hg.
  destruct (temperature_stdev_of _ _ _ _ _) as [sigma|]; [|discriminate].
  cbn [result_bind] in Hg.
  destruct (evaluate _ _ _ _) as [|S_values [|V_values [|]]]; try discriminate.
  injection Hg as <-. split; reflexivity.
Qed.

(** X8.  [relaxed_profile] asked for fewer than two grid pressures
    raises [ValueError] once its isentrope is there: the gradient of the
    isentrope along the grid pressures needs two of them. *)
Theorem grid_needs_two_pressures `{sp : Scipy} `{cst : Constants}
    (interp_smoothed_array_and_derivatives :
       list (list Q) -> list Q -> list Q -> Q -> Q -> Q ->
       (Q -> Q -> Q) * (Q -> Q -> Q) * (Q -> Q -> Q))
    (potential_temperature max_pressure surface_gravity outer_radius : Q)
    (n_points n_P n_T : nat)
    (pressure_stdev temperature_smoothing_factor max_temperature_stdev truncate
     min_grid_temperature max_grid_temperature : Q) (rock : Rock)
    (temperatures : list Q) :
  (n_P < 2)%nat ->
  (4 <= n_points)%nat ->
  fst (isentrope (np_linspace 100000 max_pressure n_points)
         (table rock "S" 100000 potential_temperature) potential_temperature
         (set_state rock 100000 potential_temperature)) = Ok temperatures ->
  fst (relaxed_profile interp_smoothed_array_and_derivatives
         potential_temperature max_pressure surface_gravity outer_radius
         n_points (n_P, n_T) pressure_stdev temperature_smoothing_factor
         max_temperature_stdev truncate min_grid_temperature max_grid_temperature
         rock) = Err ValueError.
Proof.
  intros Hn Hfour Ht.
  assert (Hfail : forall (r : Rock) (s : Q -> Q) (a b c d : Q),
            relaxation_grid r s a b c d (n_P, n_T)
              pressure_stdev temperature_smoothing_factor max_temperature_stdev truncate
            = Err ValueError).
  { intros r s a b c d. unfold relaxation_grid, temperature_stdev_of.
    cbn [fst snd]. destruct n_P as [|[|n]]; [reflexivity | reflexivity | lia]. }
  unfold relaxed_profile.
  cbn [bind reads set_state_M attribute_M attribute set_state state table].
  unfold bind at 1. unfold set_state in Ht.
  pose proof (proj1 (isentrope_run (np_linspace 100000 max_pressure n_points)
                       (table rock "S" 100000 potential_temperature) potential_temperature
                       (set_state rock 100000 potential_temperature))) as Hsolve.
  unfold set_state in Hsolve.
  destruct (isentrope _ _ _ _) as [[temperatures' | e] rock']; [|discriminate].
  cbn [fst] in Hsolve. symmetry in Hsolve. apply solve_all_length in Hsolve.
  rewrite np_linspace_length in Hsolve.
  unfold bind at 1. cbn [lift]. unfold spline_fit.
  destruct (negb (np_all_diff_nonnegative _)); [reflexivity|].
  rewrite np_linspace_length, Hsolve, Nat.eqb_refl. cbn [negb].
  destruct (Nat.leb_spec n_points 3); [lia|].
  unfold bind at 1. cbn [reads]. rewrite Hfail. reflexivity.
Qed.

Lemma grid_needs_two_pressures_witness :
  fst (relaxed_profile (sp := reference_scipy) (cst := reference_constants)
         reference_smoothing 1512 25000000000 (981 # 100) 6371000 4
         (1%nat, 33%nat) 500000000 (1 # 4) 30 4 0 0 shallow_rock) = Err ValueError.
Proof.
  eapply (grid_needs_two_pressures (sp := reference_scipy) (cst := reference_constants)
            reference_smoothing 1512 25000000000 (981 # 100) 6371000 4 1 33
            500000000 (1 # 4) 30 4 0 0 shallow_rock).
  - lia.
  - lia.
  - vm_compute. reflexivity.
Defined.

Lemma steepest_slope_nonneg (T : list Q) (M : Q) : steepest_slope T M -> 0 <= M.
Proof.
  intros (_ & i & s & _ & ->). apply Qabs_nonneg.
Qed.

(** X9.  With non-negative widths and at least two grid pressures over
    a proper pressure range, the temperature width lies between zero and
    [max_temperature_stdev], the evaluation window between 80 K and
    [80 + truncate * max_temperature_stdev], and every node closer than
    80 K to the isentrope holds the evaluator's entropy and volume. *)
Theorem window_between_80_and_cap (rock : Rock) (isentrope_spline : Q -> Q)
    (min_grid_pressure max_grid_pressure min_grid_temperature max_grid_temperature : Q)
    (n_P n_T : nat)
    (pressure_stdev temperature_smoothing_factor max_temperature_stdev truncate : Q) :
  (2 <= n_P)%nat ->
  min_grid_pressure < max_grid_pressure ->
  0 <= pressure_stdev -> 0 <= temperature_smoothing_factor ->
  0 <= max_temperature_stdev -> 0 <= truncate ->
  exists grid,
    relaxation_grid rock isentrope_spline
      min_grid_pressure max_grid_pressure min_grid_temperature max_grid_temperature
      (n_P, n_T) pressure_stdev temperature_smoothing_factor
      max_temperature_stdev truncate = Ok grid
    /\ 0 <= temperature_stdev grid <= max_temperature_stdev
    /\ 80 <= Tdiff_max grid <= 80 + truncate * max_temperature_stdev
    /\ (forall i j P T,
          grid_pressures grid !! i = Some P ->
          grid_temperatures grid !! j = Some T ->
          Qabs (isentrope_spline P - T) < 80 ->
          grid_entropies grid !! j ≫= (fun row => row !! i) = Some (table rock "S" P T) /\
          grid_volumes grid !! j ≫= (fun row => row !! i) = Some (table rock "V" P T)).
Proof.
  intros Hn HP Hp Hf Hmax Ht.
  destruct (temperature_stdev_of_spec max_temperature_stdev
              temperature_smoothing_factor pressure_stdev
              (map isentrope_spline
                 (np_linspace min_grid_pressure max_grid_pressure n_P))
              (np_linspace min_grid_pressure max_grid_pressure n_P))
    as (M & gp0 & gp1 & H0 & H1 & HM & Hsigma).
  { rewrite np_linspace_length. exact Hn. }
  { apply map_length_eq. }
  destruct (relaxation_grid_returns rock isentrope_spline
              min_grid_pressure max_grid_pressure min_grid_temperature
              max_grid_temperature n_P n_T pressure_stdev temperature_smoothing_factor
              max_temperature_stdev truncate Hn) as (sigma & Hsigma' & Hgrid).
  rewrite Hsigma in Hsigma'. injection Hsigma' as <-.
  cbn zeta in Hgrid. eexists. split; [exact Hgrid|].
  cbn [Tdiff_max temperature_stdev grid_pressures grid_temperatures
       grid_entropies grid_volumes].
  pose proof (np_linspace_spacing _ _ _ _ _ H0 H1) as Hspacing.
  assert (Hn1 : 0 < inject_Z (Z.of_nat (n_P - 1))).
  { rewrite <- (Zlt_Qlt 0). lia. }
  assert (Hgap : 0 < gp1 - gp0).
  { rewrite Hspacing. apply Qlt_shift_div_l; [exact Hn1 | lra]. }
  pose proof (steepest_slope_nonneg _ _ HM) as HM0.
  set (w := temperature_smoothing_factor * pressure_stdev * M / (gp1 - gp0)).
  assert (Hw : 0 <= w).
  { unfold w. apply Qle_shift_div_l; [exact Hgap|].
    assert (0 <= temperature_smoothing_factor * pressure_stdev)
      by (apply Qmult_le_0_compat; assumption).
    assert (0 <= temperature_smoothing_factor * pressure_stdev * M)
      by (apply Qmult_le_0_compat; assumption).
    lra. }
  assert (Hsig : 0 <= Qmin max_temperature_stdev w <= max_temperature_stdev).
  { split; [apply Q.min_glb; assumption | apply Q.le_min_l]. }
  assert (Hts : 0 <= truncate * Qmin max_temperature_stdev w
                <= truncate * max_temperature_stdev).
  { split; [apply Qmult_le_0_compat; [exact Ht | apply Hsig]|].
    rewrite (Qmult_comm truncate (Qmin _ _)), (Qmult_comm truncate max_temperature_stdev).
    apply Qmult_le_compat_r; [apply Hsig | exact Ht]. }
  split; [exact Hsig|].
  split; [lra|].
  intros i j P T HPi HTj Hin.
  assert (Hlt : Qlt_bool (Qabs (isentrope_spline P - T))
                  (50 + 30 + truncate * Qmin max_temperature_stdev w) = true).
  { apply Qlt_bool_iff. lra. }
  split.
  - rewrite (scattered_node isentrope_spline _ _ _ _ n_P n_T _ _ _ _ _ _ HPi HTj).
    rewrite Hlt. reflexivity.
  - rewrite (scattered_node isentrope_spline _ _ _ _ n_P n_T _ _ _ _ _ _ HPi HTj).
    rewrite Hlt. reflexivity.
Qed.

Lemma window_between_80_and_cap_witness :
  exists grid,
    relaxation_grid tilted_rock straight_isentrope
      100000 300000 1000 2000 (3%nat, 5%nat) 500 (1 # 4) 30 4 = Ok grid
    /\ 0 <= temperature_stdev grid <= 30
    /\ 80 <= Tdiff_max grid <= 80 + 4 * 30
    /\ (forall i j P T,
          grid_pressures grid !! i = Some P ->
          grid_temperatures grid !! j = Some T ->
          Qabs (straight_isentrope P - T) < 80 ->
          grid_entropies grid !! j ≫= (fun row => row !! i)
            = Some (table tilted_rock "S" P T) /\
          grid_volumes grid !! j ≫= (fun row => row !! i)
            = Some (table tilted_rock "V" P T)).
Proof.
  apply (window_between_80_and_cap tilted_rock straight_isentrope
           100000 300000 1000 2000 3 5 500 (1 # 4) 30 4); try lra. lia.
Defined.

(** X10.  On the grid [relaxed_profile] builds from the evaluator's
    bounds, every node at which the property table is evaluated lies
    within the evaluator's pressure and temperature bounds. *)
Theorem grid_nodes_within_bounds (rock : Rock) (isentrope_spline : Q -> Q)
    (n_P n_T : nat)
    (pressure_stdev temperature_smoothing_factor max_temperature_stdev truncate : Q) :
  (2 <= n_P)%nat ->
  fst (fst (bounds rock)) <= snd (fst (bounds rock)) ->
  fst (snd (bounds rock)) <= snd (snd (bounds rock)) ->
  exists grid,
    relaxation_grid rock isentrope_spline
      (fst (fst (bounds rock))) (snd (fst (bounds rock)))
      (fst (snd (bounds rock))) (snd (snd (bounds rock)))
      (n_P, n_T) pressure_stdev temperature_smoothing_factor
      max_temperature_stdev truncate = Ok grid
    /\ forall k P T,
         evaluated_pressures grid !! k = Some P ->
         evaluated_temperatures grid !! k = Some T ->
         fst (fst (bounds rock)) <= P <= snd (fst (bounds rock))
         /\ fst (snd (bounds rock)) <= T <= snd (snd (bounds rock)).
Proof.
  intros Hn HP HT.
  destruct (relaxation_grid_returns rock isentrope_spline
              (fst (fst (bounds rock))) (snd (fst (bounds rock)))
              (fst (snd (bounds rock))) (snd (snd (bounds rock)))
              n_P n_T pressure_stdev temperature_smoothing_factor
              max_temperature_stdev truncate Hn) as (sigma & _ & Hgrid).
  cbn zeta in Hgrid. eexists. split; [exact Hgrid|].
  cbn [evaluated_pressures evaluated_temperatures].
  intros k P T HkP HkT.
  destruct (evaluated_node isentrope_spline _ _ _ _ n_P n_T _ k P T HkP HkT)
    as (HinP & HinT & _).
  split; eapply np_linspace_between; eassumption.
Qed.

Lemma grid_nodes_within_bounds_witness :
  exists grid,
    relaxation_grid tilted_rock straight_isentrope
      (fst (fst (bounds tilted_rock))) (snd (fst (bounds tilted_rock)))
      (fst (snd (bounds tilted_rock))) (snd (snd (bounds tilted_rock)))
      (3%nat, 5%nat) 500 (1 # 4) 30 4 = Ok grid
    /\ forall k P T,
         evaluated_pressures grid !! k = Some P ->
         evaluated_temperatures grid !! k = Some T ->
         fst (fst (bounds tilted_rock)) <= P <= snd (fst (bounds tilted_rock))
         /\ fst (snd (bounds tilted_rock)) <= T <= snd (snd (bounds tilted_rock)).
Proof.
  apply (grid_nodes_within_bounds tilted_rock straight_isentrope 3 5 500 (1 # 4) 30 4).
  - lia.
  - cbn. lra.
  - cbn. lra.
Defined.

(** ** The arrays [relaxed_profile] returns *)

Section ProfileArrays.
Context `{sp : Scipy} `{cst : Constants}.
Variable interp_smoothed_array_and_derivatives :
  list (list Q) -> list Q -> list Q -> Q -> Q -> Q ->
  (Q -> Q -> Q) * (Q -> Q -> Q) * (Q -> Q -> Q).

(** What [relaxed_profile] reads from the evaluator itself once the
    smoothed temperatures are there: the densities, the depth and
    gravity profiles made of them, and the velocities half a step of
    0.1 K below and above. *)
Lemma relaxed_profile_arrays (potential_temperature max_pressure
    surface_gravity outer_radius : Q) (n_points : nat) (n_gridpoints : nat * nat)
    (pressure_stdev temperature_smoothing_factor max_temperature_stdev truncate
     min_grid_temperature max_grid_temperature : Q) (rock : Rock) (profile : Profile) :
  fst (relaxed_profile interp_smoothed_array_and_derivatives
         potential_temperature max_pressure surface_gravity outer_radius
         n_points n_gridpoints pressure_stdev temperature_smoothing_factor
         max_temperature_stdev truncate min_grid_temperature max_grid_temperature rock)
    = Ok profile ->
  let pressures := np_linspace 100000 max_pressure n_points in
  let below := map (fun T => T - (1 # 10) / 2) (smoothed_temperatures profile) in
  let above := map (fun T => T + (1 # 10) / 2) (smoothed_temperatures profile) in
  let Vpsub := zip_with (table rock "p_wave_velocity") pressures below in
  let Vpadd := zip_with (table rock "p_wave_velocity") pressures above in
  let Vssub := zip_with (table rock "shear_wave_velocity") pressures below in
  let Vsadd := zip_with (table rock "shear_wave_velocity") pressures above in
  densities profile
    = zip_with (table rock "rho") pressures (smoothed_temperatures profile)
  /\ compute_depth_gravity_profiles pressures (densities profile)
       surface_gravity outer_radius = Ok (depths profile, gravity profile)
  /\ Vps profile = map (fun x => x / 2) (zip_with Qplus Vpadd Vpsub)
  /\ Vss profile = map (fun x => x / 2) (zip_with Qplus Vsadd Vssub)
  /\ dVpdT profile = map (fun x => x / (1 # 10)) (zip_with Qminus Vpadd Vpsub)
  /\ dVsdT profile = map (fun x => x / (1 # 10)) (zip_with Qminus Vsadd Vssub).
Proof.
  unfold relaxed_profile.
  cbn [bind reads set_state_M attribute_M attribute set_state state table].
  unfold bind at 1.
  pose proof (proj2 (isentrope_run (np_linspace 100000 max_pressure n_points)
                       (table rock "S" 100000 potential_temperature) potential_temperature
                       (set_state rock 100000 potential_temperature))) as Hsame.
  unfold set_state in Hsame.
  destruct (isentrope _ _ _ _) as [[temperatures | e] rock']; [|discriminate].
  cbn [snd] in Hsame. destruct Hsame as (_ & _ & Htable). cbn [table] in Htable.
  unfold bind at 1. cbn [lift].
  destruct (spline_fit _ _) as [isentrope_spline|]; [|discriminate].
  unfold bind at 1. cbn [reads].
  destruct (relaxation_grid _ _ _ _ _ _ _ _ _ _ _) as [grid|]; [|discriminate].
  unfold bind at 1. cbn [lift].
  destruct (smoothed_interpolants _ (grid_entropies grid) _ _ _ _ _)
    as [[[interp_S interp_dSdP] interp_dSdT]|]; [|discriminate].
  unfold bind at 1. cbn [lift].
  destruct (smoothed_interpolants _ (grid_volumes grid) _ _ _ _ _)
    as [[[interp_V interp_dVdP] interp_dVdT]|]; [|discriminate].
  unfold bind at 1. cbn [lift].
  destruct (interp_isentrope _ _ _ _) as [smoothed|]; [|discriminate].
  unfold bind at 1. cbn [reads evaluate map first_array].
  unfold bind at 1. cbn [lift].
  destruct (compute_depth_gravity_profiles _ _ _ _) as [[depths' gravity']|] eqn:Edg;
    [|discriminate].
  cbn [bind reads ret evaluate map two_arrays fst].
  intros E. injection E as <-.
  cbn [smoothed_temperatures densities depths gravity Vps Vss dVpdT dVsdT].
  rewrite Htable in *.
  repeat split; try reflexivity. exact Edg.
Qed.

End ProfileArrays.

Lemma format_e_zero (q : Q) : q == 0 -> format_e 10 q = "0.0000000000e+00"%string.
Proof.
  intros Hq. unfold format_e, mantissa_exponent.
  assert (Hz : Qeq_bool q 0 = true) by (apply Qeq_bool_iff; exact Hq).
  assert (Hs : Qlt_bool q 0 = false) by (apply Qlt_bool_false; lra).
  rewrite Hz, Hs. vm_compute. reflexivity.
Qed.

Section Saves.
Context `{sp : Scipy} `{cst : Constants}.
Variable interp_smoothed_array_and_derivatives :
  list (list Q) -> list Q -> list Q -> Q -> Q -> Q ->
  (Q -> Q -> Q) * (Q -> Q -> Q) * (Q -> Q -> Q).

(** The depths and the gravity of a profile that [relaxed_profile]
    returns start at the surface values. *)
Lemma relaxed_profile_surface (potential_temperature max_pressure surface_gravity
    outer_radius : Q) (n_points : nat) (n_gridpoints : nat * nat)
    (pressure_stdev temperature_smoothing_factor max_temperature_stdev truncate
     min_grid_temperature max_grid_temperature : Q) (rock : Rock) (profile : Profile) :
  starts_at_initial_value odeint ->
  0 < outer_radius ->
  fst (relaxed_profile interp_smoothed_array_and_derivatives
         potential_temperature max_pressure surface_gravity outer_radius
         n_points n_gridpoints pressure_stdev temperature_smoothing_factor
         max_temperature_stdev truncate min_grid_temperature max_grid_temperature rock)
    = Ok profile ->
  surface_values surface_gravity (depths profile) (gravity profile).
Proof.
  intros Hstart Hr Hrun.
  pose proof (relaxed_profile_arrays interp_smoothed_array_and_derivatives
                _ _ _ _ _ _ _ _ _ _ _ _ _ _ Hrun) as Harr.
  cbn zeta in Harr. destruct Harr as (_ & Hdg & _).
  unfold compute_depth_gravity_profiles in Hdg.
  eapply gravity_iterations_surface; [exact Hstart | exact Hr | | exact Hdg].
  unfold n_gravity_iterations. discriminate.
Qed.

(** [update_plot] returns what it has written exactly when
    [relaxed_profile] returns. *)
Lemma update_plot_Ok (globals : Globals)
    (potential_temperature P_gaussian_GPa T_smoothing : Q) (rock : Rock)
    (written : list string) :
  fst (update_plot interp_smoothed_array_and_derivatives globals
         potential_temperature P_gaussian_GPa T_smoothing rock) = Ok written ->
  exists profile rock',
    relaxed_profile interp_smoothed_array_and_derivatives
      potential_temperature (max_pressure globals)
      (surface_gravity globals) (outer_radius globals) (n_points globals)
      (n_gridpoints globals) (P_gaussian_GPa * 1000000000) T_smoothing
      (max_temperature_stdev globals) (truncate globals)
      (min_grid_temperature globals) (max_grid_temperature globals) rock
    = (Ok profile, rock').
Proof.
  unfold update_plot, bind.
  destruct (relaxed_profile _ _ _ _ _ _ _ _ _ _ _ _ _ rock) as [[profile|e] rock'];
    [eauto | discriminate].
Qed.

End Saves.



(** X12.  A profile of fewer than four points is never returned:
    [relaxed_profile] raises, in its isentrope or at the spline fit of
    the isentrope, whatever the evaluator and the other settings. *)
Theorem relaxed_profile_needs_four_points `{sp : Scipy} `{cst : Constants}
    (interp_smoothed_array_and_derivatives :
       list (list Q) -> list Q -> list Q -> Q -> Q -> Q ->
       (Q -> Q -> Q) * (Q -> Q -> Q) * (Q -> Q -> Q))
    (potential_temperature max_pressure surface_gravity outer_radius : Q)
    (n_points : nat) (n_gridpoints : nat * nat)
    (pressure_stdev temperature_smoothing_factor max_temperature_stdev truncate
     min_grid_temperature max_grid_temperature : Q) (rock : Rock) :
  (n_points < 4)%nat ->
  exists e,
    fst (relaxed_profile interp_smoothed_array_and_derivatives
           potential_temperature max_pressure surface_gravity outer_radius
           n_points n_gridpoints pressure_stdev temperature_smoothing_factor
           max_temperature_stdev truncate min_grid_temperature max_grid_temperature rock)
    = Err e.
Proof.
  intros Hfew. unfold relaxed_profile.
  cbn [bind reads set_state_M attribute_M attribute set_state state table].
  unfold bind at 1.
  destruct (isentrope _ _ _ _) as [[temperatures | e] rock']; [|eauto].
  unfold bind at 1. cbn [lift].
  destruct (spline_fit_too_few (np_linspace 100000 max_pressure n_points) temperatures)
    as [-> | ->]; [rewrite np_linspace_length; exact Hfew | eauto | eauto].
Qed.

Lemma relaxed_profile_needs_four_points_witness :
  exists e,
    fst (relaxed_profile (sp := reference_scipy) (cst := reference_constants)
           reference_smoothing 1512 25000000000 (981 # 100) 6371000 3
           (3%nat, 5%nat) 0 (1 # 4) 30 4 0 0 seismic_rock) = Err e.
Proof.
  apply (relaxed_profile_needs_four_points (sp := reference_scipy)
           (cst := reference_constants)).
  lia.
Defined.

(** ** What [update_plot] writes *)



(** X14.  The table is written from the surface down: whenever
    [update_plot] returns, the first cell of the first data line it has
    written is the depth [0.0000000000e+00]; the integrator is one that
    returns the initial value first and one value per point. *)
Theorem first_row_is_the_surface `{sp : Scipy} `{cst : Constants}
    (interp_smoothed_array_and_derivatives :
       list (list Q) -> list Q -> list Q -> Q -> Q -> Q ->
       (Q -> Q -> Q) * (Q -> Q -> Q) * (Q -> Q -> Q))
    (maxP_GPa g0 r0_km : Q) (n : nat)
    (n_P_gridpoints n_T_gridpoints : nat) (max_T_gaussian truncate' : Q)
    (potential_temperature P_gaussian_GPa T_smoothing : Q) (rock : Rock)
    (written : list string) :
  let globals :=
    setup_globals maxP_GPa g0 r0_km n n_P_gridpoints n_T_gridpoints
      max_T_gaussian truncate' in
  starts_at_initial_value odeint ->
  one_value_per_time odeint ->
  0 < r0_km ->
  fst (update_plot interp_smoothed_array_and_derivatives globals
         potential_temperature P_gaussian_GPa T_smoothing rock) = Ok written ->
  exists line,
    written !! 1%nat = Some line
    /\ length (cells line) = 12%nat
    /\ cells line !! 0%nat = Some "0.0000000000e+00"%string.
Proof.
  intros globals Hstart Hlen Hr Hwritten.
  assert (Hr' : 0 < r0_km * 1000) by (apply Qmult_lt_0_compat; [exact Hr | reflexivity]).
  destruct (update_plot_Ok interp_smoothed_array_and_derivatives globals
              potential_temperature P_gaussian_GPa T_smoothing rock written Hwritten)
    as (profile & rock' & Hrun).
  pose proof (f_equal fst Hrun) as Hfst. cbn [fst] in Hfst.
  destruct (relaxed_profile_lengths interp_smoothed_array_and_derivatives Hlen
              _ _ _ _ _ _ _ _ _ _ _ _ _ _ Hfst) as (Hprofile & Hdepths & Hfour & Hinc).
  destruct (relaxed_profile_surface interp_smoothed_array_and_derivatives
              _ _ _ _ _ _ _ _ _ _ _ _ _ _ Hstart Hr' Hfst) as [Hsurface _].
  cbn [n_points globals setup_globals] in Hprofile, Hdepths, Hfour.
  assert (Hpressures : length (pressures globals) = n).
  { cbn [pressures globals setup_globals]. apply np_linspace_length. }
  destruct (written_table profile (pressures globals) n)
    as (d0 & dlast & rows & H0 & Hlast & Htable & _ & Hrows);
    [rewrite Hpressures; exact Hfour | rewrite Hpressures; exact Hdepths
    | exact Hinc | rewrite Hpressures; exact Hprofile |].
  unfold update_plot, bind in Hwritten. rewrite Hrun in Hwritten.
  cbn [lift fst n_points globals setup_globals] in Hwritten.
  fold globals in Hwritten. rewrite Htable in Hwritten. injection Hwritten as <-.
  destruct (Hrows 0%nat ltac:(lia))
    as (line & depth & pressure & Hline & Hdepth & _ & _ & Hcells & _).
  exists line. split; [exact Hline|].
  rewrite Hcells. split; [reflexivity|].
  cbn [map lookup list_lookup]. f_equal. apply format_e_zero.
  rewrite np_linspace_lookup in Hdepth by lia. injection Hdepth as <-.
  rewrite Hsurface in H0. injection H0 as <-.
  change (inject_Z (Z.of_nat 0)) with 0. ring.
Qed.

Lemma first_row_is_the_surface_witness :
  exists written line,
    fst (update_plot (sp := reference_scipy) (cst := reference_constants)
           reference_smoothing
           (setup_globals 25 (981 # 100) 6371 4 3 5 30 4) 1512 0 (1 # 4)
           seismic_rock) = Ok written
    /\ written !! 1%nat = Some line
    /\ length (cells line) = 12%nat
    /\ cells line !! 0%nat = Some "0.0000000000e+00"%string.
Proof.
  destruct (fst (update_plot (sp := reference_scipy) (cst := reference_constants)
                   reference_smoothing
                   (setup_globals 25 (981 # 100) 6371 4 3 5 30 4) 1512 0 (1 # 4)
                   seismic_rock)) as [written|e] eqn:E; [|vm_compute in E; discriminate].
  destruct (first_row_is_the_surface (sp := reference_scipy)
              (cst := reference_constants) reference_smoothing
              25 (981 # 100) 6371 4 3 5 30 4 1512 0 (1 # 4) seismic_rock written
              euler_odeint_starts_at_initial_value euler_odeint_one_value_per_time
              eq_refl E) as (line & Hline & Hcells & Hfirst).
  exists written, line. auto.
Defined.

(** ** [update_plot] on an entropy out of range *)

Section Failure.
Context `{sp : Scipy} `{cst : Constants}.
Variable interp_smoothed_array_and_derivatives :
  list (list Q) -> list Q -> list Q -> Q -> Q -> Q ->
  (Q -> Q -> Q) * (Q -> Q -> Q) * (Q -> Q -> Q).

(** An exception of the bracketed isentrope is the exception of
    [relaxed_profile]. *)
Lemma relaxed_profile_isentrope_error (potential_temperature max_pressure
    surface_gravity outer_radius : Q) (n_points : nat) (n_gridpoints : nat * nat)
    (pressure_stdev temperature_smoothing_factor max_temperature_stdev truncate
     min_grid_temperature max_grid_temperature : Q) (rock : Rock) (e : error) :
  fst (isentrope (np_linspace 100000 max_pressure n_points)
         (table rock "S" 100000 potential_temperature) potential_temperature
         (set_state rock 100000 potential_temperature)) = Err e ->
  fst (relaxed_profile interp_smoothed_array_and_derivatives
         potential_temperature max_pressure surface_gravity outer_radius
         n_points n_gridpoints pressure_stdev temperature_smoothing_factor
         max_temperature_stdev truncate min_grid_temperature max_grid_temperature rock)
    = Err e.
Proof.
  intros He. unfold relaxed_profile.
  cbn [bind reads set_state_M attribute_M attribute set_state state table].
  unfold bind at 1. unfold set_state in He.
  destruct (isentrope _ _ _ _) as [[temperatures | e'] rock']; [discriminate|].
  cbn [fst] in *. injection He as ->. reflexivity.
Qed.

End Failure.

(** X14.  If the entropy at the potential temperature is not bracketed
    by the evaluator's temperature bounds at some profile pressure, and
    the solves at the pressures before it succeed, [update_plot] stops
    with [RootNotBracketed] and writes nothing. *)
Theorem update_plot_raises_unbracketed `{sp : Scipy} `{cst : Constants}
    (interp_smoothed_array_and_derivatives :
       list (list Q) -> list Q -> list Q -> Q -> Q -> Q ->
       (Q -> Q -> Q) * (Q -> Q -> Q) * (Q -> Q -> Q))
    (globals : Globals) (potential_temperature P_gaussian_GPa T_smoothing : Q)
    (rock : Rock) (before after : list Q) (P : Q) :
  let entropy := table rock "S" 100000 potential_temperature in
  raises_unbracketed brentq ->
  np_linspace 100000 (max_pressure globals) (n_points globals) = before ++ P :: after ->
  (forall P', In P' before -> exists x c, solve rock entropy P' = Root x c) ->
  unbracketed_at rock entropy P ->
  fst (update_plot interp_smoothed_array_and_derivatives globals
         potential_temperature P_gaussian_GPa T_smoothing rock) = Err RootNotBracketed.
Proof.
  intros entropy Hraise Hsplit Hbefore Hun.
  assert (He : fst (isentrope
                      (np_linspace 100000 (max_pressure globals) (n_points globals))
                      entropy potential_temperature
                      (set_state rock 100000 potential_temperature))
               = Err RootNotBracketed).
  { rewrite (proj1 (isentrope_run _ _ _ _)).
    change (set_state rock 100000 potential_temperature)
      with (with_state rock (Some (100000, potential_temperature))).
    rewrite (same_evaluator_solve_all rock _ _ _ (with_state_same_evaluator rock _)).
    rewrite Hsplit. apply solve_all_first_failure; [exact Hbefore|].
    unfold solve. apply Hraise. exact Hun. }
  unfold update_plot, bind.
  pose proof (relaxed_profile_isentrope_error interp_smoothed_array_and_derivatives
                potential_temperature (max_pressure globals) (surface_gravity globals)
                (outer_radius globals) (n_points globals) (n_gridpoints globals)
                (P_gaussian_GPa * 1000000000) T_smoothing (max_temperature_stdev globals)
                (truncate globals) (min_grid_temperature globals)
                (max_grid_temperature globals) rock RootNotBracketed He) as Hrun.
  destruct (relaxed_profile _ _ _ _ _ _ _ _ _ _ _ _ _ _) as [[profile | e] rock'].
  - discriminate.
  - cbn [fst] in *. injection Hrun as ->. reflexivity.
Qed.

(** Entropy that rises by one per kelvin and falls by one per 100 Pa (tilted_rock):
    the target through (1e5 Pa, 2500 K) is no longer bracketed at 2e5 Pa. *)
Lemma update_plot_raises_unbracketed_witness :
  fst (update_plot (sp := reference_scipy) (cst := reference_constants)
         reference_smoothing
         (setup_globals 1 (981 # 100) 6371 3 3 5 30 4) 2500 (1 # 2) (1 # 4)
         tilted_rock) = Err RootNotBracketed.
Proof.
  apply (update_plot_raises_unbracketed (sp := reference_scipy)
           (cst := reference_constants) reference_smoothing
           (setup_globals 1 (981 # 100) 6371 3 3 5 30 4) 2500 (1 # 2) (1 # 4)
           tilted_rock [200000 # 2] [2000000000 # 2] (1000100000 # 2)).
  - apply bisect_raises_unbracketed.
  - vm_compute. reflexivity.
  - intros P' [<- | []]. eexists. eexists. vm_compute. reflexivity.
  - vm_compute. reflexivity.
Defined.

(** ** Successive calls of [update_plot] *)

Lemma same_evaluator_with_state (rock rock' : Rock) :
  same_evaluator rock rock' -> rock' = with_state rock (state rock').
Proof.
  intros (Hb & Hm & Ht). destruct rock'. unfold with_state. cbn in *.
  rewrite Hb, Hm, Ht. reflexivity.
Qed.

Section Calls.
Context `{sp : Scipy} `{cst : Constants}.
Variable interp_smoothed_array_and_derivatives :
  list (list Q) -> list Q -> list Q -> Q -> Q -> Q ->
  (Q -> Q -> Q) * (Q -> Q -> Q) * (Q -> Q -> Q).

Lemma update_plot_evaluator (globals : Globals)
    (potential_temperature P_gaussian_GPa T_smoothing : Q) (rock : Rock) :
  same_evaluator rock
    (snd (update_plot interp_smoothed_array_and_derivatives globals
            potential_temperature P_gaussian_GPa T_smoothing rock)).
Proof.
  unfold update_plot, bind.
  pose proof (relaxed_profile_evaluator interp_smoothed_array_and_derivatives
                potential_temperature (max_pressure globals) (surface_gravity globals)
                (outer_radius globals) (n_points globals) (n_gridpoints globals)
                (P_gaussian_GPa * 1000000000) T_smoothing (max_temperature_stdev globals)
                (truncate globals) (min_grid_temperature globals)
                (max_grid_temperature globals) rock) as Hsnd.
  destruct (relaxed_profile _ _ _ _ _ _ _ _ _ _ _ _ _ _) as [[profile | e] rock'];
    cbn [snd lift] in *; rewrite Hsnd;
    (eapply same_evaluator_trans; [|apply isentrope_run]);
    unfold same_evaluator; cbn; auto.
Qed.

Lemma update_plot_with_state (globals : Globals)
    (potential_temperature P_gaussian_GPa T_smoothing : Q) (rock : Rock)
    (st : option (Q * Q)) :
  update_plot interp_smoothed_array_and_derivatives globals
    potential_temperature P_gaussian_GPa T_smoothing (with_state rock st)
  = update_plot interp_smoothed_array_and_derivatives globals
      potential_temperature P_gaussian_GPa T_smoothing rock.
Proof. reflexivity. Qed.

End Calls.

(** X15.  Calls of [update_plot] do not leak into one another: after
    any earlier call, with whatever settings, a call writes the table
    and leaves the evaluator exactly as it would on the evaluator as it
    was before that earlier call. *)
Theorem update_plot_calls_are_independent `{sp : Scipy} `{cst : Constants}
    (interp_smoothed_array_and_derivatives :
       list (list Q) -> list Q -> list Q -> Q -> Q -> Q ->
       (Q -> Q -> Q) * (Q -> Q -> Q) * (Q -> Q -> Q))
    (globals1 globals2 : Globals)
    (potential_temperature1 P_gaussian_GPa1 T_smoothing1 : Q)
    (potential_temperature2 P_gaussian_GPa2 T_smoothing2 : Q) (rock : Rock) :
  update_plot interp_smoothed_array_and_derivatives globals2
    potential_temperature2 P_gaussian_GPa2 T_smoothing2
    (snd (update_plot interp_smoothed_array_and_derivatives globals1
            potential_temperature1 P_gaussian_GPa1 T_smoothing1 rock))
  = update_plot interp_smoothed_array_and_derivatives globals2
      potential_temperature2 P_gaussian_GPa2 T_smoothing2 rock.
Proof.
  rewrite (same_evaluator_with_state rock _
             (update_plot_evaluator interp_smoothed_array_and_derivatives globals1
                potential_temperature1 P_gaussian_GPa1 T_smoothing1 rock)).
  apply update_plot_with_state.
Qed.

(** ** Resampling onto equal depths *)

Section Resampling.
Context `{sp : Scipy}.


End Resampling.




